(** * Tracker v2.5.1: CSV interchange and streak analysis

    A shallow embedding of the data-interchange core of the tracker
    ([src/core/core-scripts.js]) and of the streak analysis of the habit and
    workout trackers ([src/habits/habits-scripts.js]), with the properties
    that the specification states about them.

    Conventions of the embedding.
    - A JavaScript string is a [string]: a sequence of code units, of which
      the 8-bit ones are representable.
    - [null] and [undefined] are constructors of the value types below; the
      number [NaN] is [None] in an [option Z].
    - A [while] loop over an index [i] into a string is a structural
      recursion over the suffix that starts at [i]. *)

From Stdlib Require Import ZArith Lia Ascii String List Bool.
From Stdlib Require Import Sorting.Sorted Sorting.Permutation.
From stdpp Require Import base gmap strings list fin_maps sorting.

Open Scope string_scope.
Open Scope list_scope.

(** ** Characters *)

Definition dquote : ascii := "034"%char.
Definition comma : ascii := ","%char.
Definition newline : ascii := "010"%char.
Definition creturn : ascii := "013"%char.
Definition underscore : ascii := "_"%char.

(** [s + c], appending one code unit. *)
Definition snoc (s : string) (c : ascii) : string := s +:+ String c "".

(** [s.includes(c)] for a one-character needle. *)
Fixpoint includes (c : ascii) (s : string) : bool :=
  match s with
  | EmptyString => false
  | String x rest => Ascii.eqb x c || includes c rest
  end.

(** ** The row tokenizer: [parseCSVRow] *)

Module Tokenizer.

(** The loop of [parseCSVRow]: [row] is the input from index [i] on, the
    other arguments are the loop's three variables. *)
Fixpoint scan (row : string) (insideQuotes : bool) (currentValue : string)
    (result : list string) : list string :=
  match row with
  | EmptyString => result ++ [currentValue]
  | String char rest =>
      if Ascii.eqb char dquote then
        match rest with
        | String next rest' =>
            if Ascii.eqb next dquote
            then scan rest' insideQuotes (snoc currentValue dquote) result
            else scan rest (negb insideQuotes) currentValue result
        | EmptyString => scan rest (negb insideQuotes) currentValue result
        end
      else if Ascii.eqb char comma && negb insideQuotes
      then scan rest false "" (result ++ [currentValue])
      else scan rest insideQuotes (snoc currentValue char) result
  end.

Definition parseCSVRow (row : string) : list string := scan row false "" [].

(** The scan as the specification words it: a quote followed by a quote
    is a literal quote only while inside quotes. *)
Fixpoint refScan (row : string) (insideQuotes : bool) (currentValue : string)
    (result : list string) : list string :=
  match row with
  | EmptyString => result ++ [currentValue]
  | String char rest =>
      if Ascii.eqb char dquote then
        match rest with
        | String next rest' =>
            if insideQuotes && Ascii.eqb next dquote
            then refScan rest' insideQuotes (snoc currentValue dquote) result
            else refScan rest (negb insideQuotes) currentValue result
        | EmptyString => refScan rest (negb insideQuotes) currentValue result
        end
      else if Ascii.eqb char comma && negb insideQuotes
      then refScan rest false "" (result ++ [currentValue])
      else refScan rest insideQuotes (snoc currentValue char) result
  end.

Definition parseRowRef (row : string) : list string := refScan row false "" [].

End Tokenizer.

(** ** JavaScript values

    The values that the codec reads and writes: [null], [undefined],
    strings, integral numbers, [NaN] and booleans.  Numbers with a
    fractional part and numbers beyond the exactly representable integers
    are outside the embedding. *)

Inductive value : Type :=
  | VNull
  | VUndefined
  | VStr (s : string)
  | VNum (z : Z)
  | VNaN
  | VBool (b : bool).

(** A plain object used as a map: its own string-keyed properties in
    insertion order.  (Keys that are canonical array indices, which
    JavaScript enumerates first, do not occur among the keys of the
    tracker.) *)
Definition obj (A : Type) : Type := list (string * A).

Fixpoint objGet {A : Type} (k : string) (o : obj A) : option A :=
  match o with
  | [] => None
  | (k', v) :: rest => if String.eqb k' k then Some v else objGet k rest
  end.

Fixpoint objPut {A : Type} (k : string) (v : A) (o : obj A) : obj A :=
  match o with
  | [] => [(k, v)]
  | (k', v') :: rest =>
      if String.eqb k' k then (k', v) :: rest else (k', v') :: objPut k v rest
  end.

Definition protoName : string := "__proto__".

(** [o[k] = v] on an object created by a literal, for a [v] that is not
    itself the object's prototype: the assignment to ["__proto__"] goes to
    the accessor of [Object.prototype] and creates no own property. *)
Definition objSet {A : Type} (k : string) (v : A) (o : obj A) : obj A :=
  if String.eqb k protoName then o else objPut k v o.

(** The property names that every object literal inherits from
    [Object.prototype]; reading one of them yields a function (or, for
    ["__proto__"], the prototype), never [undefined]. *)
Definition inheritedNames : list string :=
  [ "constructor"; "__defineGetter__"; "__defineSetter__"; "hasOwnProperty";
    "__lookupGetter__"; "__lookupSetter__"; "isPrototypeOf";
    "propertyIsEnumerable"; "toString"; "valueOf"; "__proto__";
    "toLocaleString" ].

Definition inherited (k : string) : bool :=
  existsb (String.eqb k) inheritedNames.

(** ** Numbers and text *)

Module Num.

Local Open Scope Z_scope.

Definition digitChar (d : Z) : ascii := ascii_of_nat (48 + Z.to_nat d)%nat.

(** Decimal digits of [n >= 0], most significant first, in front of
    [acc]; [fuel] bounds the number of divisions. *)
Fixpoint digitsOf (fuel : nat) (n : Z) (acc : string) : string :=
  let acc' := String (digitChar (n mod 10)) acc in
  match fuel with
  | O => acc'
  | S fuel' => if n <? 10 then acc' else digitsOf fuel' (n / 10) acc'
  end.

(** [String(n)] and [n.toString()] for an integer. *)
Definition toString (z : Z) : string :=
  if z <? 0
  then String "-" (digitsOf (Z.to_nat (Z.log2 (- z))) (- z) "")
  else digitsOf (Z.to_nat (Z.log2 z)) z "".

(** White space as [trim] and [parseInt] understand it. *)
Definition isWhite (c : ascii) : bool :=
  let n := Z.of_nat (nat_of_ascii c) in
  ((9 <=? n) && (n <=? 13)) || (n =? 32) || (n =? 160).

Fixpoint trimStart (s : string) : string :=
  match s with
  | EmptyString => EmptyString
  | String c rest => if isWhite c then trimStart rest else s
  end.

Definition digitVal (radix : Z) (c : ascii) : option Z :=
  let n := Z.of_nat (nat_of_ascii c) in
  let d :=
    if (48 <=? n) && (n <=? 57) then Some (n - 48)
    else if (97 <=? n) && (n <=? 122) then Some (n - 87)
    else if (65 <=? n) && (n <=? 90) then Some (n - 55)
    else None in
  match d with
  | Some v => if v <? radix then Some v else None
  | None => None
  end.

(** The longest prefix of digits, as a number; [None] when it is empty. *)
Fixpoint digitsLoop (radix : Z) (s : string) (acc : option Z) : option Z :=
  match s with
  | EmptyString => acc
  | String c rest =>
      match digitVal radix c with
      | Some d =>
          digitsLoop radix rest
            (Some (radix * (match acc with Some a => a | None => 0 end) + d))
      | None => acc
      end
  end.

Definition stripHex (s : string) : option string :=
  match s with
  | String "0" (String "x" rest) => Some rest
  | String "0" (String "X" rest) => Some rest
  | _ => None
  end.

(** [parseInt(s)] without a radix; [None] is [NaN]. *)
Definition parseInt (s : string) : option Z :=
  let t := trimStart s in
  let '(sign, t) :=
    match t with
    | String "-" rest => (-1, rest)
    | String "+" rest => (1, rest)
    | _ => (1, t)
    end in
  let magnitude :=
    match stripHex t with
    | Some rest => digitsLoop 16 rest None
    | None => digitsLoop 10 t None
    end in
  match magnitude with
  | Some m => Some (sign * m)
  | None => None
  end.

End Num.

(** [String(v)] *)
Definition toString (v : value) : string :=
  match v with
  | VNull => "null"
  | VUndefined => "undefined"
  | VStr s => s
  | VNum z => Num.toString z
  | VNaN => "NaN"
  | VBool true => "true"
  | VBool false => "false"
  end.

(** [parseInt(v)] *)
Definition parseInt (v : value) : value :=
  match Num.parseInt (toString v) with
  | Some z => VNum z
  | None => VNaN
  end.

(** [v === s] for a string literal [s]. *)
Definition isStr (v : value) (s : string) : bool :=
  match v with
  | VStr s' => String.eqb s' s
  | _ => false
  end.

Module Encoder.

(** The [replace] of [escapeCSV]: every double quote becomes two. *)
Fixpoint doubleQuotes (s : string) : string :=
  match s with
  | EmptyString => EmptyString
  | String c rest =>
      if Ascii.eqb c dquote
      then String dquote (String dquote (doubleQuotes rest))
      else String c (doubleQuotes rest)
  end.

Definition needsQuoting (s : string) : bool :=
  includes comma s || includes dquote s || includes newline s.

(** [escapeCSV] past its first line, on the string of the value. *)
Definition escapeString (stringValue : string) : string :=
  if needsQuoting stringValue
  then String dquote (doubleQuotes stringValue +:+ String dquote "")
  else stringValue.

Definition escapeCSV (v : value) : string :=
  match v with
  | VNull | VUndefined => ""
  | _ => escapeString (toString v)
  end.

(** [row.map(escapeCSV).join(',')] *)
Definition joinRow (row : list value) : string :=
  String.concat "," (map escapeCSV row).

(** The text that a value contributes to its column: [escapeCSV] before
    any quoting. *)
Definition fieldText (v : value) : string :=
  match v with
  | VNull | VUndefined => ""
  | _ => toString v
  end.

Fixpoint onlyQuotes (s : string) : bool :=
  match s with
  | EmptyString => true
  | String c rest => Ascii.eqb c dquote && onlyQuotes rest
  end.

(** One or more double quotes and nothing else. *)
Definition quotesOnly (s : string) : bool :=
  negb (String.eqb s "") && onlyQuotes s.

End Encoder.

(** ** The data model of the codec *)

Module IntakeEntry.
Record t : Type := mk { amount : value; timestamp : value }.
End IntakeEntry.

Module WorkoutEntry.
Record t : Type := mk { type : value; count : value; timestamp : value }.
End WorkoutEntry.

Module WorkoutState.
Record t : Type := mk { completed : value; order : value }.
End WorkoutState.

Module Tracker.
Record t : Type :=
  mk { goal : value; intake : value; history : obj (list IntakeEntry.t) }.
End Tracker.

Module Workout.
Record t : Type :=
  mk { state : obj WorkoutState.t;
       count : obj value;
       history : obj (list WorkoutEntry.t) }.
End Workout.

(** A habit; [history] is [None] when the property is missing or falsy. *)
Module Habit.
Record t : Type :=
  mk { name : value; color : value; history : option (obj value) }.
End Habit.

Module Settings.
Record t : Type := mk { theme : value; reminder : value }.
End Settings.

(** What [convertDataToCSV] reads from the store, the JSON texts parsed. *)
Module Snapshot.
Record t : Type :=
  mk { water : Tracker.t;
       protein : Tracker.t;
       workout : Workout.t;
       habits : list Habit.t;
       settings : Settings.t }.
End Snapshot.

(** The [importedData] of [parseCSVData].  The function returns it with
    each history, the workout state and count and the habit list turned
    into JSON text by [JSON.stringify]; the embedding stops before that
    step and keeps the structures. *)
Module Imported.
Record t : Type :=
  mk { version : value;
       exportDate : value;
       water : Tracker.t;
       protein : Tracker.t;
       workout : Workout.t;
       habits : list Habit.t;
       settings : Settings.t }.

Definition setVersion (d : t) (v : value) : t :=
  mk v (exportDate d) (water d) (protein d) (workout d) (habits d) (settings d).
Definition setExportDate (d : t) (v : value) : t :=
  mk (version d) v (water d) (protein d) (workout d) (habits d) (settings d).
Definition setWater (d : t) (w : Tracker.t) : t :=
  mk (version d) (exportDate d) w (protein d) (workout d) (habits d) (settings d).
Definition setProtein (d : t) (p : Tracker.t) : t :=
  mk (version d) (exportDate d) (water d) p (workout d) (habits d) (settings d).
Definition setWorkout (d : t) (w : Workout.t) : t :=
  mk (version d) (exportDate d) (water d) (protein d) w (habits d) (settings d).
Definition setHabits (d : t) (h : list Habit.t) : t :=
  mk (version d) (exportDate d) (water d) (protein d) (workout d) h (settings d).
Definition setSettings (d : t) (s : Settings.t) : t :=
  mk (version d) (exportDate d) (water d) (protein d) (workout d) (habits d) s.
End Imported.

(** ** Encoding: [convertDataToCSV] *)

Module Convert.
Import Encoder.

Definition headers : list string :=
  [ "data_type"; "key"; "value"; "date"; "amount"; "timestamp"; "type";
    "count"; "name"; "color"; "completed"; "order" ].

(** The empty string that [new Array(headers.length).fill('')] leaves in
    every unused column. *)
Definition blank : value := VStr "".

(** [addRow(dataType, key, value)], as the text of the row it pushes. *)
Definition addRow (dataType key : string) (v : value) : string :=
  joinRow [ VStr dataType; VStr key; v; blank; blank; blank; blank; blank;
            blank; blank; blank; blank ].

(** The template literal [${a}_${b}]. *)
Definition composite (a b : string) : string := a +:+ "_" +:+ b.

(** The rows of one intake history; the source has this loop twice, for
    water and for protein, with [dataType] the only difference. *)
Definition intakeHistoryRows (dataType : string)
    (history : obj (list IntakeEntry.t)) : list string :=
  flat_map (fun '(date, entries) =>
    imap (fun index entry =>
      joinRow [ VStr dataType;
                VStr (composite date (Num.toString (Z.of_nat index)));
                blank; VStr date; IntakeEntry.amount entry;
                IntakeEntry.timestamp entry;
                blank; blank; blank; blank; blank; blank ]) entries) history.

Definition trackerRows (dataType historyType : string) (t : Tracker.t)
    : list string :=
  [ addRow dataType "goal" (Tracker.goal t);
    addRow dataType "intake" (Tracker.intake t) ]
  ++ intakeHistoryRows historyType (Tracker.history t).

Definition workoutStateRows (workoutState : obj WorkoutState.t) : list string :=
  map (fun '(type, state) =>
    joinRow [ VStr "workout_state"; VStr type; blank; blank; blank; blank;
              VStr type; blank; blank; blank;
              WorkoutState.completed state; WorkoutState.order state ])
    workoutState.

Definition workoutCountRows (workoutCount : obj value) : list string :=
  map (fun '(type, count) =>
    joinRow [ VStr "workout_count"; VStr type; blank; blank; blank; blank;
              VStr type; count; blank; blank; blank; blank ])
    workoutCount.

Definition workoutHistoryRows (workoutHistory : obj (list WorkoutEntry.t))
    : list string :=
  flat_map (fun '(date, entries) =>
    imap (fun index entry =>
      joinRow [ VStr "workout_history";
                VStr (composite date (Num.toString (Z.of_nat index)));
                blank; VStr date; blank; WorkoutEntry.timestamp entry;
                WorkoutEntry.type entry; WorkoutEntry.count entry;
                blank; blank; blank; blank ]) entries) workoutHistory.

Definition habitHistoryRows (habitIndex : nat) (history : obj value)
    : list string :=
  map (fun '(date, status) =>
    joinRow [ VStr "habit_history";
              VStr (composite (Num.toString (Z.of_nat habitIndex)) date);
              status; VStr date; blank; blank; blank; blank; blank; blank;
              blank; blank ])
    history.

Definition habitRows (habitIndex : nat) (habit : Habit.t) : list string :=
  joinRow [ VStr "habit"; VStr (Num.toString (Z.of_nat habitIndex)); blank;
            blank; blank; blank; blank; blank; Habit.name habit;
            Habit.color habit; blank; blank ]
  :: match Habit.history habit with
     | Some history => habitHistoryRows habitIndex history
     | None => []
     end.

(** All the rows, the header first; [now] is [new Date().toISOString()]. *)
Definition rowsOf (now : string) (s : Snapshot.t) : list string :=
  [ String.concat "," headers;
    addRow "meta" "version" (VStr "2.0");
    addRow "meta" "exportDate" (VStr now) ]
  ++ trackerRows "water" "water_history" (Snapshot.water s)
  ++ trackerRows "protein" "protein_history" (Snapshot.protein s)
  ++ workoutStateRows (Workout.state (Snapshot.workout s))
  ++ workoutCountRows (Workout.count (Snapshot.workout s))
  ++ workoutHistoryRows (Workout.history (Snapshot.workout s))
  ++ concat (imap habitRows (Snapshot.habits s))
  ++ [ addRow "settings" "theme" (Settings.theme (Snapshot.settings s));
       addRow "settings" "reminder" (Settings.reminder (Snapshot.settings s)) ].

Definition convertDataToCSV (now : string) (s : Snapshot.t) : string :=
  String.concat (String newline "") (rowsOf now s).

End Convert.

(** ** Decoding: [parseCSVData] *)

Inductive result (A : Type) : Type :=
  | Ok (a : A)
  | FormatError  (* [throw new Error('Invalid CSV file format')] *)
  | TypeError.   (* a [TypeError] raised by the runtime *)
Arguments Ok {A} a.
Arguments FormatError {A}.
Arguments TypeError {A}.

Definition bind {A B : Type} (r : result A) (f : A -> result B) : result B :=
  match r with
  | Ok a => f a
  | FormatError => FormatError
  | TypeError => TypeError
  end.

Module Parse.
Import Tokenizer.

(** [csvData.split(/\r?\n/)]; [cur] is the line being collected. *)
Fixpoint splitLines (s : string) (cur : string) : list string :=
  match s with
  | EmptyString => [cur]
  | String c rest =>
      if Ascii.eqb c newline then cur :: splitLines rest ""
      else if Ascii.eqb c creturn then
        match rest with
        | String c' rest' =>
            if Ascii.eqb c' newline then cur :: splitLines rest' ""
            else splitLines rest (snoc cur c)
        | EmptyString => splitLines rest (snoc cur c)
        end
      else splitLines rest (snoc cur c)
  end.

(** [key.split('_')] *)
Fixpoint splitOn (sep : ascii) (s : string) (cur : string) : list string :=
  match s with
  | EmptyString => [cur]
  | String c rest =>
      if Ascii.eqb c sep then cur :: splitOn sep rest ""
      else splitOn sep rest (snoc cur c)
  end.

(** [!row.trim()]: the row has white space only. *)
Fixpoint allWhite (s : string) : bool :=
  match s with
  | EmptyString => true
  | String c rest => Num.isWhite c && allWhite rest
  end.

(** The [forEach] that fills [headerMap]. *)
Fixpoint buildHeaderMap (headers : list string) (index : nat)
    (headerMap : obj nat) : obj nat :=
  match headers with
  | [] => headerMap
  | header :: rest => buildHeaderMap rest (S index) (objSet header index headerMap)
  end.

(** [row[headerMap.column]] *)
Definition cell (headerMap : obj nat) (row : list string) (column : string)
    : value :=
  match objGet column headerMap with
  | Some i => match row !! i with Some s => VStr s | None => VUndefined end
  | None => VUndefined
  end.

(** [if (!history[date]) history[date] = []; history[date].push(entry)] *)
Definition pushEntry {A : Type} (date : value) (entry : A)
    (history : obj (list A)) : result (obj (list A)) :=
  let k := toString date in
  match objGet k history with
  | Some entries => Ok (objPut k (entries ++ [entry]) history)
  | None => if inherited k then TypeError else Ok (objPut k [entry] history)
  end.

Definition placeholder : Habit.t := Habit.mk VUndefined VUndefined (Some []).

(** [while (data.length <= idx) data.push({ history: {} })] *)
Definition growTo (data : list Habit.t) (idx : nat) : list Habit.t :=
  data ++ replicate (S idx - length data) placeholder.

(** An index into the habit list: [parseInt] gave a number that is not
    negative.  With [NaN] or a negative number the list is not grown and
    reading [.history] of the missing element raises. *)
Definition habitSlot (idx : value) : result nat :=
  match idx with
  | VNum z => if (0 <=? z)%Z then Ok (Z.to_nat z) else TypeError
  | _ => TypeError
  end.

Definition intakeRow (headerMap : obj nat) (row : list string) (t : Tracker.t)
    : result Tracker.t :=
  let date := cell headerMap row "date" in
  let amount := parseInt (cell headerMap row "amount") in
  let timestamp := cell headerMap row "timestamp" in
  bind (pushEntry date (IntakeEntry.mk amount timestamp) (Tracker.history t))
    (fun h => Ok (Tracker.mk (Tracker.goal t) (Tracker.intake t) h)).

Definition scalarRow (key v : value) (t : Tracker.t) : Tracker.t :=
  let t := if isStr key "goal"
           then Tracker.mk v (Tracker.intake t) (Tracker.history t) else t in
  if isStr key "intake"
  then Tracker.mk (Tracker.goal t) v (Tracker.history t) else t.

(** The [switch] on the data type of a parsed row. *)
Definition dispatch (headerMap : obj nat) (d : Imported.t) (row : list string)
    : result Imported.t :=
  let dataType := cell headerMap row "data_type" in
  let key := cell headerMap row "key" in
  let v := cell headerMap row "value" in
  if isStr dataType "meta" then
    let d := if isStr key "version" then Imported.setVersion d v else d in
    Ok (if isStr key "exportDate" then Imported.setExportDate d v else d)
  else if isStr dataType "water" then
    Ok (Imported.setWater d (scalarRow key v (Imported.water d)))
  else if isStr dataType "water_history" then
    bind (intakeRow headerMap row (Imported.water d))
      (fun t => Ok (Imported.setWater d t))
  else if isStr dataType "protein" then
    Ok (Imported.setProtein d (scalarRow key v (Imported.protein d)))
  else if isStr dataType "protein_history" then
    bind (intakeRow headerMap row (Imported.protein d))
      (fun t => Ok (Imported.setProtein d t))
  else if isStr dataType "workout_state" then
    let workoutType := cell headerMap row "type" in
    let completed := VBool (isStr (cell headerMap row "completed") "true") in
    let order := parseInt (cell headerMap row "order") in
    let w := Imported.workout d in
    Ok (Imported.setWorkout d
          (Workout.mk
             (objSet (toString workoutType) (WorkoutState.mk completed order)
                (Workout.state w))
             (Workout.count w) (Workout.history w)))
  else if isStr dataType "workout_count" then
    let countType := cell headerMap row "type" in
    let count := parseInt (cell headerMap row "count") in
    let w := Imported.workout d in
    Ok (Imported.setWorkout d
          (Workout.mk (Workout.state w)
             (objSet (toString countType) count (Workout.count w))
             (Workout.history w)))
  else if isStr dataType "workout_history" then
    let workoutDate := cell headerMap row "date" in
    let entryType := cell headerMap row "type" in
    let entryCount := parseInt (cell headerMap row "count") in
    let entryTimestamp := cell headerMap row "timestamp" in
    let w := Imported.workout d in
    bind (pushEntry workoutDate
            (WorkoutEntry.mk entryType entryCount entryTimestamp)
            (Workout.history w))
      (fun h => Ok (Imported.setWorkout d
                      (Workout.mk (Workout.state w) (Workout.count w) h)))
  else if isStr dataType "habit" then
    let habitName := cell headerMap row "name" in
    let habitColor := cell headerMap row "color" in
    bind (habitSlot (parseInt key)) (fun habitIndex =>
      let data := growTo (Imported.habits d) habitIndex in
      match data !! habitIndex with
      | Some old =>
          Ok (Imported.setHabits d
                (<[habitIndex :=
                     Habit.mk habitName habitColor
                       (Some (default [] (Habit.history old)))]> data))
      | None => TypeError
      end)
  else if isStr dataType "habit_history" then
    match key with
    | VStr k =>
        let parts := splitOn underscore k "" in
        let habitIdx := default VUndefined (VStr <$> parts !! 0%nat) in
        let historyDate := default VUndefined (VStr <$> parts !! 1%nat) in
        bind (habitSlot (parseInt habitIdx)) (fun idx =>
          let data := growTo (Imported.habits d) idx in
          match data !! idx with
          | Some old =>
              let history := default [] (Habit.history old) in
              Ok (Imported.setHabits d
                    (<[idx :=
                         Habit.mk (Habit.name old) (Habit.color old)
                           (Some (objSet (toString historyDate) v history))]>
                       data))
          | None => TypeError
          end)
    | _ => TypeError
    end
  else if isStr dataType "settings" then
    let s := Imported.settings d in
    let s := if isStr key "theme"
             then Settings.mk v (Settings.reminder s) else s in
    Ok (Imported.setSettings d
          (if isStr key "reminder" then Settings.mk (Settings.theme s) v else s))
  else Ok d.

(** The body of the [for] loop over the data rows. *)
Definition processRow (headerMap : obj nat) (d : Imported.t) (line : string)
    : result Imported.t :=
  if allWhite line then Ok d else dispatch headerMap d (parseCSVRow line).

Fixpoint processRows (headerMap : obj nat) (rows : list string)
    (d : Imported.t) : result Imported.t :=
  match rows with
  | [] => Ok d
  | line :: rest =>
      bind (processRow headerMap d line) (processRows headerMap rest)
  end.

(** [importedData] as initialised; [now] is [new Date().toISOString()]. *)
Definition initial (now : string) : Imported.t :=
  Imported.mk (VStr "2.0") (VStr now)
    (Tracker.mk VNull VNull []) (Tracker.mk VNull VNull [])
    (Workout.mk [] [] []) [] (Settings.mk VNull VNull).

Definition parseCSVData (now : string) (csvData : string)
    : result Imported.t :=
  let rows := splitLines csvData "" in
  if (length rows <? 2)%nat then FormatError else
  let headers := parseCSVRow (default "" (head rows)) in
  let headerMap := buildHeaderMap headers 0 [] in
  processRows headerMap (tail rows) (initial now).

End Parse.

(** ** Importing: the storage half of [importData] *)

Module ImportData.

Definition truthy (v : value) : bool :=
  match v with
  | VStr s => negb (String.eqb s "")
  | VNum z => negb (z =? 0)%Z
  | VBool b => b
  | VNull | VUndefined | VNaN => false
  end.

Inductive outcome : Type :=
  | Rejected       (* the file did not parse, or is too large: nothing written *)
  | Cancelled      (* the user declined the confirmation *)
  | Imported       (* every write succeeded *)
  | RolledBack     (* a write failed and the backup was written back *)
  | RollbackFailed.  (* a write failed and so did one of the restoring writes *)

Section Store.

(** The external store.  [accepts store k v] tells whether
    [localStorage.setItem(k, v)] succeeds on [store]; when it does not, the
    call throws and leaves the store as it was. *)
Variable accepts : gmap string string -> string -> string -> bool.

(** [JSON.stringify] *)
Variable stringify : forall A : Type, A -> string.

Definition setItem (store : gmap string string) (k v : string)
    : option (gmap string string) :=
  if accepts store k v then Some (<[k := v]> store) else None.

(** The guarded [setItem] calls of the [try] block, in order: key and
    value; a call is made when its value is truthy. *)
Definition plan (d : Imported.t) : list (string * value) :=
  [ ("goal_water", Tracker.goal (Imported.water d));
    ("intake_water", Tracker.intake (Imported.water d));
    ("history_water", VStr (stringify _ (Tracker.history (Imported.water d))));
    ("goal_protein", Tracker.goal (Imported.protein d));
    ("intake_protein", Tracker.intake (Imported.protein d));
    ("history_protein",
      VStr (stringify _ (Tracker.history (Imported.protein d))));
    ("workout_state", VStr (stringify _ (Workout.state (Imported.workout d))));
    ("workout_count", VStr (stringify _ (Workout.count (Imported.workout d))));
    ("workout_history",
      VStr (stringify _ (Workout.history (Imported.workout d))));
    ("habits_data", VStr (stringify _ (Imported.habits d)));
    ("app_theme", Settings.theme (Imported.settings d));
    ("global_reminder", Settings.reminder (Imported.settings d)) ].

(** Runs the writes; the boolean is [false] when one of them threw, and
    the store is then as the writes before it left it. *)
Fixpoint writeAll (store : gmap string string) (writes : list (string * value))
    : gmap string string * bool :=
  match writes with
  | [] => (store, true)
  | (k, v) :: rest =>
      if truthy v then
        match setItem store k (toString v) with
        | Some store' => writeAll store' rest
        | None => (store, false)
        end
      else writeAll store rest
  end.

(** The loop that fills [backup], an object literal, from the store. *)
Definition takeBackup (store : gmap string string) : obj string :=
  foldl (fun backup '(k, v) => objSet k v backup) [] (map_to_list store).

(** [Object.keys(backup).forEach(key => localStorage.setItem(key, backup[key]))] *)
Fixpoint restore (store : gmap string string) (backup : obj string)
    : gmap string string * bool :=
  match backup with
  | [] => (store, true)
  | (k, v) :: rest =>
      match setItem store k v with
      | Some store' => restore store' rest
      | None => (store, false)
      end
  end.

(** From the confirmation on: backup, the writes and, when one throws,
    [localStorage.clear()] and the restoring writes. *)
Definition applyImport (store : gmap string string) (d : Imported.t)
    : gmap string string * outcome :=
  let backup := takeBackup store in
  match writeAll store (plan d) with
  | (store', true) => (store', Imported)
  | (_, false) =>
      match restore ∅ backup with
      | (store'', true) => (store'', RolledBack)
      | (store'', false) => (store'', RollbackFailed)
      end
  end.

(** The [onload] handler of [importData]; [confirmed] is the answer to the
    confirmation dialog. *)
Definition importData (now : string) (confirmed : bool)
    (store : gmap string string) (csvData : string)
    : gmap string string * outcome :=
  match Parse.parseCSVData now csvData with
  | Ok d =>
      if (4718592 <? Z.of_nat (String.length (stringify _ d)))%Z
      then (store, Rejected)
      else if confirmed then applyImport store d
      else (store, Cancelled)
  | _ => (store, Rejected)
  end.

End Store.

(** The store of the interface contract: a write fails when it would take
    the store beyond its capacity. *)
Definition entrySize (kv : string * string) : nat :=
  String.length kv.1 + String.length kv.2.

Definition storeSize (store : gmap string string) : nat :=
  sum_list_with entrySize (map_to_list store).

Definition withinQuota (capacity : nat) (store : gmap string string)
    (k v : string) : bool :=
  (storeSize (<[k := v]> store) <=? capacity)%nat.

End ImportData.

(** ** Calendar days

    [new Date(key)] for a date key.  A string of the form [YYYY-MM-DD] that
    names a day of the calendar is midnight UTC of that day; every other
    string counts as an invalid date here (the keys of the tracker come
    from [formatDate] and have this form). *)

Module Date.

Local Open Scope Z_scope.

Definition msPerDay : Z := 86400000.

Definition dayFromYear (y : Z) : Z :=
  365 * (y - 1970) + (y - 1969) / 4 - (y - 1901) / 100 + (y - 1601) / 400.

Definition isLeap (y : Z) : bool :=
  (y mod 4 =? 0) && (negb (y mod 100 =? 0) || (y mod 400 =? 0)).

Definition daysInMonth (y m : Z) : Z :=
  if m =? 2 then (if isLeap y then 29 else 28)
  else if (m =? 4) || (m =? 6) || (m =? 9) || (m =? 11) then 30
  else 31.

(** Days of the year before the first of month [m]. *)
Definition daysBefore (y m : Z) : Z :=
  let leap := if isLeap y then 1 else 0 in
  if m =? 1 then 0
  else if m =? 2 then 31
  else if m =? 3 then 59 + leap
  else if m =? 4 then 90 + leap
  else if m =? 5 then 120 + leap
  else if m =? 6 then 151 + leap
  else if m =? 7 then 181 + leap
  else if m =? 8 then 212 + leap
  else if m =? 9 then 243 + leap
  else if m =? 10 then 273 + leap
  else if m =? 11 then 304 + leap
  else 334 + leap.

(** The day number of a calendar day, day 0 being 1970-01-01. *)
Definition dayNumber (y m d : Z) : Z := dayFromYear y + daysBefore y m + (d - 1).

Definition digit (c : ascii) : option Z :=
  let n := Z.of_nat (nat_of_ascii c) in
  if (48 <=? n) && (n <=? 57) then Some (n - 48) else None.

Definition number2 (a b : ascii) : option Z :=
  match digit a, digit b with
  | Some x, Some y => Some (10 * x + y)
  | _, _ => None
  end.

Definition number4 (a b c d : ascii) : option Z :=
  match number2 a b, number2 c d with
  | Some x, Some y => Some (100 * x + y)
  | _, _ => None
  end.

(** Year, month and day of a key [YYYY-MM-DD] that names a calendar day. *)
Definition fields (key : string) : option (Z * Z * Z) :=
  match key with
  | String y1 (String y2 (String y3 (String y4 (String dash1
      (String m1 (String m2 (String dash2 (String d1 (String d2 ""))))))))) =>
      match number4 y1 y2 y3 y4, number2 m1 m2, number2 d1 d2 with
      | Some y, Some m, Some d =>
          if Ascii.eqb dash1 "-" && Ascii.eqb dash2 "-"
             && (1 <=? m) && (m <=? 12) && (1 <=? d) && (d <=? daysInMonth y m)
          then Some (y, m, d) else None
      | _, _, _ => None
      end
  | _ => None
  end.

(** The day number of a key; [None] for an invalid date. *)
Definition day (key : string) : option Z :=
  match fields key with
  | Some (y, m, d) => Some (dayNumber y m d)
  | None => None
  end.

(** [new Date(key).getTime()]; [None] is [NaN]. *)
Definition getTime (key : string) : option Z :=
  match day key with
  | Some n => Some (n * msPerDay)
  | None => None
  end.

(** The time of [nextDay] after [nextDay.setDate(lastDate.getDate() + 1)],
    for a local time zone whose offset from UTC is the same on both days:
    one day later. *)
Definition nextDayTime (lastTime : option Z) : option Z :=
  match lastTime with
  | Some t => Some (t + msPerDay)
  | None => None
  end.

(** [a === b] on times: [NaN] equals nothing. *)
Definition sameTime (a b : option Z) : bool :=
  match a, b with
  | Some x, Some y => x =? y
  | _, _ => false
  end.

Definition isDateKey (key : string) : bool :=
  match fields key with Some _ => true | None => false end.

End Date.

(** ** Streaks *)

Module Streak.
Record t : Type := mk { start : string; end_ : string; length : nat }.
End Streak.

Module Streaks.

(** [a < b] on strings, code unit by code unit, as the default comparison
    of [sort] has it. *)
Fixpoint strLtb (a b : string) : bool :=
  match a, b with
  | _, EmptyString => false
  | EmptyString, String _ _ => true
  | String x a', String y b' =>
      (nat_of_ascii x <? nat_of_ascii y)%nat
      || ((nat_of_ascii x =? nat_of_ascii y)%nat && strLtb a' b')
  end.

(** [Array.prototype.sort], which is stable: [before y x] says that the
    comparison puts [y] strictly before [x]. *)
Fixpoint insertBy {A : Type} (before : A -> A -> bool) (x : A) (l : list A)
    : list A :=
  match l with
  | [] => [x]
  | y :: rest =>
      if before y x then y :: insertBy before x rest else x :: y :: rest
  end.

Definition sortBy {A : Type} (before : A -> A -> bool) (l : list A) : list A :=
  foldr (insertBy before) [] l.

(** The comparison [(a, b) => b.length - a.length] is negative. *)
Definition longerFirst (a b : Streak.t) : bool :=
  (Streak.length b <? Streak.length a)%nat.

Definition opened (date : string) : Streak.t := Streak.mk date date 1.

(** The test [currentDate.getTime() === nextDay.getTime()], [last] being
    [currentStreak.end]. *)
Definition consecutive (last date : string) : bool :=
  Date.sameTime (Date.getTime date) (Date.nextDayTime (Date.getTime last)).

Definition extended (s : Streak.t) (date : string) : Streak.t :=
  Streak.mk (Streak.start s) date (S (Streak.length s)).

(** The state of the scans: [streaks] and [currentStreak]. *)
Definition scanState : Type := list Streak.t * option Streak.t.

(** The body of the [forEach] of [calculateStreaks]. *)
Definition step (st : scanState) (date : string) : scanState :=
  match st with
  | (streaks, None) => (streaks, Some (opened date))
  | (streaks, Some currentStreak) =>
      if consecutive (Streak.end_ currentStreak) date
      then (streaks, Some (extended currentStreak date))
      else (streaks ++ [currentStreak], Some (opened date))
  end.

Definition doneDates (history : obj value) : list string :=
  map fst (List.filter (fun entry => isStr (snd entry) "done") history).

Definition closeScan (st : scanState) : list Streak.t :=
  match st with
  | (streaks, Some currentStreak) => streaks ++ [currentStreak]
  | (streaks, None) => streaks
  end.

Definition calculateStreaks (history : obj value) : list Streak.t :=
  let sortedDates := sortBy strLtb (doneDates history) in
  sortBy longerFirst (closeScan (fold_left step sortedDates ([], None))).

(** [currentStreak && currentStreak.length > 1] *)
Definition worthKeeping (currentStreak : option Streak.t) : list Streak.t :=
  match currentStreak with
  | Some s => if (1 <? Streak.length s)%nat then [s] else []
  | None => []
  end.

(** The body of the [forEach] of [calculateWorkoutStreaks], in the view
    ['all']. *)
Definition workoutStep (workoutHistory : obj (list WorkoutEntry.t))
    (st : scanState) (date : string) : scanState :=
  let '(streaks, currentStreak) := st in
  match objGet date workoutHistory with
  | None | Some [] => (streaks ++ worthKeeping currentStreak, None)
  | Some (_ :: _) => step st date
  end.

(** [calculateWorkoutStreaks] in the view ['all'], the view that the
    tracker starts in. *)
Definition calculateWorkoutStreaks (workoutHistory : obj (list WorkoutEntry.t))
    : list Streak.t :=
  let sortedDates := sortBy strLtb (map fst workoutHistory) in
  let '(streaks, currentStreak) :=
    fold_left (workoutStep workoutHistory) sortedDates ([], None) in
  sortBy longerFirst (streaks ++ worthKeeping currentStreak).

(** The history that the habit analysis would see: a date is done when it
    has at least one entry. *)
Definition asStatus (workoutHistory : obj (list WorkoutEntry.t)) : obj value :=
  map (fun '(date, entries) =>
         (date, VStr (match entries with [] => "fail" | _ :: _ => "done" end)))
      workoutHistory.

End Streaks.

(** ** Runs of consecutive days, for the statements about streaks *)

Module Runs.
Import Streaks.

(** The streak that stands for a run of dates. *)
Definition summary (run : list string) : Streak.t :=
  Streak.mk (List.hd "" run) (List.last run "") (length run).

(** A run: one date or more, each one calendar day after the one before. *)
Inductive chain : list string -> Prop :=
  | chain_one (d : string) : chain [d]
  | chain_cons (a b : string) (l : list string) :
      consecutive a b = true -> chain (b :: l) -> chain (a :: b :: l).

(** Runs of which none continues the one before it. *)
Inductive separated : list (list string) -> Prop :=
  | separated_nil : separated []
  | separated_one (r : list string) : separated [r]
  | separated_cons (r1 r2 : list string) (rs : list (list string)) :
      consecutive (List.last r1 "") (List.hd "" r2) = false ->
      separated (r2 :: rs) -> separated (r1 :: r2 :: rs).

(** [currentStreak.length > 1] *)
Definition long (s : Streak.t) : bool := (1 <? Streak.length s)%nat.

(** The status ["done"] *)
Definition isDone (entry : string * value) : bool := isStr (snd entry) "done".

(** The date has at least one entry. *)
Definition hasEntries (workoutHistory : obj (list WorkoutEntry.t))
    (date : string) : bool :=
  match objGet date workoutHistory with
  | Some (_ :: _) => true
  | _ => false
  end.

(** Both are calendar days, the first one the earlier. *)
Definition dayLt (a b : string) : Prop :=
  exists x y, Date.day a = Some x /\ Date.day b = Some y /\ (x < y)%Z.

End Runs.

(** ** Snapshots without line breaks, and what decoding makes of them *)

Module Typed.
Import Encoder.

Definition noBreak (s : string) : bool :=
  negb (includes newline s) && negb (includes creturn s).

(** The value fills its column without a line break. *)
Definition plain (v : value) : bool := noBreak (fieldText v).

(** And its text is not made of double quotes only. *)
Definition exact (v : value) : bool :=
  plain v && negb (quotesOnly (fieldText v)).

Fixpoint distinct (l : list string) : bool :=
  match l with
  | [] => true
  | x :: rest => negb (existsb (String.eqb x) rest) && distinct rest
  end.

Definition intakeOk (e : IntakeEntry.t) : bool :=
  exact (IntakeEntry.amount e) && exact (IntakeEntry.timestamp e).

Definition workoutEntryOk (e : WorkoutEntry.t) : bool :=
  exact (WorkoutEntry.type e) && exact (WorkoutEntry.count e)
  && exact (WorkoutEntry.timestamp e).

(** The keys of a history are date keys, each once. *)
Definition historyOk {A : Type} (entryOk : A -> bool) (history : obj (list A))
    : bool :=
  distinct (map fst history)
  && forallb (fun entry => Date.isDateKey entry.1 && forallb entryOk entry.2)
       history.

Definition trackerOk (t : Tracker.t) : bool :=
  plain (Tracker.goal t) && plain (Tracker.intake t)
  && historyOk intakeOk (Tracker.history t).

Definition workoutOk (w : Workout.t) : bool :=
  forallb (fun entry => noBreak entry.1
                        && plain (WorkoutState.completed entry.2)
                        && plain (WorkoutState.order entry.2))
    (Workout.state w)
  && forallb (fun entry => noBreak entry.1 && plain entry.2) (Workout.count w)
  && historyOk workoutEntryOk (Workout.history w).

Definition habitOk (h : Habit.t) : bool :=
  plain (Habit.name h) && plain (Habit.color h)
  && match Habit.history h with
     | Some history =>
         distinct (map fst history)
         && forallb (fun entry => Date.isDateKey entry.1 && exact entry.2)
              history
     | None => true
     end.

(** No string of the snapshot has a line break, the keys of the
    histories are date keys, and no field of a history entry is made of
    double quotes only. *)
Definition wellFormed (now : string) (s : Snapshot.t) : bool :=
  noBreak now
  && trackerOk (Snapshot.water s) && trackerOk (Snapshot.protein s)
  && workoutOk (Snapshot.workout s)
  && forallb habitOk (Snapshot.habits s)
  && plain (Settings.theme (Snapshot.settings s))
  && plain (Settings.reminder (Snapshot.settings s)).

(** What the round trip makes of a history: the dates that have entries,
    each field of an entry through its column. *)
Definition hasAny {A : Type} (entry : string * list A) : bool :=
  match entry.2 with [] => false | _ :: _ => true end.

Definition decodedHistory {A : Type} (f : A -> A) (history : obj (list A))
    : obj (list A) :=
  map (fun entry => (entry.1, map f entry.2)) (List.filter hasAny history).

Definition decodedIntake (e : IntakeEntry.t) : IntakeEntry.t :=
  IntakeEntry.mk (parseInt (VStr (fieldText (IntakeEntry.amount e))))
    (VStr (fieldText (IntakeEntry.timestamp e))).

Definition decodedWorkout (e : WorkoutEntry.t) : WorkoutEntry.t :=
  WorkoutEntry.mk (VStr (fieldText (WorkoutEntry.type e)))
    (parseInt (VStr (fieldText (WorkoutEntry.count e))))
    (VStr (fieldText (WorkoutEntry.timestamp e))).

Definition decodedHabitHistory (h : Habit.t) : option (obj value) :=
  Some (map (fun entry => (entry.1, VStr (fieldText entry.2)))
          (default [] (Habit.history h))).

End Typed.

(** * Notions used in the statements and their proofs *)

Module Notions.
Import Tokenizer Encoder Parse Convert Typed Streaks Runs ImportData Date.

(** What may follow a field: nothing, or a character that is no quote. *)
Definition noQuoteAhead (rest : string) : Prop :=
  match rest with
  | EmptyString => True
  | String c _ => Ascii.eqb c dquote = false
  end.

(** What the tokenizer reads for an escaped field. *)
Definition readBack (f : string) : string :=
  if quotesOnly f then String dquote f else f.

Definition twoQuotes : string := String dquote (String dquote "").

(** [x] may stand in front of [y]. *)
Definition notAfter {A : Type} (before : A -> A -> bool) (x y : A) : Prop :=
  before y x = false.

Definition strLe : string -> string -> Prop := notAfter strLtb.

Definition notShorter : Streak.t -> Streak.t -> Prop := notAfter longerFirst.

(** What the scan of [calculateStreaks] has built after a prefix of the
    sorted dates. *)
Inductive built : list string -> scanState -> Prop :=
  | built_start : built [] ([], None)
  | built_open (closed : list (list string)) (open : list string) :
      Forall chain closed -> chain open -> separated (closed ++ [open]) ->
      built (concat closed ++ open) (map summary closed, Some (summary open)).

Definition leapDay (y : Z) : Z := if isLeap y then 1%Z else 0%Z.

Definition closeWorkout (st : scanState) : list Streak.t :=
  st.1 ++ worthKeeping st.2.

(** How the two scans stand to each other before the dates [rest]: in
    step, or with the habit scan still holding a streak that the workout
    scan has given up at a date without entries. *)
Inductive agree (rest : list string) : scanState -> scanState -> Prop :=
  | agree_sync (stW stH : list Streak.t) (cur : option Streak.t) :
      List.filter long stW = List.filter long stH ->
      (forall c, cur = Some c -> Forall (dayLt (Streak.end_ c)) rest) ->
      agree rest (stW, cur) (stH, cur)
  | agree_pending (stW stH : list Streak.t) (c : Streak.t) :
      List.filter long stW = List.filter long (stH ++ [c]) ->
      Forall (fun d => consecutive (Streak.end_ c) d = false) rest ->
      agree rest (stW, None) (stH, Some c).

Definition oneEntry : WorkoutEntry.t :=
  WorkoutEntry.mk (VStr "Chest") (VNum 1) (VStr "2024-01-01T08:00:00.000Z").

Fixpoint countChar (c : ascii) (s : string) : nat :=
  match s with
  | EmptyString => 0
  | String x rest => (if Ascii.eqb x c then 1 else 0) + countChar c rest
  end.


Definition headerLine : string := String.concat "," headers.

Definition sampleStore : gmap string string :=
  {[ "app_theme" := "dark-theme" ]}.

Definition sampleImport : Imported.t :=
  Imported.mk (VStr "2.0") (VStr "2024-01-01T00:00:00.000Z")
    (Tracker.mk (VStr "2000") (VStr "500") []) (Tracker.mk VNull VNull [])
    (Workout.mk [] [] []) [] (Settings.mk VNull VNull).

Definition emptyJson (A : Type) (a : A) : string := "{}".

Definition isDigit (c : ascii) : bool :=
  (48 <=? Z.of_nat (nat_of_ascii c))%Z && (Z.of_nat (nat_of_ascii c) <=? 57)%Z.

Fixpoint allDigits (s : string) : bool :=
  match s with
  | EmptyString => true
  | String c rest => isDigit c && allDigits rest
  end.

(** The header map that [parseCSVData] builds from the header line. *)
Definition headerMap : obj nat :=
  [ ("data_type", 0); ("key", 1); ("value", 2); ("date", 3); ("amount", 4);
    ("timestamp", 5); ("type", 6); ("count", 7); ("name", 8); ("color", 9);
    ("completed", 10); ("order", 11) ]%nat.

(** The text of a cell as the tokenizer reads it back. *)
Definition readText (v : value) : string := readBack (fieldText v).

(** The first cell of a row starts with a character that is no white
    space. *)
Definition dark (t : string) : Prop :=
  exists c rest, escapeString t = String c rest /\ Num.isWhite c = false.

(** The part of the decoded data that the round trip is about: the three
    histories and the habits. *)
Definition views (d : Imported.t) :
    obj (list IntakeEntry.t) * obj (list IntakeEntry.t)
    * obj (list WorkoutEntry.t) * list Habit.t :=
  (Tracker.history (Imported.water d), Tracker.history (Imported.protein d),
   Workout.history (Imported.workout d), Imported.habits d).

(** A row that decodes without an error and leaves the views alone. *)
Definition neutral (row : string) : Prop :=
  forall d, exists d',
    processRow headerMap d row = Ok d' /\ views d' = views d.

Definition setWaterHistory (d : Imported.t) (h : obj (list IntakeEntry.t))
    : Imported.t :=
  Imported.setWater d
    (Tracker.mk (Tracker.goal (Imported.water d))
       (Tracker.intake (Imported.water d)) h).

Definition setProteinHistory (d : Imported.t) (h : obj (list IntakeEntry.t))
    : Imported.t :=
  Imported.setProtein d
    (Tracker.mk (Tracker.goal (Imported.protein d))
       (Tracker.intake (Imported.protein d)) h).

Definition setWorkoutHistory (d : Imported.t) (h : obj (list WorkoutEntry.t))
    : Imported.t :=
  Imported.setWorkout d
    (Workout.mk (Workout.state (Imported.workout d))
       (Workout.count (Imported.workout d)) h).

Definition intakeRowOf (dataType date : string) (index : nat)
    (entry : IntakeEntry.t) : string :=
  joinRow [ VStr dataType;
            VStr (composite date (Num.toString (Z.of_nat index)));
            blank; VStr date; IntakeEntry.amount entry;
            IntakeEntry.timestamp entry;
            blank; blank; blank; blank; blank; blank ].

Definition workoutRowOf (date : string) (index : nat) (entry : WorkoutEntry.t)
    : string :=
  joinRow [ VStr "workout_history";
            VStr (composite date (Num.toString (Z.of_nat index)));
            blank; VStr date; blank; WorkoutEntry.timestamp entry;
            WorkoutEntry.type entry; WorkoutEntry.count entry;
            blank; blank; blank; blank ].

Definition habitRowOf (i : nat) (h : Habit.t) : string :=
  joinRow [ VStr "habit"; VStr (Num.toString (Z.of_nat i)); blank;
            blank; blank; blank; blank; blank; Habit.name h;
            Habit.color h; blank; blank ].

Definition habitHistoryRowOf (i : nat) (entry : string * value) : string :=
  joinRow [ VStr "habit_history";
            VStr (composite (Num.toString (Z.of_nat i)) entry.1);
            entry.2; VStr entry.1; blank; blank; blank; blank; blank; blank;
            blank; blank ].

Definition decodedStatus (entry : string * value) : string * value :=
  (entry.1, VStr (fieldText entry.2)).

(** What decoding makes of a habit. *)
Definition decodedHabit (h : Habit.t) : Habit.t :=
  Habit.mk (VStr (readText (Habit.name h))) (VStr (readText (Habit.color h)))
    (decodedHabitHistory h).

(** The rows after the header line. *)
Definition dataRows (now : string) (s : Snapshot.t) : list string :=
  [ addRow "meta" "version" (VStr "2.0");
    addRow "meta" "exportDate" (VStr now) ]
  ++ trackerRows "water" "water_history" (Snapshot.water s)
  ++ trackerRows "protein" "protein_history" (Snapshot.protein s)
  ++ workoutStateRows (Workout.state (Snapshot.workout s))
  ++ workoutCountRows (Workout.count (Snapshot.workout s))
  ++ workoutHistoryRows (Workout.history (Snapshot.workout s))
  ++ concat (imap habitRows (Snapshot.habits s))
  ++ [ addRow "settings" "theme" (Settings.theme (Snapshot.settings s));
       addRow "settings" "reminder" (Settings.reminder (Snapshot.settings s)) ].

Definition sampleSnapshot : Snapshot.t :=
  Snapshot.mk
    (Tracker.mk (VStr "2000") VNull
       [ ("2024-01-01",
           [ IntakeEntry.mk (VNum 250) (VStr "2024-01-01T10:00:00.000Z");
             IntakeEntry.mk VNull (VStr "2024-01-01T12:30:00.000Z") ]);
         ("2024-01-02", []);
         ("2024-01-03",
           [ IntakeEntry.mk (VNum 500) (VStr "2024-01-03T09:00:00.000Z") ]) ])
    (Tracker.mk VNull VNull [])
    (Workout.mk [("Chest", WorkoutState.mk (VBool true) (VNum 1))]
       [("Chest", VNum 12)]
       [ ("2024-01-01",
           [ WorkoutEntry.mk (VStr "Chest") (VNum 12)
               (VStr "2024-01-01T18:00:00.000Z") ]) ])
    [ Habit.mk (VStr "Read, daily") (VStr "blue")
        (Some [("2024-01-01", VStr "done"); ("2024-01-02", VStr "fail")]);
      Habit.mk (VStr "Run") (VStr "red") None ]
    (Settings.mk (VStr "dark-theme") VNull).


End Notions.

(** * The trackers in memory

    The parts of [HabitsTracker], [WorkoutTracker] and [storageManager]
    that work on the histories once they are parsed. *)

(** What [o[k]] yields on a plain object: an own property, something that
    [Object.prototype] supplies (a function, or the prototype itself: truthy
    and equal to no string), or [undefined]. *)
Inductive looked (A : Type) : Type :=
  | Own (v : A)
  | Supplied
  | Missing.
Arguments Own {A} v.
Arguments Supplied {A}.
Arguments Missing {A}.

Definition objLook {A : Type} (k : string) (o : obj A) : looked A :=
  match objGet k o with
  | Some v => Own v
  | None => if inherited k then Supplied else Missing
  end.

(** [o[k] = v] on a plain object: an own property is overwritten in place,
    a new one is added at the end; the name ["__proto__"], when it is not
    an own property, goes to the accessor of [Object.prototype] and leaves
    the own properties alone. *)
Definition objStore {A : Type} (k : string) (v : A) (o : obj A) : obj A :=
  match objGet k o with
  | Some _ => objPut k v o
  | None => if String.eqb k protoName then o else objPut k v o
  end.

(** [delete o[k]] *)
Definition objDelete {A : Type} (k : string) (o : obj A) : obj A :=
  List.filter (fun entry => negb (String.eqb entry.1 k)) o.

Module Habits.
Import Streaks ImportData.

(** [renderStreaks]: the message of the empty panel, or one bar for each
    of [streaks.slice(0, 3)]. *)
Inductive streakPanel : Type :=
  | NoStreaks
  | Bars (topStreaks : list Streak.t).

Definition renderStreaks (history : obj value) : streakPanel :=
  let streaks := calculateStreaks history in
  let topStreaks := take 3 streaks in
  match topStreaks with
  | [] => NoStreaks
  | _ :: _ => Bars topStreaks
  end.







End Habits.

Module Storage.
Import Streaks.

(** The pruning that [cleanupOldData] applies to a history with [keep] 90
    and [saveHabits] to the history of a habit with [keep] 30: the dates
    sorted, all but the last [keep] deleted.  The boolean tells whether
    anything was deleted ([cleanedUp]). *)
Definition removeOldest {A : Type} (keep : nat) (history : obj A)
    : obj A * bool :=
  let dates := sortBy strLtb (map fst history) in
  if (keep <? length dates)%nat then
    let datesToRemove := take (length dates - keep) dates in
    (fold_left (fun h date => objDelete date h) datesToRemove history, true)
  else (history, false).

End Storage.

Module WorkoutStreaks.
Import Streaks.

(** [entries.some(entry => entry.type === type)], where [entries] is
    [workoutHistory[date] || []]; the dates are own keys of the history. *)
Definition hasWorkout (workoutHistory : obj (list WorkoutEntry.t))
    (type date : string) : bool :=
  match objGet date workoutHistory with
  | Some entries =>
      existsb (fun entry => isStr (WorkoutEntry.type entry) type) entries
  | None => false
  end.

(** The body of the [forEach] of [calculateAllWorkoutTypeStreaks]. *)
Definition typeStep (workoutHistory : obj (list WorkoutEntry.t))
    (type : string) (st : scanState) (date : string) : scanState :=
  let '(streaks, currentStreak) := st in
  if hasWorkout workoutHistory type date then step st date
  else (streaks ++ worthKeeping currentStreak, None).

Definition calculateAllWorkoutTypeStreaks
    (workoutHistory : obj (list WorkoutEntry.t)) (type : string)
    : list Streak.t :=
  let sortedDates := sortBy strLtb (map fst workoutHistory) in
  let '(streaks, currentStreak) :=
    fold_left (typeStep workoutHistory type) sortedDates ([], None) in
  streaks ++ worthKeeping currentStreak.

(** [if (!bestStreak || currentStreak.length > bestStreak.length)
       bestStreak = currentStreak] *)
Definition better (bestStreak : option Streak.t) (currentStreak : Streak.t)
    : option Streak.t :=
  match bestStreak with
  | None => Some currentStreak
  | Some best =>
      if (Streak.length best <? Streak.length currentStreak)%nat
      then Some currentStreak else Some best
  end.

(** The same, under the guard [currentStreak && currentStreak.length > 1]. *)
Definition betterLong (bestStreak currentStreak : option Streak.t)
    : option Streak.t :=
  match currentStreak with
  | Some s => if (1 <? Streak.length s)%nat then better bestStreak s
              else bestStreak
  | None => bestStreak
  end.

(** The body of the [forEach] of [calculateWorkoutTypeStreak]; the state
    is [bestStreak] and [currentStreak]. *)
Definition bestStep (workoutHistory : obj (list WorkoutEntry.t))
    (type : string) (st : option Streak.t * option Streak.t) (date : string)
    : option Streak.t * option Streak.t :=
  let '(bestStreak, currentStreak) := st in
  if hasWorkout workoutHistory type date then
    match currentStreak with
    | None => (bestStreak, Some (opened date))
    | Some current =>
        if consecutive (Streak.end_ current) date
        then (bestStreak, Some (extended current date))
        else (better bestStreak current, Some (opened date))
    end
  else (betterLong bestStreak currentStreak, None).

(** [calculateWorkoutTypeStreak]; [None] is [null]. *)
Definition calculateWorkoutTypeStreak
    (workoutHistory : obj (list WorkoutEntry.t)) (type : string)
    : option Streak.t :=
  let sortedDates := sortBy strLtb (map fst workoutHistory) in
  let '(bestStreak, currentStreak) :=
    fold_left (bestStep workoutHistory type) sortedDates (None, None) in
  betterLong bestStreak currentStreak.

End WorkoutStreaks.

(** ** The workout tabs: [toggleWorkout] and what it calls

    The tracker keeps three objects in memory and writes each to the store
    as JSON text.  A run of a handler ends by returning or by throwing;
    what it has done to the memory and to the store by then stays done. *)

Module WorkoutTracker.
Import ImportData.

Record t : Type :=
  mk { workoutState : obj WorkoutState.t;
       workoutCounts : obj value;
       workoutHistory : obj (list WorkoutEntry.t) }.

Inductive ending : Type :=
  | Returned
  | TypeErrorThrown  (* a property of [undefined] was read or written *)
  | WriteThrown      (* [localStorage.setItem] threw *)
  | Beyond.          (* the run touched what [Object.prototype] supplies
                        under the given name; the embedding stops there *)

Definition workoutTypes : list string :=
  [ "Chest"; "Back"; "Shoulders"; "Biceps"; "Triceps"; "Abs"; "Legs" ].

(** [list.indexOf(x)] *)
Fixpoint indexOf (x : string) (l : list string) : Z :=
  match l with
  | [] => (-1)%Z
  | y :: rest =>
      if String.eqb y x then 0%Z
      else match indexOf x rest with
           | Zneg _ => (-1)%Z
           | i => (i + 1)%Z
           end
  end.

(** [v + 1], as [v += 1] computes it. *)
Definition addOne (v : value) : value :=
  match v with
  | VNum z => VNum (z + 1)
  | VNull => VNum 1
  | VBool b => VNum (if b then 2 else 1)
  | VStr s => VStr (s +:+ "1")
  | VUndefined | VNaN => VNaN
  end.

(** What the constructor builds when the store holds nothing: every type
    not completed, in the order of the list, with count 0, and an empty
    history. *)
Definition fresh : t :=
  mk (map (fun type =>
             (type, WorkoutState.mk (VBool false)
                      (VNum (indexOf type workoutTypes)))) workoutTypes)
     (map (fun type => (type, VNum 0)) workoutTypes)
     [].

(** [Object.values(workoutState).every(state => state.completed)] *)
Definition allCompleted (workoutState : obj WorkoutState.t) : bool :=
  forallb (fun state => truthy (WorkoutState.completed state))
    (map snd workoutState).

Section Store.

Variable accepts : gmap string string -> string -> string -> bool.
Variable stringify : forall A : Type, A -> string.

Definition saveState (w : t) (store : gmap string string)
    : gmap string string * ending :=
  match setItem accepts store "workout_state"
          (stringify _ (workoutState w)) with
  | None => (store, WriteThrown)
  | Some store1 =>
      match setItem accepts store1 "workout_count"
              (stringify _ (workoutCounts w)) with
      | None => (store1, WriteThrown)
      | Some store2 => (store2, Returned)
      end
  end.

(** The first [forEach] of [resetWorkoutTabs]. *)
Fixpoint resetStates (types : list string) (workoutState : obj WorkoutState.t)
    : obj WorkoutState.t * ending :=
  match types with
  | [] => (workoutState, Returned)
  | type :: rest =>
      match objLook type workoutState with
      | Own _ =>
          resetStates rest
            (objPut type
               (WorkoutState.mk (VBool false) (VNum (indexOf type workoutTypes)))
               workoutState)
      | Missing => (workoutState, TypeErrorThrown)
      | Supplied => (workoutState, Beyond)
      end
  end.

(** The second one. *)
Definition resetCounts (types : list string) (workoutCounts : obj value)
    : obj value :=
  fold_left (fun counts type => objStore type (VNum 0) counts) types
    workoutCounts.

Definition resetWorkoutTabs (w : t) (store : gmap string string)
    : t * gmap string string * ending :=
  match resetStates workoutTypes (workoutState w) with
  | (state', Returned) =>
      let w' := mk state' (resetCounts workoutTypes (workoutCounts w))
                  (workoutHistory w) in
      let '(store', e) := saveState w' store in
      (w', store', e)
  | (state', e) => (mk state' (workoutCounts w) (workoutHistory w), store, e)
  end.

(** [toggleWorkout(type)]; [today] is [utils.formatDate(new Date())] and
    [now] is [new Date().toISOString()].  The calls that draw the tabs and
    the history and show the message are left out: they change neither the
    tracker nor the store. *)
Definition toggleWorkout (today now : string) (type : string) (w : t)
    (store : gmap string string) : t * gmap string string * ending :=
  match objLook type (workoutCounts w), objLook type (workoutState w) with
  | Supplied, _ => (w, store, Beyond)
  | _, Supplied => (w, store, Beyond)
  | count, Missing =>
      let count' := addOne (match count with Own v => v | _ => VUndefined end) in
      (mk (workoutState w) (objStore type count' (workoutCounts w))
         (workoutHistory w), store, TypeErrorThrown)
  | count, Own state =>
      let count' := addOne (match count with Own v => v | _ => VUndefined end) in
      let counts' := objStore type count' (workoutCounts w) in
      let state' :=
        objPut type (WorkoutState.mk (VBool true) (WorkoutState.order state))
          (workoutState w) in
      match Parse.pushEntry (VStr today)
              (WorkoutEntry.mk (VStr type) count' (VStr now))
              (workoutHistory w) with
      | Ok history' =>
          let w1 := mk state' counts' history' in
          match setItem accepts store "workout_history"
                  (stringify _ history') with
          | None => (w1, store, WriteThrown)
          | Some store1 =>
              if allCompleted state' then resetWorkoutTabs w1 store1
              else let '(store2, e) := saveState w1 store1 in (w1, store2, e)
          end
      | _ => (mk state' counts' (workoutHistory w), store, TypeErrorThrown)
      end
  end.

End Store.

End WorkoutTracker.

(** ** Dates in local time

    A [Date] object through its local getters: [getFullYear], [getMonth]
    (0 for January) and [getDate].  The time of day plays no part in what
    follows. *)

Module Civil.

Local Open Scope Z_scope.

Record t : Type := mk { year : Z; month : Z; date : Z }.

(** A day of the calendar. *)
Definition valid (c : t) : bool :=
  (0 <=? month c) && (month c <=? 11)
  && (1 <=? date c) && (date c <=? Date.daysInMonth (year c) (month c + 1)).

(** [Day(t)]: the number of the day, day 0 being 1970-01-01. *)
Definition dayOf (c : t) : Z := Date.dayNumber (year c) (month c + 1) (date c).

(** [getDay()]: [WeekDay(t) = (Day(t) + 4) modulo 7], 0 for Sunday. *)
Definition getDay (c : t) : Z := (dayOf c + 4) mod 7.

Definition nextDay (c : t) : t :=
  if date c <? Date.daysInMonth (year c) (month c + 1)
  then mk (year c) (month c) (date c + 1)
  else if month c <? 11 then mk (year c) (month c + 1) 1
  else mk (year c + 1) 0 1.

Definition prevDay (c : t) : t :=
  if 1 <? date c then mk (year c) (month c) (date c - 1)
  else if 0 <? month c
  then mk (year c) (month c - 1) (Date.daysInMonth (year c) (month c))
  else mk (year c - 1) 11 31.

(** The day [k] days after [c], before it when [k] is negative. *)
Definition shiftDays (c : t) (k : Z) : t :=
  if 0 <=? k then Nat.iter (Z.to_nat k) nextDay c
  else Nat.iter (Z.to_nat (- k)) prevDay c.

(** [d.setDate(x)]: [MakeDay] counts [x - 1] days on from the first of
    the month, which is [x - d.getDate()] days on from [d]. *)
Definition setDate (c : t) (x : Z) : t := shiftDays c (x - date c).

(** [d.setMonth(x)]: [MakeDay] takes the year and the month from [x],
    which may lie outside 0 to 11, and counts [d.getDate() - 1] days on
    from the first of that month. *)
Definition setMonth (c : t) (x : Z) : t :=
  shiftDays (mk (year c + x / 12) (x mod 12) 1) (date c - 1).

(** [s.padStart(2, '0')] *)
Definition padStart2 (s : string) : string :=
  match s with
  | EmptyString => "00"
  | String c EmptyString => String "0" s
  | _ => s
  end.

(** [utils.formatDate(date)]; [date] is [None] for an invalid date, which
    the function replaces by the current date [now]. *)
Definition formatDate (now : t) (date : option t) : string :=
  let d := default now date in
  Num.toString (year d) +:+ "-"
  +:+ padStart2 (Num.toString (month d + 1)) +:+ "-"
  +:+ padStart2 (Num.toString (Civil.date d)).

End Civil.

(** The integers from [first] on, [count] of them. *)
Module Ranges.
Definition upFrom (first count : Z) : list Z :=
  map (fun i => (first + Z.of_nat i)%Z) (seq 0 (Z.to_nat count)).
End Ranges.

(** ** The days and months that the habit views show *)

Module Calendar.
Import Civil.

Local Open Scope Z_scope.

Definition DAYS_TO_SHOW : nat := 4.

(** The values that [i] takes in [for (let i = n - 1; i >= 0; i--)]. *)
Definition countDown (n : nat) : list Z := map Z.of_nat (rev (seq 0 n)).

(** The keys of the days of a habit row in [renderHabits], which are the
    days of [updateDateSelector]: for each [i],
    [date.setDate(today.getDate() - i - this.currentDateOffset)] on a copy
    of [today], and then [getDateKey]. *)
Definition shownKeys (today : Civil.t) (currentDateOffset : Z) : list string :=
  map (fun i =>
         formatDate today
           (Some (setDate today (date today - i - currentDateOffset))))
    (countDown DAYS_TO_SHOW).

(** The handlers of the buttons that go back and forward in
    [updateDateSelector], on [currentDateOffset]. *)
Definition back (currentDateOffset : Z) : Z :=
  currentDateOffset + Z.of_nat DAYS_TO_SHOW.

Definition forward (currentDateOffset : Z) : Z :=
  Z.max 0 (currentDateOffset - Z.of_nat DAYS_TO_SHOW).

(** [new Date(year, month, day)]: a year from 0 to 99 stands for the year
    1900 later; the month may lie outside 0 to 11 and the day outside the
    month. *)
Definition makeDate (year month day : Z) : Civil.t :=
  let y := if (0 <=? year) && (year <=? 99) then 1900 + year else year in
  shiftDays (Civil.mk (y + month / 12) (month mod 12) 1) (day - 1).

(** [{ year: d.getFullYear(), month: d.getMonth() }] *)
Definition monthOf (c : Civil.t) : Z * Z := (year c, month c).

(** [this.months] after [renderCalendar]: the current month and, for [i]
    from 1 to 12, the month of [pastDate.setMonth(today.getMonth() - i)] on
    a copy of [today]. *)
Definition renderCalendar (today : Civil.t) : list (Z * Z) :=
  monthOf today
  :: map (fun i => monthOf (setMonth today (month today - i)))
       (Ranges.upFrom 1 12).

(** [loadMorePastMonths] and [loadMoreFutureMonths], on [this.months];
    both start from the last month of the list. *)
Definition loadMorePastMonths (months : list (Z * Z)) : list (Z * Z) :=
  match last months with
  | None => months
  | Some (oldestYear, oldestMonth) =>
      let oldestDate := makeDate oldestYear oldestMonth 1 in
      months
      ++ map (fun i => monthOf (setMonth oldestDate (month oldestDate - i)))
           (Ranges.upFrom 1 12)
  end.


(** A cell of the grid of a month, after the seven labels from ['Mon'] to
    ['Sun']: an empty cell, or the cell of a day with its key, [active]
    when the history has the status ["done"] for the key. *)
Inductive cell : Type :=
  | Empty
  | DayCell (day : Z) (dateKey : string) (active : bool).

(** The cells of [createMonthCalendar(habit, monthDate)]. *)
Definition createMonthCalendar (history : obj value) (monthDate : Civil.t)
    : list cell :=
  let currentMonth := month monthDate in
  let currentYear := year monthDate in
  let firstDay := makeDate currentYear currentMonth 1 in
  let lastDay := makeDate currentYear (currentMonth + 1) 0 in
  let firstDayOfWeek := if getDay firstDay =? 0 then 7 else getDay firstDay in
  replicate (Z.to_nat (firstDayOfWeek - 1)) Empty
  ++ map (fun day =>
            let date := makeDate currentYear currentMonth day in
            let dateKey := formatDate date (Some date) in
            DayCell day dateKey
              (match objGet dateKey history with
               | Some status => isStr status "done"
               | None => false
               end))
       (Ranges.upFrom 1 (date lastDay)).

End Calendar.

(** * Measures used in the statements about the trackers *)

Module Measures.
Export Ranges.
Import Streaks Runs Typed Notions.

(** What decoding makes of a value outside the histories: its text. *)
Definition textOf (v : value) : value := VStr (readText v).

Definition decodedState (state : WorkoutState.t) : WorkoutState.t :=
  WorkoutState.mk
    (VBool (isStr (textOf (WorkoutState.completed state)) "true"))
    (parseInt (textOf (WorkoutState.order state))).

Definition decodedCount (count : value) : value := parseInt (textOf count).

Definition decodedTracker (t : Tracker.t) : Tracker.t :=
  Tracker.mk (textOf (Tracker.goal t)) (textOf (Tracker.intake t))
    (decodedHistory decodedIntake (Tracker.history t)).

(** What decoding makes of the export of a snapshot that was written at
    the time [now]. *)
Definition decoded (now : string) (s : Snapshot.t) : Imported.t :=
  Imported.mk (VStr "2.0") (textOf (VStr now))
    (decodedTracker (Snapshot.water s))
    (decodedTracker (Snapshot.protein s))
    (Workout.mk
       (map (fun entry => (entry.1, decodedState entry.2))
          (Workout.state (Snapshot.workout s)))
       (map (fun entry => (entry.1, decodedCount entry.2))
          (Workout.count (Snapshot.workout s)))
       (decodedHistory decodedWorkout (Workout.history (Snapshot.workout s))))
    (map decodedHabit (Snapshot.habits s))
    (Settings.mk (textOf (Settings.theme (Snapshot.settings s)))
       (textOf (Settings.reminder (Snapshot.settings s)))).

(** The text of a year of four digits reads back as the year, and the
    padded text of a number of one or two digits as the number. *)
Definition yearReadsBack (y : Z) : bool :=
  match Num.toString y with
  | String a (String b (String c (String e EmptyString))) =>
      match Date.number4 a b c e with
      | Some y' => (y' =? y)%Z
      | None => false
      end
  | _ => false
  end.

Definition twoReadBack (n : Z) : bool :=
  match Civil.padStart2 (Num.toString n) with
  | String a (String b EmptyString) =>
      match Date.number2 a b with
      | Some n' => (n' =? n)%Z
      | None => false
      end
  | _ => false
  end.

(** The months counted from the year 0. *)
Definition monthIndex (m : Z * Z) : Z := (12 * m.1 + m.2)%Z.

(** The month that has the index [k], as a year and a month from 0. *)
Definition monthAt (k : Z) : Z * Z := ((k / 12)%Z, (k mod 12)%Z).

(** The number of days of the month that has the index [k]. *)
Definition monthLength (k : Z) : Z :=
  Date.daysInMonth (monthAt k).1 ((monthAt k).2 + 1).

(** The month [i] months before the month of [today] has the day of the
    month of [today]. *)
Definition hasDay (today : Civil.t) (i : Z) : bool :=
  (Civil.date today
   <=? monthLength (monthIndex (Calendar.monthOf today) - i))%Z.

(** The keys that [importData] writes. *)
Definition importKeys : list string :=
  [ "goal_water"; "intake_water"; "history_water"; "goal_protein";
    "intake_protein"; "history_protein"; "workout_state"; "workout_count";
    "workout_history"; "habits_data"; "app_theme"; "global_reminder" ].

(** A file with a goal for water and nothing else. *)
Definition goalOnly : string :=
  Notions.headerLine +:+ String newline "water,goal,2500".







(** A name that comes back as a key: it does not consist of double quotes
    only and is not ["__proto__"]. *)
Definition keyOk (k : string) : bool :=
  negb (Encoder.quotesOnly k) && negb (String.eqb k protoName).

(** The workout types of the state and of the counts are such names, each
    once. *)
Definition tabsOk (w : Workout.t) : bool :=
  distinct (map fst (Workout.state w)) && forallb keyOk (map fst (Workout.state w))
  && distinct (map fst (Workout.count w))
  && forallb keyOk (map fst (Workout.count w)).

(** The days that the streaks of a history cover. *)
Definition streakDays (history : obj value) : nat :=
  sum_list_with Streak.length (calculateStreaks history).

(** The date has the status ["done"]. *)
Definition isDoneAt (history : obj value) (dateKey : string) : bool :=
  match objGet dateKey history with
  | Some v => isStr v "done"
  | None => false
  end.


Definition doneCount (history : obj value) : nat :=
  length (List.filter isDone history).


(** The entries of one workout type, date by date. *)
Definition ofType (type : string) (workoutHistory : obj (list WorkoutEntry.t))
    : obj (list WorkoutEntry.t) :=
  map (fun '(date, entries) =>
         (date,
          List.filter (fun entry => isStr (WorkoutEntry.type entry) type)
            entries))
    workoutHistory.

Definition sampleWorkouts : obj (list WorkoutEntry.t) :=
  [ ("2024-01-01", [WorkoutEntry.mk (VStr "Chest") (VNum 1) (VStr "t1")]);
    ("2024-01-02", [WorkoutEntry.mk (VStr "Back") (VNum 1) (VStr "t2");
                    WorkoutEntry.mk (VStr "Chest") (VNum 2) (VStr "t3")]);
    ("2024-01-03", [WorkoutEntry.mk (VStr "Back") (VNum 2) (VStr "t4")]);
    ("2024-01-05", [WorkoutEntry.mk (VStr "Chest") (VNum 3) (VStr "t5")]) ].

(** A tab is marked as completed exactly when its count is positive. *)
Definition coupled (w : WorkoutTracker.t) : Prop :=
  forall type state,
    objGet type (WorkoutTracker.workoutState w) = Some state ->
    exists n,
      objGet type (WorkoutTracker.workoutCounts w) = Some (VNum n)
      /\ (0 <= n)%Z
      /\ ImportData.truthy (WorkoutState.completed state) = (0 <? n)%Z.

(** A store that takes every write, and a [JSON.stringify] that tells
    nothing apart. *)
Definition roomy (store : gmap string string) (k v : string) : bool := true.

Definition sameJson (A : Type) (a : A) : string := "{}".

(** The state that a tracker from before ["Shoulders"] was added has
    saved, with every tab but one completed. *)
Definition legacy : WorkoutTracker.t :=
  WorkoutTracker.mk
    [ ("Chest", WorkoutState.mk (VBool false) (VNum 0));
      ("Back", WorkoutState.mk (VBool true) (VNum 1));
      ("Biceps", WorkoutState.mk (VBool true) (VNum 2));
      ("Triceps", WorkoutState.mk (VBool true) (VNum 3));
      ("Abs", WorkoutState.mk (VBool true) (VNum 4));
      ("Legs", WorkoutState.mk (VBool true) (VNum 5)) ]
    [ ("Chest", VNum 0); ("Back", VNum 1); ("Biceps", VNum 1);
      ("Triceps", VNum 1); ("Abs", VNum 1); ("Legs", VNum 1) ]
    [].

Definition sampleDays : obj nat :=
  [ ("2024-01-03", 3); ("2024-01-01", 1); ("2024-01-04", 4);
    ("2024-01-02", 2) ].


End Measures.

Import Notions.
(** * Properties *)

(** ** Strings *)

Lemma append_cons (x : ascii) (a b : string) :
  String x a +:+ b = String x (a +:+ b).
Proof. reflexivity. Qed.

Lemma append_empty_l (b : string) : "" +:+ b = b.
Proof. reflexivity. Qed.

Lemma append_assoc (a b c : string) : (a +:+ b) +:+ c = a +:+ (b +:+ c).
Proof.
  induction a as [|x a IH]; [reflexivity|].
  rewrite !append_cons. now rewrite IH.
Qed.

Lemma append_empty_r (a : string) : a +:+ "" = a.
Proof.
  induction a as [|x a IH]; [reflexivity|].
  rewrite append_cons. now rewrite IH.
Qed.

Ltac str_simpl := simpl; rewrite ?append_cons, ?append_empty_l, ?append_empty_r; simpl.

Lemma snoc_append (cur : string) (c : ascii) (s : string) :
  snoc cur c +:+ s = cur +:+ String c s.
Proof. unfold snoc. rewrite append_assoc. reflexivity. Qed.

Lemma string_pair_ind (P : string -> Prop) :
  P "" ->
  (forall c, P (String c "")) ->
  (forall c1 c2 s, P s -> P (String c2 s) -> P (String c1 (String c2 s))) ->
  forall s, P s.
Proof.
  intros H0 H1 H2 s.
  assert (H : P s /\ forall c, P (String c s)).
  { induction s as [|c s [IHs IHc]]; split; auto. }
  exact (proj1 H).
Qed.

(** ** The tokenizer *)

Module TokenizerFacts.
Import Tokenizer Encoder.

Lemma scan_length (row : string) :
  forall q cur res, S (length res) <= length (scan row q cur res).
Proof.
  induction row as [|c|c1 c2 s IHs IHc] using string_pair_ind; intros q cur res.
  - simpl. rewrite length_app. simpl. lia.
  - simpl. destruct (Ascii.eqb c dquote); [|destruct (_ && _)]; simpl;
      rewrite ?length_app; simpl; lia.
  - change (scan (String c1 (String c2 s)) q cur res) with
      (if Ascii.eqb c1 dquote then
         if Ascii.eqb c2 dquote then scan s q (snoc cur dquote) res
         else scan (String c2 s) (negb q) cur res
       else if Ascii.eqb c1 comma && negb q
            then scan (String c2 s) false "" (res ++ [cur])
            else scan (String c2 s) q (snoc cur c1) res).
    destruct (Ascii.eqb c1 dquote).
    + destruct (Ascii.eqb c2 dquote); [apply IHs | apply IHc].
    + destruct (Ascii.eqb c1 comma && negb q).
      * etransitivity; [|apply IHc]. rewrite length_app. simpl. lia.
      * apply IHc.
Qed.

(** Inside quotes, input without a quote is consumed into the field. *)
Lemma scan_unclosed (s : string) :
  forall cur res,
    includes dquote s = false ->
    scan s true cur res = res ++ [cur +:+ s].
Proof.
  induction s as [|c s IH]; intros cur res H; simpl in *.
  - now rewrite append_empty_r.
  - apply orb_false_elim in H as [Hc Hs]. rewrite Hc.
    rewrite andb_false_r. rewrite IH by assumption.
    now rewrite snoc_append.
Qed.

(** A field that [escapeCSV] leaves bare is read back as it is. *)
Lemma scan_bare (f : string) :
  forall rest cur res,
    includes dquote f = false -> includes comma f = false ->
    scan (f +:+ rest) false cur res = scan rest false (cur +:+ f) res.
Proof.
  induction f as [|c f IH]; intros rest cur res Hq Hc; simpl in *.
  - now rewrite append_empty_r.
  - apply orb_false_elim in Hq as [Hq1 Hq2].
    apply orb_false_elim in Hc as [Hc1 Hc2].
    rewrite Hq1, Hc1. simpl. rewrite IH by assumption.
    now rewrite snoc_append.
Qed.

(** The body of a quoted field, read from inside the quotes. *)
Lemma scan_body (g : string) :
  forall rest cur res,
    noQuoteAhead rest ->
    scan (doubleQuotes g +:+ String dquote rest) true cur res
    = scan rest false (cur +:+ g) res.
Proof.
  induction g as [|c g IH]; intros rest cur res Hrest.
  - rewrite append_empty_r. simpl.
    destruct rest as [|c r]; [reflexivity|]. simpl in Hrest. now rewrite Hrest.
  - simpl doubleQuotes. destruct (Ascii.eqb c dquote) eqn:Hc.
    + apply Ascii.eqb_eq in Hc. subst c. simpl. rewrite IH by assumption.
      now rewrite snoc_append.
    + simpl. rewrite Hc. rewrite andb_false_r. rewrite IH by assumption.
      now rewrite snoc_append.
Qed.

Lemma scan_escaped (rest : string) (q : bool) (cur : string) (res : list string) :
  scan (String dquote (String dquote rest)) q cur res
  = scan rest q (snoc cur dquote) res.
Proof. reflexivity. Qed.

Lemma scan_open (c : ascii) (rest : string) (q : bool) (cur : string)
    (res : list string) :
  Ascii.eqb c dquote = false ->
  scan (String dquote (String c rest)) q cur res
  = scan (String c rest) (negb q) cur res.
Proof. intros H. simpl. now rewrite H. Qed.

Lemma scan_comma (rest cur : string) (res : list string) :
  scan (String "," rest) false cur res = scan rest false "" (res ++ [cur]).
Proof. reflexivity. Qed.

(** A quoted field, read from its opening quote. *)
Lemma scan_quoted (f : string) :
  forall rest cur res,
    onlyQuotes f = false -> noQuoteAhead rest ->
    scan (String dquote (doubleQuotes f +:+ String dquote rest)) false cur res
    = scan rest false (cur +:+ f) res.
Proof.
  induction f as [|c f IH]; intros rest cur res Hf Hrest.
  - discriminate.
  - simpl in Hf. simpl doubleQuotes. destruct (Ascii.eqb c dquote) eqn:Hc.
    + apply Ascii.eqb_eq in Hc. subst c. simpl in Hf.
      rewrite !append_cons. rewrite scan_escaped.
      rewrite IH by assumption. now rewrite snoc_append.
    + rewrite append_cons, (scan_open _ _ _ _ _ Hc).
      change (String c (doubleQuotes f +:+ String dquote rest))
        with (String c (doubleQuotes f) +:+ String dquote rest).
      replace (String c (doubleQuotes f)) with (doubleQuotes (String c f))
        by (simpl; now rewrite Hc).
      now apply scan_body.
Qed.

Lemma needsQuoting_empty : needsQuoting "" = false.
Proof. reflexivity. Qed.

Lemma onlyQuotes_of_quotesOnly (f : string) :
  quotesOnly f = false -> needsQuoting f = true -> onlyQuotes f = false.
Proof.
  unfold quotesOnly. destruct f as [|c f]; [discriminate|].
  simpl. intros H _. exact H.
Qed.

(** A field of nothing but quotes: every pair of quotes is taken for a
    literal quote, the opening and the closing quote included. *)
Lemma scan_only_quotes (f : string) :
  forall rest cur res,
    onlyQuotes f = true -> noQuoteAhead rest ->
    scan (String dquote (doubleQuotes f +:+ String dquote rest)) false cur res
    = scan rest false (cur +:+ String dquote f) res.
Proof.
  induction f as [|c f IH]; intros rest cur res Hf Hrest.
  - rewrite append_empty_l, scan_escaped. reflexivity.
  - simpl in Hf. apply andb_prop in Hf as [Hc Hf].
    apply Ascii.eqb_eq in Hc. subst c. simpl doubleQuotes.
    rewrite !append_cons, scan_escaped, IH by assumption.
    now rewrite snoc_append.
Qed.

Lemma quotesOnly_bare (f : string) :
  includes dquote f = false -> quotesOnly f = false.
Proof.
  destruct f as [|c f]; [reflexivity|]. simpl. unfold quotesOnly. simpl.
  intros H. apply orb_false_elim in H as [H _]. now rewrite H.
Qed.

(** An escaped field, read from outside quotes. *)
Lemma scan_field (f rest cur : string) (res : list string) :
  noQuoteAhead rest ->
  scan (escapeString f +:+ rest) false cur res
  = scan rest false (cur +:+ readBack f) res.
Proof.
  intros Hrest. unfold escapeString, readBack.
  destruct (needsQuoting f) eqn:Hn.
  - rewrite append_cons, append_assoc, append_cons, append_empty_l.
    destruct (quotesOnly f) eqn:Hq.
    + apply scan_only_quotes; [|assumption].
      unfold quotesOnly in Hq. now apply andb_prop in Hq as [_ Hq].
    + apply scan_quoted; [now apply onlyQuotes_of_quotesOnly | assumption].
  - unfold needsQuoting in Hn.
    apply orb_false_elim in Hn as [Hn _].
    apply orb_false_elim in Hn as [Hc Hq].
    rewrite (quotesOnly_bare f Hq). now apply scan_bare.
Qed.

Lemma concat_cons2 (sep x y : string) (l : list string) :
  String.concat sep (x :: y :: l) = x +:+ sep +:+ String.concat sep (y :: l).
Proof. reflexivity. Qed.

Lemma scan_fields (F : list string) :
  forall f res,
    scan (String.concat "," (map escapeString (f :: F))) false "" res
    = res ++ map readBack (f :: F).
Proof.
  induction F as [|g F IH]; intros f res.
  - simpl. rewrite <- (append_empty_r (escapeString f)).
    rewrite scan_field; [reflexivity | exact I].
  - change (map escapeString (f :: g :: F))
      with (escapeString f :: escapeString g :: map escapeString F).
    rewrite concat_cons2.
    rewrite scan_field by reflexivity.
    rewrite append_cons, !append_empty_l, scan_comma.
    change (escapeString g :: map escapeString F)
      with (map escapeString (g :: F)).
    rewrite IH. now rewrite <- app_assoc.
Qed.

Lemma escapeCSV_text (v : value) : escapeCSV v = escapeString (fieldText v).
Proof. destruct v; reflexivity. Qed.

(** Reading back a row of cells. *)
Lemma parse_joinRow (cells : list value) :
  cells <> [] ->
  parseCSVRow (joinRow cells) = map (fun v => readBack (fieldText v)) cells.
Proof.
  intros Hne. destruct cells as [|v cells]; [congruence|].
  unfold parseCSVRow, joinRow.
  rewrite (map_ext _ _ escapeCSV_text), <- map_map.
  change (map fieldText (v :: cells)) with (fieldText v :: map fieldText cells).
  rewrite scan_fields. simpl. now rewrite map_map.
Qed.

End TokenizerFacts.

Import Tokenizer Encoder TokenizerFacts.

(** C7.  [parseCSVRow] is not the scan of the specification: it takes a
    quote that is followed by a quote for a literal quote outside quotes
    too.  On the line of two quotes, an empty quoted field, the scan of the
    specification returns the empty field and [parseCSVRow] returns a field
    that holds one quote. *)
Theorem parseCSVRow_escapes_outside_quotes :
  parseCSVRow twoQuotes = [String dquote ""] /\ parseRowRef twoQuotes = [""].
Proof. split; reflexivity. Qed.

(** C8.  [parseCSVRow] returns a list of at least one field on every line,
    the empty line gives one empty field, and a quote that is never closed
    makes the rest of the line part of the last field: from any state of
    the loop that is inside quotes, a remainder without a quote is appended
    to the current field, which ends the list. *)
Theorem parseCSVRow_total :
  (forall row, 1 <= length (parseCSVRow row)) /\
  parseCSVRow "" = [""] /\
  (forall rest cur res,
     includes dquote rest = false ->
     scan rest true cur res = res ++ [cur +:+ rest]) /\
  (forall rest,
     includes dquote rest = false ->
     parseCSVRow (String dquote rest) = [rest]).
Proof.
  split; [|split; [reflexivity|split]].
  - intros row. apply (scan_length row false "" []).
  - intros rest cur res H. now apply scan_unclosed.
  - intros rest H. unfold parseCSVRow.
    destruct rest as [|c rest]; [reflexivity|].
    assert (Hc : Ascii.eqb c dquote = false).
    { simpl in H. now apply orb_false_elim in H as [H _]. }
    rewrite (scan_open _ _ _ _ _ Hc). simpl negb.
    now rewrite scan_unclosed.
Qed.

Lemma parseCSVRow_total_witness :
  parseCSVRow (String dquote "a,b") = ["a,b"].
Proof.
  exact (proj2 (proj2 (proj2 parseCSVRow_total)) "a,b" eq_refl).
Defined.

(** C2, as the code has it.  For every list of fields that is not empty,
    none of which contains a newline and none of which consists of double
    quotes only, parsing the comma-join of the escaped fields returns the
    list; [null] and [undefined] escape to the empty string. *)
Theorem row_round_trip (F : list string) :
  F <> [] ->
  Forall (fun f => includes newline f = false) F ->
  Forall (fun f => quotesOnly f = false) F ->
  parseCSVRow (joinRow (map VStr F)) = F
  /\ escapeCSV VNull = "" /\ escapeCSV VUndefined = "".
Proof.
  intros Hne _ Hq. split; [|split; reflexivity].
  rewrite parse_joinRow by (destruct F; [congruence | discriminate]).
  rewrite map_map. simpl. rewrite <- (map_id F) at 2.
  apply map_ext_in. intros f Hf. rewrite List.Forall_forall in Hq.
  unfold readBack. now rewrite (Hq f Hf).
Qed.

Lemma row_round_trip_witness :
  parseCSVRow (joinRow (map VStr ["a,b"; ""; String dquote "c"]))
  = ["a,b"; ""; String dquote "c"]
  /\ escapeCSV VNull = "" /\ escapeCSV VUndefined = "".
Proof.
  apply row_round_trip.
  - discriminate.
  - repeat constructor.
  - repeat constructor.
Defined.

(** C2 as stated fails: the empty list of fields joins to the empty line,
    which parses to one empty field; and the field that is one double
    quote comes back as two. *)
Lemma row_round_trip_fails :
  parseCSVRow (joinRow (map VStr [])) <> []
  /\ parseCSVRow (joinRow (map VStr [String dquote ""])) <> [String dquote ""].
Proof. split; discriminate. Qed.

(** ** Sorting *)

Module SortFacts.
Import Streaks.

Section Sorting.

Context {A : Type} (before : A -> A -> bool).

Hypothesis before_asym : forall x y, before x y = true -> before y x = false.
Hypothesis notAfter_trans : forall x y z,
  notAfter before x y -> notAfter before y z -> notAfter before x z.

Lemma insertBy_perm (x : A) (l : list A) :
  Permutation (insertBy before x l) (x :: l).
Proof.
  induction l as [|y l IH]; simpl; [reflexivity|].
  destruct (before y x); [|reflexivity].
  rewrite IH. apply perm_swap.
Qed.

Lemma sortBy_perm (l : list A) : Permutation (sortBy before l) l.
Proof.
  induction l as [|x l IH]; simpl; [reflexivity|].
  rewrite insertBy_perm. now constructor.
Qed.

Lemma insertBy_sorted (x : A) (l : list A) :
  Sorted (notAfter before) l -> Sorted (notAfter before) (insertBy before x l).
Proof.
  induction l as [|y l IH]; intros Hs; simpl.
  - repeat constructor.
  - destruct (before y x) eqn:Hyx.
    + apply Sorted_inv in Hs as [Hs Hhd]. constructor; [now apply IH|].
      destruct l as [|z l]; simpl.
      * constructor. unfold notAfter. now apply before_asym.
      * destruct (before z x); constructor.
        -- now inversion Hhd.
        -- unfold notAfter. now apply before_asym.
    + constructor; [assumption|]. constructor. exact Hyx.
Qed.

Lemma sortBy_sorted (l : list A) : Sorted (notAfter before) (sortBy before l).
Proof.
  induction l as [|x l IH]; simpl; [constructor | now apply insertBy_sorted].
Qed.

Lemma sortBy_strongly_sorted (l : list A) :
  StronglySorted (notAfter before) (sortBy before l).
Proof.
  apply Sorted.Sorted_StronglySorted; [exact notAfter_trans | apply sortBy_sorted].
Qed.

(** Inserting in front of a list whose elements may all follow. *)
Lemma insertBy_front (x : A) (l : list A) :
  Forall (notAfter before x) l -> insertBy before x l = x :: l.
Proof.
  destruct l as [|y l]; [reflexivity|].
  intros H. inversion H as [|? ? Hy _]; subst. simpl. now rewrite Hy.
Qed.

Lemma insertBy_filter (q : A -> bool) (x : A) (l : list A) :
  StronglySorted (notAfter before) l ->
  List.filter q (insertBy before x l)
  = if q x then insertBy before x (List.filter q l) else List.filter q l.
Proof.
  induction l as [|y l IH]; intros Hs; simpl.
  - now destruct (q x).
  - apply StronglySorted_inv in Hs as [Hs Hall].
    destruct (before y x) eqn:Hyx; simpl.
    + rewrite IH by assumption.
      destruct (q y), (q x); simpl; rewrite ?Hyx; reflexivity.
    + destruct (q x) eqn:Hqx; [|reflexivity].
      destruct (q y); simpl; [now rewrite Hyx|].
      symmetry. apply insertBy_front.
      apply List.Forall_forall. intros z Hz.
      apply List.filter_In in Hz as [Hz _].
      rewrite List.Forall_forall in Hall.
      apply (notAfter_trans x y z); [exact Hyx | now apply Hall].
Qed.

(** A stable sort commutes with a filter. *)
Lemma sortBy_filter (q : A -> bool) (l : list A) :
  List.filter q (sortBy before l) = sortBy before (List.filter q l).
Proof.
  induction l as [|x l IH]; simpl; [reflexivity|].
  rewrite insertBy_filter by apply sortBy_strongly_sorted.
  rewrite IH. now destruct (q x).
Qed.

End Sorting.

(** *** The order of strings *)

Lemma nat_of_ascii_inj (x y : ascii) : nat_of_ascii x = nat_of_ascii y -> x = y.
Proof.
  intros H. rewrite <- (ascii_nat_embedding x), <- (ascii_nat_embedding y).
  now rewrite H.
Qed.

Lemma strLtb_cons (x y : ascii) (a b : string) :
  strLtb (String x a) (String y b) = true <->
  (nat_of_ascii x < nat_of_ascii y
   \/ (nat_of_ascii x = nat_of_ascii y /\ strLtb a b = true)).
Proof.
  simpl. rewrite orb_true_iff, andb_true_iff, Nat.ltb_lt, Nat.eqb_eq. tauto.
Qed.

Lemma strLtb_cons_false (x y : ascii) (a b : string) :
  strLtb (String x a) (String y b) = false <->
  (nat_of_ascii y < nat_of_ascii x
   \/ (nat_of_ascii x = nat_of_ascii y /\ strLtb a b = false)).
Proof.
  simpl. rewrite orb_false_iff, andb_false_iff, Nat.ltb_ge, Nat.eqb_neq.
  destruct (strLtb a b); intuition (try lia; try congruence).
Qed.

Lemma strLtb_asym (a : string) :
  forall b, strLtb a b = true -> strLtb b a = false.
Proof.
  induction a as [|x a IH]; intros [|y b] H; try reflexivity; try discriminate.
  apply strLtb_cons in H. apply strLtb_cons_false.
  destruct H as [H|[H1 H2]]; [left; lia | right; split; [lia | now apply IH]].
Qed.

Lemma strLe_trans (a : string) :
  forall b c, strLtb b a = false -> strLtb c b = false -> strLtb c a = false.
Proof.
  induction a as [|x a IH]; intros [|y b] [|z c] H1 H2;
    try reflexivity; try discriminate.
  apply strLtb_cons_false in H1, H2. apply strLtb_cons_false.
  destruct H1 as [H1|[H1 H1']], H2 as [H2|[H2 H2']];
    try (left; lia). right. split; [lia|]. eapply IH; eassumption.
Qed.

Lemma strLtb_total (a : string) :
  forall b, strLtb a b = false -> strLtb b a = false -> a = b.
Proof.
  induction a as [|x a IH]; intros [|y b] H1 H2;
    try reflexivity; try discriminate.
  apply strLtb_cons_false in H1, H2.
  destruct H1 as [H1|[H1 H1']], H2 as [H2|[H2 H2']]; try lia.
  f_equal; [now apply nat_of_ascii_inj | now apply IH].
Qed.

Lemma strLe_transitive (x y z : string) : strLe x y -> strLe y z -> strLe x z.
Proof. unfold strLe, notAfter. intros H1 H2. eapply strLe_trans; eassumption. Qed.

Lemma sortedDates_sorted (l : list string) :
  StronglySorted strLe (sortBy strLtb l).
Proof.
  apply sortBy_strongly_sorted; [apply strLtb_asym | apply strLe_transitive].
Qed.

(** *** The order of streaks *)

Lemma notShorter_le (a b : Streak.t) :
  notShorter a b <-> Streak.length b <= Streak.length a.
Proof. unfold notShorter, notAfter, longerFirst. rewrite Nat.ltb_ge. tauto. Qed.

Lemma longerFirst_asym (a b : Streak.t) :
  longerFirst a b = true -> longerFirst b a = false.
Proof. unfold longerFirst. rewrite Nat.ltb_lt, Nat.ltb_ge. lia. Qed.

Lemma notShorter_trans (a b c : Streak.t) :
  notShorter a b -> notShorter b c -> notShorter a c.
Proof. rewrite !notShorter_le. lia. Qed.

End SortFacts.

(** ** Streaks *)

Module StreakFacts.
Import Streaks Runs SortFacts.

Lemma consecutive_iff (a b : string) :
  consecutive a b = true <->
  exists n, Date.day a = Some n /\ Date.day b = Some (n + 1)%Z.
Proof.
  unfold consecutive, Date.getTime, Date.nextDayTime, Date.sameTime.
  destruct (Date.day a) as [x|], (Date.day b) as [y|]; simpl.
  - rewrite Z.eqb_eq. unfold Date.msPerDay. split.
    + intros H. exists x. split; [reflexivity|]. f_equal. lia.
    + intros (n & [= ->] & [= ->]). lia.
  - split; [discriminate | intros (n & _ & [=])].
  - split; [discriminate | intros (n & [=] & _)].
  - split; [discriminate | intros (n & [=] & _)].
Qed.

Lemma chain_nonempty (l : list string) : chain l -> l <> [].
Proof. intros H; inversion H; discriminate. Qed.

Lemma last_cons2 (a b : string) (l : list string) :
  List.last (a :: b :: l) "" = List.last (b :: l) "".
Proof. reflexivity. Qed.

Lemma chain_snoc (l : list string) (d : string) :
  chain l -> consecutive (List.last l "") d = true -> chain (l ++ [d]).
Proof.
  induction 1 as [a|a b l Hab Hl IH]; intros Hd.
  - simpl in *. constructor; [assumption | constructor].
  - rewrite last_cons2 in Hd. simpl. constructor; [assumption|].
    now apply IH.
Qed.

Lemma summary_snoc (l : list string) (d : string) :
  l <> [] -> summary (l ++ [d]) = extended (summary l) d.
Proof.
  intros Hl. unfold summary, extended. simpl.
  rewrite last_last, length_app. simpl.
  destruct l; [congruence|]. simpl. f_equal. lia.
Qed.

Lemma separated_snoc (rs : list (list string)) (r r' : list string) :
  separated (rs ++ [r]) ->
  consecutive (List.last r "") (List.hd "" r') = false ->
  separated ((rs ++ [r]) ++ [r']).
Proof.
  induction rs as [|r0 rs IH]; intros Hs Hc; simpl in *.
  - constructor; [assumption | constructor].
  - destruct rs as [|r1 rs]; simpl in *.
    + inversion Hs; subst. constructor; [assumption|].
      constructor; [assumption | constructor].
    + inversion Hs; subst. constructor; [assumption|]. now apply IH.
Qed.

Lemma separated_grow (rs : list (list string)) (r : list string) (d : string) :
  separated (rs ++ [r]) -> r <> [] -> separated (rs ++ [r ++ [d]]).
Proof.
  intros Hs Hr. induction rs as [|r0 rs IH]; simpl in *.
  - constructor.
  - destruct rs as [|r1 rs]; simpl in *.
    + inversion Hs; subst. constructor; [|constructor].
      destruct r; [congruence | assumption].
    + inversion Hs; subst. constructor; [assumption|]. now apply IH.
Qed.

Lemma built_step (prefix : list string) (st : scanState) (d : string) :
  built prefix st -> built (prefix ++ [d]) (step st d).
Proof.
  intros [|closed open Hclosed Hopen Hsep]; simpl.
  - apply (built_open [] [d]); repeat constructor.
  - change (Streak.end_ (summary open)) with (List.last open "").
    destruct (consecutive (List.last open "") d) eqn:Hc.
    + rewrite <- summary_snoc by now apply chain_nonempty.
      rewrite <- app_assoc. apply built_open; [assumption | |].
      * now apply chain_snoc.
      * apply separated_grow; [assumption | now apply chain_nonempty].
    + replace (map summary closed ++ [summary open])
        with (map summary (closed ++ [open])) by now rewrite map_app.
      replace ((concat closed ++ open) ++ [d])
        with (concat (closed ++ [open]) ++ [d])
        by (rewrite concat_app; simpl; now rewrite app_nil_r).
      apply (built_open (closed ++ [open]) [d]).
      * apply Forall_app. split; [assumption | now constructor].
      * constructor.
      * now apply separated_snoc.
Qed.

Lemma built_fold (dates : list string) :
  forall prefix st,
    built prefix st -> built (prefix ++ dates) (fold_left step dates st).
Proof.
  induction dates as [|d dates IH]; intros prefix st H; simpl.
  - now rewrite app_nil_r.
  - replace (prefix ++ d :: dates) with ((prefix ++ [d]) ++ dates)
      by now rewrite <- app_assoc.
    apply IH. now apply built_step.
Qed.

Lemma built_runs (dates : list string) (st : scanState) :
  built dates st ->
  exists runs,
    concat runs = dates /\ Forall chain runs /\ separated runs
    /\ closeScan st = map summary runs.
Proof.
  intros [|closed open Hclosed Hopen Hsep].
  - exists []. repeat split; constructor.
  - exists (closed ++ [open]). repeat split.
    + rewrite concat_app. simpl. now rewrite app_nil_r.
    + apply Forall_app. split; [assumption | now constructor].
    + assumption.
    + simpl. now rewrite map_app.
Qed.

(** The runs behind the streaks of a history. *)
Lemma scan_runs (dates : list string) :
  exists runs,
    concat runs = dates /\ Forall chain runs /\ separated runs
    /\ closeScan (fold_left step dates ([], None)) = map summary runs.
Proof. apply built_runs. apply (built_fold dates [] _ built_start). Qed.



Lemma isDateKey_day (d : string) :
  Date.isDateKey d = true -> exists n, Date.day d = Some n.
Proof.
  unfold Date.isDateKey, Date.day.
  destruct (Date.fields d) as [[[y m] dd]|]; [eauto | discriminate].
Qed.

(** A run spans as many calendar days as it has dates. *)
Lemma chain_span (l : list string) :
  chain l -> Forall (fun d => Date.isDateKey d = true) l ->
  exists n,
    Date.day (List.hd "" l) = Some n
    /\ Date.day (List.last l "") = Some (n + Z.of_nat (length l) - 1)%Z.
Proof.
  induction 1 as [d|a b l Hab Hl IH]; intros Hv.
  - inversion Hv as [|? ? Hd _]; subst.
    apply isDateKey_day in Hd as [n Hn]. exists n. simpl.
    split; [assumption|]. rewrite Hn. f_equal. lia.
  - inversion Hv as [|? ? _ Hv']; subst.
    apply consecutive_iff in Hab as (n & Ha & Hb).
    destruct (IH Hv') as (n' & Hb' & Hlast).
    simpl in Hb'. rewrite Hb in Hb'. injection Hb' as <-.
    exists n. split; [assumption|].
    rewrite last_cons2, Hlast. f_equal.
    change (length (a :: b :: l)) with (S (length (b :: l))). lia.
Qed.

Lemma strLtb_irrefl (a : string) : strLtb a a = false.
Proof.
  induction a as [|x a IH]; [reflexivity|].
  apply strLtb_cons_false. right. now split.
Qed.

Lemma sorted_ends (l : list string) :
  StronglySorted strLe l -> strLe (List.hd "" l) (List.last l "").
Proof.
  destruct l as [|a l]; intros H.
  - reflexivity.
  - apply StronglySorted_inv in H as [_ H]. simpl List.hd.
    destruct l as [|b l]; [apply strLtb_irrefl|].
    rewrite List.Forall_forall in H. apply H.
    rewrite last_cons2.
    destruct (exists_last (l := b :: l)) as (l' & z & Hz); [discriminate|].
    rewrite Hz, last_last. apply in_or_app. right. now left.
Qed.

Lemma sorted_runs (runs : list (list string)) :
  StronglySorted strLe (concat runs) ->
  Forall (fun run => strLe (List.hd "" run) (List.last run "")) runs.
Proof.
  induction runs as [|run runs IH]; intros H; [constructor|].
  simpl in H. apply StronglySorted_app in H as (_ & H1 & H2).
  constructor; [now apply sorted_ends | now apply IH].
Qed.

Lemma length_concat_runs (runs : list (list string)) :
  sum_list_with Streak.length (map summary runs) = length (concat runs).
Proof.
  induction runs as [|run runs IH]; [reflexivity|].
  simpl. rewrite IH, length_app. reflexivity.
Qed.

End StreakFacts.

Import Streaks Runs SortFacts StreakFacts.


(** C10.  When the keys with status ["done"] are date keys, every streak
    returned has a length of at least one, a start that is not after its
    end, and a length that is the number of days from start to end, both
    included; and the lengths add up to the number of entries with status
    ["done"]. *)
Theorem streaks_partition_done (history : obj value) :
  Forall (fun d => Date.isDateKey d = true) (doneDates history) ->
  Forall (fun s =>
            1 <= Streak.length s
            /\ strLe (Streak.start s) (Streak.end_ s)
            /\ exists a b,
                 Date.day (Streak.start s) = Some a
                 /\ Date.day (Streak.end_ s) = Some b
                 /\ (a <= b)%Z
                 /\ Z.of_nat (Streak.length s) = (b - a + 1)%Z)
         (calculateStreaks history)
  /\ sum_list_with Streak.length (calculateStreaks history)
     = length (List.filter isDone history).
Proof.
  intros Hvalid.
  destruct (scan_runs (sortBy strLtb (doneDates history)))
    as (runs & Hcat & Hchain & Hsep & Hclose).
  assert (Hperm : Permutation (calculateStreaks history) (map summary runs)).
  { unfold calculateStreaks. rewrite Hclose. apply sortBy_perm. }
  split.
  - assert (Hkeys : Forall (fun d => Date.isDateKey d = true) (concat runs)).
    { rewrite Hcat. eapply Permutation_Forall; [|exact Hvalid].
      symmetry. apply sortBy_perm. }
    assert (Hord : Forall (fun run => strLe (List.hd "" run) (List.last run ""))
                     runs).
    { apply sorted_runs. rewrite Hcat. apply sortedDates_sorted. }
    eapply Permutation_Forall; [symmetry; exact Hperm|].
    apply Forall_map.
    clear Hperm Hclose Hcat Hsep Hvalid.
    induction runs as [|run runs IH]; [constructor|].
    simpl in Hkeys. apply Forall_app in Hkeys as [Hrun Hkeys].
    inversion Hchain as [|? ? Hc Hchain']; subst.
    inversion Hord as [|? ? Ho Hord']; subst.
    constructor; [|now apply IH].
    destruct (chain_span run Hc Hrun) as (n & Hhd & Hlast).
    simpl. split; [|split; [exact Ho|]].
    + destruct run; [now apply chain_nonempty in Hc | simpl; lia].
    + exists n, (n + Z.of_nat (length run) - 1)%Z.
      repeat split; try assumption; try lia.
      destruct run; [now apply chain_nonempty in Hc | simpl length; lia].
  - rewrite Hperm, length_concat_runs, Hcat.
    rewrite (Permutation_length (sortBy_perm strLtb (doneDates history))).
    unfold doneDates. now rewrite length_map.
Qed.

Lemma streaks_partition_done_witness :
  let history :=
    [ ("2024-02-28", VStr "done"); ("2024-03-01", VStr "done");
      ("2024-02-29", VStr "done"); ("2024-03-05", VStr "done");
      ("2024-03-03", VStr "fail") ] in
  Forall (fun s =>
            1 <= Streak.length s
            /\ strLe (Streak.start s) (Streak.end_ s)
            /\ exists a b,
                 Date.day (Streak.start s) = Some a
                 /\ Date.day (Streak.end_ s) = Some b
                 /\ (a <= b)%Z
                 /\ Z.of_nat (Streak.length s) = (b - a + 1)%Z)
         (calculateStreaks history)
  /\ sum_list_with Streak.length (calculateStreaks history)
     = length (List.filter isDone history).
Proof.
  apply streaks_partition_done. repeat constructor.
Defined.

(** ** Date keys in order *)

Module DateFacts.
Import Date.

Local Open Scope Z_scope.

Lemma month_cases (m : Z) :
  1 <= m <= 12 ->
  m = 1 \/ m = 2 \/ m = 3 \/ m = 4 \/ m = 5 \/ m = 6 \/ m = 7 \/ m = 8
  \/ m = 9 \/ m = 10 \/ m = 11 \/ m = 12.
Proof. lia. Qed.

Lemma daysBefore_next (y m : Z) :
  1 <= m <= 11 -> daysBefore y (m + 1) = daysBefore y m + daysInMonth y m.
Proof.
  intros H. assert (H' : 1 <= m <= 12) by lia.
  apply month_cases in H'. unfold daysBefore, daysInMonth.
  destruct (isLeap y);
    repeat (destruct H' as [->|H']; [reflexivity|]); lia.
Qed.

Lemma daysInMonth_pos (y m : Z) : 28 <= daysInMonth y m <= 31.
Proof.
  unfold daysInMonth.
  destruct (m =? 2); [destruct (isLeap y); lia|].
  destruct (_ || _); lia.
Qed.

Lemma daysBefore_mono (y m m' : Z) :
  1 <= m -> m < m' -> m' <= 12 ->
  daysBefore y m + daysInMonth y m <= daysBefore y m'.
Proof.
  intros H1 H2 H3.
  assert (Hn : exists k : nat, m' = m + 1 + Z.of_nat k).
  { exists (Z.to_nat (m' - m - 1)). lia. }
  destruct Hn as [k ->]. induction k as [|k IH].
  - rewrite Z.add_0_r, daysBefore_next by lia. lia.
  - etransitivity; [apply IH; lia|].
    replace (m + 1 + Z.of_nat (S k)) with ((m + 1 + Z.of_nat k) + 1) by lia.
    rewrite daysBefore_next by lia.
    pose proof (daysInMonth_pos y (m + 1 + Z.of_nat k)). lia.
Qed.

Lemma daysBefore_nonneg (y m : Z) : 0 <= daysBefore y m.
Proof.
  unfold daysBefore.
  destruct (isLeap y);
    repeat match goal with |- context [if ?b then _ else _] => destruct b end;
    lia.
Qed.

Lemma year_days (y m d : Z) :
  1 <= m <= 12 -> d <= daysInMonth y m ->
  daysBefore y m + d <= 365 + leapDay y.
Proof.
  intros Hm Hd. apply month_cases in Hm. unfold leapDay.
  unfold daysBefore, daysInMonth in *.
  destruct (isLeap y);
    repeat (destruct Hm as [->|Hm]; [simpl in *; lia|]); subst; simpl in *; lia.
Qed.

Lemma dayFromYear_next (y : Z) :
  dayFromYear (y + 1) = dayFromYear y + 365 + leapDay y.
Proof.
  unfold dayFromYear, leapDay, isLeap.
  destruct (Z.eqb_spec (y mod 4) 0), (Z.eqb_spec (y mod 100) 0),
    (Z.eqb_spec (y mod 400) 0); simpl;
    Z.div_mod_to_equations; lia.
Qed.

Lemma dayFromYear_mono (y y' : Z) : y <= y' -> dayFromYear y <= dayFromYear y'.
Proof.
  intros H. unfold dayFromYear. Z.div_mod_to_equations. lia.
Qed.

(** The day number grows with year, month and day, in this order. *)
Lemma dayNumber_mono (y m d y' m' d' : Z) :
  1 <= m <= 12 -> 1 <= d <= daysInMonth y m ->
  1 <= m' <= 12 -> 1 <= d' <= daysInMonth y' m' ->
  y < y' \/ (y = y' /\ (m < m' \/ (m = m' /\ d < d'))) ->
  dayNumber y m d < dayNumber y' m' d'.
Proof.
  intros Hm Hd Hm' Hd' [Hy|[-> [Hlt|[-> Hlt]]]]; unfold dayNumber.
  - pose proof (year_days y m d Hm (proj2 Hd)).
    pose proof (dayFromYear_next y).
    pose proof (dayFromYear_mono (y + 1) y' ltac:(lia)).
    pose proof (daysBefore_nonneg y' m'). lia.
  - pose proof (daysBefore_mono y' m m' ltac:(lia) Hlt ltac:(lia)). lia.
  - lia.
Qed.


Lemma digit_code (c : ascii) (v : Z) :
  digit c = Some v -> 0 <= v <= 9 /\ Z.of_nat (nat_of_ascii c) = v + 48.
Proof.
  unfold digit.
  destruct (Z.leb_spec 48 (Z.of_nat (nat_of_ascii c)));
    destruct (Z.leb_spec (Z.of_nat (nat_of_ascii c)) 57); simpl;
    intros [= <-]; lia.
Qed.

Lemma number2_inv (a b : ascii) (n : Z) :
  number2 a b = Some n ->
  exists x y,
    n = 10 * x + y /\ 0 <= x <= 9 /\ 0 <= y <= 9
    /\ Z.of_nat (nat_of_ascii a) = x + 48 /\ Z.of_nat (nat_of_ascii b) = y + 48.
Proof.
  unfold number2.
  destruct (digit a) as [x|] eqn:Ha; [|discriminate].
  destruct (digit b) as [y|] eqn:Hb; [|discriminate].
  intros [= <-]. apply digit_code in Ha, Hb. exists x, y. intuition.
Qed.

Lemma number4_inv (a b c d : ascii) (n : Z) :
  number4 a b c d = Some n ->
  exists w x y z,
    n = 1000 * w + 100 * x + 10 * y + z
    /\ (0 <= w <= 9 /\ 0 <= x <= 9 /\ 0 <= y <= 9 /\ 0 <= z <= 9)
    /\ Z.of_nat (nat_of_ascii a) = w + 48 /\ Z.of_nat (nat_of_ascii b) = x + 48
    /\ Z.of_nat (nat_of_ascii c) = y + 48 /\ Z.of_nat (nat_of_ascii d) = z + 48.
Proof.
  unfold number4.
  destruct (number2 a b) as [p|] eqn:Hab; [|discriminate].
  destruct (number2 c d) as [q|] eqn:Hcd; [|discriminate].
  intros [= <-].
  apply number2_inv in Hab as (w & x & -> & ? & ? & ? & ?).
  apply number2_inv in Hcd as (y & z & -> & ? & ? & ? & ?).
  exists w, x, y, z. intuition lia.
Qed.

Ltac open_key key H :=
  do 10 (destruct key as [|? key]; [discriminate H|]);
  destruct key; [|discriminate H];
  unfold fields in H;
  match type of H with
  | match number4 ?a ?b ?c ?d with _ => _ end = _ =>
      let Hy := fresh "Hy" in
      destruct (number4 a b c d) eqn:Hy; [|discriminate H]
  end;
  match type of H with
  | match number2 ?a ?b with _ => _ end = _ =>
      let Hm := fresh "Hm" in
      destruct (number2 a b) eqn:Hm; [|discriminate H]
  end;
  match type of H with
  | match number2 ?a ?b with _ => _ end = _ =>
      let Hd := fresh "Hd" in
      destruct (number2 a b) eqn:Hd; [|discriminate H]
  end;
  match type of H with
  | (if ?c then _ else _) = _ =>
      let Hc := fresh "Hc" in
      destruct c eqn:Hc; [|discriminate H];
      repeat (apply andb_prop in Hc as [Hc ?])
  end;
  injection H as <- <- <-.

(** On date keys the order of strings is the order of year, month and
    day. *)
Lemma key_order (a b : string) (y m d y' m' d' : Z) :
  fields a = Some (y, m, d) -> fields b = Some (y', m', d') ->
  Streaks.strLtb a b = true ->
  (1 <= m <= 12 /\ 1 <= d <= daysInMonth y m)
  /\ (1 <= m' <= 12 /\ 1 <= d' <= daysInMonth y' m')
  /\ (y < y' \/ (y = y' /\ (m < m' \/ (m = m' /\ d < d')))).
Proof.
  intros Ha Hb Hlt.
  open_key a Ha. open_key b Hb.
  repeat match goal with
         | H : Ascii.eqb _ _ = true |- _ => apply Ascii.eqb_eq in H; subst
         | H : (_ <=? _) = true |- _ => apply Z.leb_le in H
         end.
  repeat match goal with
         | H : number4 _ _ _ _ = Some _ |- _ =>
             apply number4_inv in H as (? & ? & ? & ? & -> & (? & ? & ? & ?) & ? & ? & ? & ?)
         | H : number2 _ _ = Some _ |- _ =>
             apply number2_inv in H as (? & ? & -> & ? & ? & ? & ?)
         end.
  split; [lia|]. split; [lia|].
  simpl in Hlt. rewrite ?andb_false_r, ?orb_false_r in Hlt.
  repeat rewrite ?orb_true_iff, ?andb_true_iff, ?Nat.ltb_lt, ?Nat.eqb_eq in Hlt.
  lia.
Qed.

End DateFacts.

(** ** The workout streaks against the habit streaks *)

Module WorkoutFacts.
Import Streaks Runs SortFacts StreakFacts DateFacts.

Lemma dateKeys_dayLt (a b : string) :
  Date.isDateKey a = true -> Date.isDateKey b = true ->
  strLtb a b = true -> dayLt a b.
Proof.
  unfold Date.isDateKey, dayLt, Date.day.
  destruct (Date.fields a) as [[[y m] d]|] eqn:Ha; [|discriminate].
  destruct (Date.fields b) as [[[y' m'] d']|] eqn:Hb; [|discriminate].
  intros _ _ Hlt.
  destruct (key_order a b y m d y' m' d' Ha Hb Hlt) as ((Hm & Hd) & (Hm' & Hd') & Hlex).
  exists (Date.dayNumber y m d), (Date.dayNumber y' m' d').
  split; [reflexivity|]. split; [reflexivity|].
  now apply dayNumber_mono.
Qed.

Lemma sorted_dateKeys (l : list string) :
  StronglySorted strLe l -> List.NoDup l ->
  Forall (fun d => Date.isDateKey d = true) l ->
  StronglySorted dayLt l.
Proof.
  induction 1 as [|a l Hs IH Ha]; intros Hnd Hv; [constructor|].
  inversion Hnd as [|? ? Hnot Hnd']; subst.
  inversion Hv as [|? ? Hka Hv']; subst.
  constructor; [now apply IH|].
  rewrite List.Forall_forall in *. intros b Hb.
  apply dateKeys_dayLt; [assumption | now apply Hv'|].
  destruct (strLtb a b) eqn:Hab; [reflexivity|].
  exfalso. apply Hnot.
  rewrite (strLtb_total a b Hab (Ha b Hb)). exact Hb.
Qed.

Lemma far_apart (a b d : string) :
  dayLt a b -> dayLt b d -> consecutive a d = false.
Proof.
  intros (x & y & Hx & Hy & Hxy) (y' & z & Hy' & Hz & Hyz).
  destruct (consecutive a d) eqn:Hc; [|reflexivity].
  apply consecutive_iff in Hc as (n & Hn & Hn').
  rewrite Hy in Hy'. rewrite Hx in Hn. rewrite Hz in Hn'.
  injection Hy' as <-. injection Hn as <-. injection Hn' as ->. lia.
Qed.

Lemma long_worthKeeping (cur : option Streak.t) :
  List.filter long (worthKeeping cur)
  = List.filter long (from_option (fun c => [c]) [] cur).
Proof.
  destruct cur as [c|]; [|reflexivity]. simpl. unfold long.
  destruct (1 <? Streak.length c)%nat eqn:E; simpl; rewrite ?E; reflexivity.
Qed.

Section Scans.

Variable workoutHistory : obj (list WorkoutEntry.t).

Lemma workoutStep_entries (st : scanState) (d : string) :
  hasEntries workoutHistory d = true ->
  workoutStep workoutHistory st d = step st d.
Proof.
  unfold hasEntries, workoutStep. destruct st as [streaks cur].
  destruct (objGet d workoutHistory) as [[|e es]|]; try discriminate.
  reflexivity.
Qed.

Lemma workoutStep_empty (streaks : list Streak.t) (cur : option Streak.t)
    (d : string) :
  hasEntries workoutHistory d = false ->
  workoutStep workoutHistory (streaks, cur) d
  = (streaks ++ worthKeeping cur, None).
Proof.
  unfold hasEntries, workoutStep.
  destruct (objGet d workoutHistory) as [[|e es]|]; try discriminate;
    reflexivity.
Qed.

Lemma agree_step (d : string) (rest : list string) (sW sH : scanState) :
  StronglySorted dayLt (d :: rest) ->
  agree (d :: rest) sW sH ->
  agree rest (workoutStep workoutHistory sW d)
    (if hasEntries workoutHistory d then step sH d else sH).
Proof.
  intros Hs Hagree. apply StronglySorted_inv in Hs as [Hs Hd].
  destruct (hasEntries workoutHistory d) eqn:He.
  - rewrite workoutStep_entries by assumption.
    destruct Hagree as [stW stH cur Hf Hcur | stW stH c Hf Hfar].
    + destruct cur as [c|]; simpl.
      * destruct (consecutive (Streak.end_ c) d).
        -- apply agree_sync; [assumption|]. now intros ? [= <-].
        -- apply agree_sync; [|now intros ? [= <-]].
           rewrite !List.filter_app. now rewrite Hf.
      * apply agree_sync; [assumption|]. now intros ? [= <-].
    + inversion Hfar as [|? ? Hcd _]; subst. simpl. rewrite Hcd.
      apply agree_sync; [assumption|]. now intros ? [= <-].
  - destruct Hagree as [stW stH cur Hf Hcur | stW stH c Hf Hfar].
    + rewrite workoutStep_empty by assumption.
      destruct cur as [c|].
      * apply agree_pending.
        -- rewrite !List.filter_app, long_worthKeeping. simpl from_option.
           now rewrite Hf.
        -- specialize (Hcur c eq_refl).
           inversion Hcur as [|? ? Hcd _]; subst.
           eapply List.Forall_impl; [|exact Hd]. simpl.
           intros z Hz. now apply (far_apart _ d).
      * simpl. rewrite app_nil_r. apply agree_sync; [assumption|].
        intros ? [=].
    + rewrite workoutStep_empty by assumption. simpl. rewrite app_nil_r.
      apply agree_pending; [assumption | now inversion Hfar].
Qed.

Lemma agree_fold (rest : list string) :
  forall sW sH,
    StronglySorted dayLt rest -> agree rest sW sH ->
    List.filter long (closeWorkout (fold_left (workoutStep workoutHistory) rest sW))
    = List.filter long
        (closeScan
           (fold_left step (List.filter (hasEntries workoutHistory) rest) sH)).
Proof.
  induction rest as [|d rest IH]; intros sW sH Hs Hagree.
  - simpl. destruct Hagree as [stW stH cur Hf _ | stW stH c Hf _];
      unfold closeWorkout; simpl.
    + rewrite !List.filter_app, long_worthKeeping.
      destruct cur as [c|]; simpl from_option.
      * now rewrite List.filter_app, Hf.
      * simpl. now rewrite app_nil_r.
    + now rewrite app_nil_r.
  - simpl fold_left at 1. simpl List.filter at 3.
    pose proof (agree_step d rest sW sH Hs Hagree) as Hstep.
    apply StronglySorted_inv in Hs as [Hs _].
    destruct (hasEntries workoutHistory d); simpl; now apply IH.
Qed.

End Scans.

Lemma objGet_in {A : Type} (o : obj A) (k : string) (v : A) :
  List.NoDup (map fst o) -> In (k, v) o -> objGet k o = Some v.
Proof.
  induction o as [|[k' v'] o IH]; intros Hnd Hin; [contradiction|].
  inversion Hnd as [|? ? Hnot Hnd']; subst. simpl.
  destruct Hin as [[= -> ->]|Hin].
  - now rewrite String.eqb_refl.
  - destruct (String.eqb_spec k' k) as [->|_]; [|now apply IH].
    exfalso. apply Hnot. apply in_map_iff. now exists (k, v).
Qed.

Lemma doneDates_asStatus (wh : obj (list WorkoutEntry.t)) :
  List.NoDup (map fst wh) ->
  doneDates (asStatus wh) = List.filter (hasEntries wh) (map fst wh).
Proof.
  intros Hnd. unfold doneDates, asStatus.
  assert (H : forall l, incl l wh ->
            map fst (List.filter (fun entry => isStr entry.2 "done")
                       (map (fun '(date, entries) =>
                               (date, VStr match entries with
                                           | [] => "fail" | _ :: _ => "done"
                                           end)) l))
            = List.filter (hasEntries wh) (map fst l)).
  { induction l as [|[d es] l IH]; intros Hl; [reflexivity|].
    simpl. unfold hasEntries at 1.
    rewrite (objGet_in wh d es Hnd) by (apply Hl; now left).
    rewrite <- IH by (intros x Hx; apply Hl; now right).
    now destruct es. }
  apply H. apply incl_refl.
Qed.

End WorkoutFacts.

Import Streaks Runs SortFacts StreakFacts DateFacts WorkoutFacts.

(** C4, as the code has it.  Over a workout history whose keys are date
    keys, the streaks of more than one day that the workout analysis
    returns are those that the habit analysis returns for the predicate
    "has at least one entry", in the same order. *)
Theorem workout_streaks_agree_on_long (wh : obj (list WorkoutEntry.t)) :
  List.NoDup (map fst wh) ->
  Forall (fun d => Date.isDateKey d = true) (map fst wh) ->
  List.filter long (calculateWorkoutStreaks wh)
  = List.filter long (calculateStreaks (asStatus wh)).
Proof.
  intros Hnd Hv. unfold calculateWorkoutStreaks, calculateStreaks.
  rewrite doneDates_asStatus by assumption.
  rewrite <- (sortBy_filter strLtb strLtb_asym strLe_transitive).
  set (dates := sortBy strLtb (map fst wh)).
  assert (Hs : StronglySorted dayLt dates).
  { apply sorted_dateKeys.
    - apply sortedDates_sorted.
    - eapply Permutation_NoDup; [symmetry; apply sortBy_perm | exact Hnd].
    - eapply Permutation_Forall; [symmetry; apply sortBy_perm | exact Hv]. }
  pose proof (agree_fold wh dates ([], None) ([], None) Hs) as H.
  unfold closeWorkout in H.
  destruct (fold_left (workoutStep wh) dates ([], None)) as [streaks cur].
  rewrite !(sortBy_filter longerFirst longerFirst_asym notShorter_trans).
  f_equal. apply H. apply agree_sync; [reflexivity | intros ? [=]].
Qed.

Lemma workout_streaks_agree_on_long_witness :
  let wh := [ ("2024-01-01", [oneEntry]); ("2024-01-03", [oneEntry]);
              ("2024-01-04", [oneEntry]); ("2024-01-05", []);
              ("2024-01-06", [oneEntry]) ] in
  List.filter long (calculateWorkoutStreaks wh)
  = List.filter long (calculateStreaks (asStatus wh)).
Proof.
  apply workout_streaks_agree_on_long.
  - repeat constructor; simpl; intuition discriminate.
  - repeat constructor.
Defined.

(** C4 as stated fails: for a history of one day with one entry the
    workout analysis returns nothing and the habit analysis a streak of
    one day. *)
Lemma workout_streaks_differ :
  calculateWorkoutStreaks [("2024-01-01", [oneEntry])] = []
  /\ calculateStreaks (asStatus [("2024-01-01", [oneEntry])])
     = [Streak.mk "2024-01-01" "2024-01-01" 1].
Proof. split; reflexivity. Qed.

(** ** Lines *)

Module LineFacts.
Import Tokenizer Encoder Parse Typed.


Lemma countChar_includes (c : ascii) (s : string) :
  includes c s = false <-> countChar c s = 0.
Proof.
  induction s as [|x s IH]; simpl; [tauto|].
  destruct (Ascii.eqb x c); simpl; [split; [discriminate | lia] | exact IH].
Qed.

(** Every newline ends a line. *)
Lemma splitLines_length (s : string) :
  forall cur, length (splitLines s cur) = S (countChar newline s).
Proof.
  induction s as [|c|c1 c2 s IHs IHc] using string_pair_ind; intros cur.
  - reflexivity.
  - simpl. destruct (Ascii.eqb c newline) eqn:Hn; [reflexivity|].
    destruct (Ascii.eqb c creturn); reflexivity.
  - change (splitLines (String c1 (String c2 s)) cur) with
      (if Ascii.eqb c1 newline then cur :: splitLines (String c2 s) ""
       else if Ascii.eqb c1 creturn then
              if Ascii.eqb c2 newline then cur :: splitLines s ""
              else splitLines (String c2 s) (snoc cur c1)
            else splitLines (String c2 s) (snoc cur c1)).
    change (countChar newline (String c1 (String c2 s))) with
      ((if Ascii.eqb c1 newline then 1 else 0)
       + ((if Ascii.eqb c2 newline then 1 else 0) + countChar newline s)).
    destruct (Ascii.eqb c1 newline) eqn:H1.
    + cbn [length]. rewrite (IHc ""). reflexivity.
    + destruct (Ascii.eqb c1 creturn) eqn:H2.
      * destruct (Ascii.eqb c2 newline) eqn:H3.
        -- cbn [length]. rewrite IHs. reflexivity.
        -- rewrite (IHc (snoc cur c1)). simpl. now rewrite H3.
      * rewrite (IHc (snoc cur c1)). reflexivity.
Qed.


(** A line without a line break, up to the newline that ends it. *)
Lemma splitLines_line (line : string) :
  forall rest cur,
    includes newline line = false -> includes creturn line = false ->
    splitLines (line +:+ String newline rest) cur
    = (cur +:+ line) :: splitLines rest "".
Proof.
  induction line as [|c line IH]; intros rest cur Hn Hc.
  - now rewrite append_empty_l, append_empty_r.
  - simpl in Hn, Hc.
    apply orb_false_elim in Hn as [Hn Hn'].
    apply orb_false_elim in Hc as [Hc Hc'].
    rewrite append_cons. simpl. rewrite Hn, Hc.
    rewrite IH by assumption. now rewrite snoc_append.
Qed.

Lemma splitLines_last (line : string) :
  forall cur,
    includes newline line = false -> includes creturn line = false ->
    splitLines line cur = [cur +:+ line].
Proof.
  induction line as [|c line IH]; intros cur Hn Hc.
  - now rewrite append_empty_r.
  - simpl in Hn, Hc.
    apply orb_false_elim in Hn as [Hn Hn'].
    apply orb_false_elim in Hc as [Hc Hc'].
    simpl. rewrite Hn, Hc. rewrite IH by assumption. now rewrite snoc_append.
Qed.

(** Lines without line breaks, joined and split again. *)
Lemma splitLines_join (rows : list string) :
  rows <> [] -> Forall (fun r => noBreak r = true) rows ->
  splitLines (String.concat (String newline "") rows) "" = rows.
Proof.
  intros Hne H. induction rows as [|r rows IH]; [congruence|].
  inversion H as [|? ? Hr H']; subst.
  apply andb_prop in Hr as [Hn Hc].
  apply negb_true_iff in Hn, Hc.
  destruct rows as [|r' rows].
  - simpl. now rewrite splitLines_last.
  - rewrite TokenizerFacts.concat_cons2, append_cons, append_empty_l.
    rewrite splitLines_line by assumption.
    rewrite append_empty_l. f_equal. now apply IH.
Qed.

End LineFacts.

(** ** Decoding never reports the format error past the first check *)

Module ParseFacts.
Import Tokenizer Encoder Parse LineFacts.

Lemma bind_not_format {A B : Type} (r : result A) (f : A -> result B) :
  r <> FormatError -> (forall a, f a <> FormatError) ->
  bind r f <> FormatError.
Proof. destruct r; simpl; auto. Qed.

Lemma pushEntry_not_format {A : Type} (date : value) (entry : A)
    (history : obj (list A)) :
  pushEntry date entry history <> FormatError.
Proof.
  unfold pushEntry. destruct (objGet _ _); [discriminate|].
  destruct (inherited _); discriminate.
Qed.

Lemma habitSlot_not_format (idx : value) : habitSlot idx <> FormatError.
Proof.
  destruct idx; simpl; try discriminate.
  destruct (0 <=? z)%Z; discriminate.
Qed.

Lemma dispatch_not_format (headerMap : obj nat) (d : Imported.t)
    (row : list string) :
  dispatch headerMap d row <> FormatError.
Proof.
  unfold dispatch, intakeRow.
  repeat match goal with
         | |- (if ?b then _ else _) <> _ => destruct b
         | |- Ok _ <> _ => discriminate
         | |- TypeError <> _ => discriminate
         | |- bind _ _ <> _ => apply bind_not_format
         | |- pushEntry _ _ _ <> _ => apply pushEntry_not_format
         | |- habitSlot _ <> _ => apply habitSlot_not_format
         | |- forall _, _ => intro
         | |- match ?x with _ => _ end <> _ => destruct x
         end.
Qed.

Lemma processRows_not_format (headerMap : obj nat) (rows : list string) :
  forall d, processRows headerMap rows d <> FormatError.
Proof.
  induction rows as [|line rows IH]; intros d; simpl; [discriminate|].
  apply bind_not_format; [|exact IH].
  unfold processRow. destruct (allWhite line); [discriminate|].
  apply dispatch_not_format.
Qed.

Lemma format_error_iff (now csvData : string) :
  parseCSVData now csvData = FormatError
  <-> length (splitLines csvData "") < 2.
Proof.
  unfold parseCSVData.
  destruct (Nat.ltb_spec (length (splitLines csvData "")) 2) as [H|H].
  - tauto.
  - split; [|lia]. intros Hf. now apply processRows_not_format in Hf.
Qed.

Lemma few_lines_iff (csvData : string) :
  length (splitLines csvData "") < 2 <-> includes newline csvData = false.
Proof. rewrite splitLines_length, countChar_includes. lia. Qed.

End ParseFacts.

Import Tokenizer Encoder Parse Convert LineFacts ParseFacts.

(** C5, as the code has it.  [parseCSVData] fails with the format error
    exactly when the text has fewer than two lines, that is, when it has
    no newline; there is no check of the header. *)
Theorem format_error_exactly_when_short (now csvData : string) :
  (parseCSVData now csvData = FormatError
   <-> length (splitLines csvData "") < 2)
  /\ (length (splitLines csvData "") < 2
      <-> includes newline csvData = false).
Proof. split; [apply format_error_iff | apply few_lines_iff]. Qed.

(** C5 as stated fails: a header without any of the required columns,
    followed by a data row, is decoded without an error (to the initial
    data). *)
Lemma missing_columns_accepted :
  parseCSVData "2024-01-01T00:00:00.000Z"
    ("name,colour" +:+ String newline "water,goal")
  = Ok (initial "2024-01-01T00:00:00.000Z").
Proof. reflexivity. Qed.


(** ** The store during an import *)

Module ImportFacts.
Import ImportData.

Lemma objPut_fresh {A : Type} (k : string) (v : A) (o : obj A) :
  k ∉ o.*1 -> objPut k v o = o ++ [(k, v)].
Proof.
  induction o as [|[k' v'] o IH]; intros Hk; [reflexivity|].
  simpl in *. apply not_elem_of_cons in Hk as [Hne Hk].
  destruct (String.eqb_spec k' k) as [->|_]; [congruence|].
  now rewrite IH.
Qed.

Lemma backup_loop (l : list (string * string)) :
  forall backup,
    NoDup ((backup ++ l).*1) -> protoName ∉ l.*1 ->
    foldl (fun backup '(k, v) => objSet k v backup) backup l = backup ++ l.
Proof.
  induction l as [|[k v] l IH]; intros backup Hnd Hproto; simpl.
  - now rewrite app_nil_r.
  - simpl in Hproto. apply not_elem_of_cons in Hproto as [Hk Hproto].
    unfold objSet at 2.
    destruct (String.eqb_spec k protoName) as [->|_]; [congruence|].
    rewrite objPut_fresh.
    + rewrite IH; [now rewrite <- app_assoc| |assumption].
      now rewrite <- app_assoc.
    + rewrite fmap_app in Hnd. apply NoDup_app in Hnd as (_ & Hdisj & _).
      intros Hin. apply (Hdisj k Hin). simpl. left.
Qed.

(** The backup holds every entry of a store that has no key
    ["__proto__"]. *)
Lemma takeBackup_all (store : gmap string string) :
  store !! protoName = None -> takeBackup store = map_to_list store.
Proof.
  intros Hproto. unfold takeBackup. rewrite backup_loop; [reflexivity| |].
  - simpl. apply NoDup_fst_map_to_list.
  - intros Hin. apply list_elem_of_fmap in Hin as ([k v] & Hk & Hin).
    simpl in Hk. subst k. apply elem_of_map_to_list in Hin. congruence.
Qed.

Section Store.

Variable accepts : gmap string string -> string -> string -> bool.
Variable stringify : forall A : Type, A -> string.
Variable store : gmap string string.

(** Every write that puts back an entry of [store] into a part of
    [store] is accepted. *)
Hypothesis restorable : forall m k v,
  m ⊆ store -> store !! k = Some v -> accepts m k v = true.

Lemma restore_entries (l : list (string * string)) :
  forall m,
    NoDup l.*1 ->
    (forall k v, (k, v) ∈ l -> store !! k = Some v /\ m !! k = None) ->
    m ⊆ store ->
    restore accepts m l = (m ∪ list_to_map l, true).
Proof.
  induction l as [|[k v] l IH]; intros m Hnd Hl Hm; simpl.
  - now rewrite (right_id_L ∅ (∪)).
  - destruct (Hl k v) as [Hk Hfresh]; [left|].
    apply NoDup_cons in Hnd as [Hnot Hnd].
    unfold setItem. rewrite (restorable m k v Hm Hk).
    rewrite IH.
    + f_equal. rewrite <- insert_union_l. now apply insert_union_r.
    + assumption.
    + intros k' v' Hin. destruct (Hl k' v') as [Hk' Hfresh']; [now right|].
      split; [assumption|].
      rewrite lookup_insert_ne; [assumption|].
      intros ->. apply Hnot. apply list_elem_of_fmap. now exists (k', v').
    + now apply insert_subseteq_l.
Qed.

Lemma restore_backup :
  store !! protoName = None ->
  restore accepts ∅ (takeBackup store) = (store, true).
Proof.
  intros Hproto. rewrite takeBackup_all by assumption.
  rewrite restore_entries.
  - now rewrite (left_id_L ∅ (∪)), list_to_map_to_list.
  - apply NoDup_fst_map_to_list.
  - intros k v Hin. apply elem_of_map_to_list in Hin.
    split; [assumption | apply lookup_empty].
  - apply map_empty_subseteq.
Qed.

Lemma applyImport_failure (d : Imported.t) :
  store !! protoName = None ->
  (writeAll accepts store (plan stringify d)).2 = false ->
  applyImport accepts stringify store d = (store, RolledBack).
Proof.
  intros Hproto Hfail. unfold applyImport.
  destruct (writeAll accepts store (plan stringify d)) as [store' ok].
  simpl in Hfail. subst ok. now rewrite restore_backup.
Qed.

Lemma applyImport_success (d : Imported.t) (store' : gmap string string) :
  writeAll accepts store (plan stringify d) = (store', true) ->
  applyImport accepts stringify store d = (store', Imported).
Proof. intros H. unfold applyImport. now rewrite H. Qed.

Lemma importData_atomic (now : string) (confirmed : bool) (csvData : string) :
  store !! protoName = None ->
  (importData accepts stringify now confirmed store csvData).2 <> Imported ->
  (importData accepts stringify now confirmed store csvData).1 = store.
Proof.
  intros Hproto. unfold importData.
  destruct (Parse.parseCSVData now csvData) as [d| |]; try reflexivity.
  destruct (_ <? _)%Z; [reflexivity|].
  destruct confirmed; [|reflexivity].
  destruct (writeAll accepts store (plan stringify d)) as [store' ok] eqn:Hw.
  destruct ok.
  - rewrite (applyImport_success d store' Hw). simpl. congruence.
  - rewrite applyImport_failure; [reflexivity | assumption | now rewrite Hw].
Qed.

End Store.

(** *** The store with a quota *)

Lemma sum_submseteq {A : Type} (f : A -> nat) (l1 l2 : list A) :
  l1 ⊆+ l2 -> sum_list_with f l1 <= sum_list_with f l2.
Proof. induction 1; simpl; lia. Qed.

Lemma storeSize_mono (m1 m2 : gmap string string) :
  m1 ⊆ m2 -> storeSize m1 <= storeSize m2.
Proof.
  intros H. unfold storeSize. apply sum_submseteq.
  now apply map_to_list_submseteq.
Qed.

(** A store within its quota takes back any of its entries. *)
Lemma quota_restorable (capacity : nat) (store : gmap string string) :
  storeSize store <= capacity ->
  forall m k v,
    m ⊆ store -> store !! k = Some v -> withinQuota capacity m k v = true.
Proof.
  intros Hcap m k v Hm Hk. unfold withinQuota. apply Nat.leb_le.
  etransitivity; [|exact Hcap].
  apply storeSize_mono. now apply insert_subseteq_l.
Qed.

End ImportFacts.

Import ImportData ImportFacts.

(** C6.  Let the store have no key ["__proto__"] (the backup object
    cannot hold it) and let it accept every write that puts one of its own
    entries back.  Then an import in which a write fails ends with the
    store as it was before the import, every key at its old value, before
    the error is reported; an import in which no write fails ends with the
    writes made; and whenever [importData] does not report success the
    store is the one before the import. *)
Theorem import_restores_on_failure
    (accepts : gmap string string -> string -> string -> bool)
    (stringify : forall A : Type, A -> string)
    (store : gmap string string) :
  (forall m k v, m ⊆ store -> store !! k = Some v -> accepts m k v = true) ->
  store !! protoName = None ->
  (forall d,
     (writeAll accepts store (plan stringify d)).2 = false ->
     applyImport accepts stringify store d = (store, RolledBack))
  /\ (forall d store',
        writeAll accepts store (plan stringify d) = (store', true) ->
        applyImport accepts stringify store d = (store', Imported))
  /\ (forall now confirmed csvData,
        (importData accepts stringify now confirmed store csvData).2 <> Imported ->
        (importData accepts stringify now confirmed store csvData).1 = store).
Proof.
  intros Hres Hproto. split; [|split].
  - intros d. now apply applyImport_failure.
  - intros d store'. apply applyImport_success.
  - intros now confirmed csvData. now apply importData_atomic.
Qed.

(** A store of size 19 with a quota of 60: the third write of the import,
    the water history, exceeds the quota. *)
Lemma import_restores_on_failure_witness :
  applyImport (withinQuota 60) emptyJson sampleStore sampleImport
  = (sampleStore, RolledBack).
Proof.
  apply (proj1 (import_restores_on_failure (withinQuota 60) emptyJson
                  sampleStore
                  (quota_restorable 60 sampleStore ltac:(vm_compute; lia))
                  eq_refl)).
  vm_compute. reflexivity.
Defined.

(** ** Numbers as text *)

Module NumFacts.
Import Num.

Local Open Scope Z_scope.

Lemma digit_cases (d : Z) :
  0 <= d <= 9 ->
  d = 0 \/ d = 1 \/ d = 2 \/ d = 3 \/ d = 4 \/ d = 5 \/ d = 6 \/ d = 7
  \/ d = 8 \/ d = 9.
Proof. lia. Qed.

Lemma digitVal_digitChar (d : Z) :
  0 <= d <= 9 -> digitVal 10 (digitChar d) = Some d.
Proof.
  intros H. apply digit_cases in H.
  repeat (destruct H as [->|H]; [reflexivity|]). now subst.
Qed.

Lemma isDigit_digitChar (d : Z) : 0 <= d <= 9 -> isDigit (digitChar d) = true.
Proof.
  intros H. apply digit_cases in H.
  repeat (destruct H as [->|H]; [reflexivity|]). now subst.
Qed.

Lemma pow2_succ (fuel : nat) : 2 ^ Z.of_nat (S fuel) = 2 * 2 ^ Z.of_nat fuel.
Proof. rewrite Nat2Z.inj_succ, Z.pow_succ_r by lia. reflexivity. Qed.

Lemma digitsOf_O (n : Z) (acc : string) :
  digitsOf 0 n acc = String (digitChar (n mod 10)) acc.
Proof. reflexivity. Qed.

Lemma digitsOf_S (fuel : nat) (n : Z) (acc : string) :
  digitsOf (S fuel) n acc
  = if n <? 10 then String (digitChar (n mod 10)) acc
    else digitsOf fuel (n / 10) (String (digitChar (n mod 10)) acc).
Proof. reflexivity. Qed.

Lemma digitsLoop_cons (radix : Z) (c : ascii) (rest : string) (acc : option Z) :
  digitsLoop radix (String c rest) acc
  = match digitVal radix c with
    | Some d =>
        digitsLoop radix rest
          (Some (radix * (match acc with Some a => a | None => 0 end) + d))
    | None => acc
    end.
Proof. reflexivity. Qed.

Lemma digitsLoop_digit (n : Z) (rest : string) (acc : option Z) :
  0 <= n ->
  digitsLoop 10 (String (digitChar (n mod 10)) rest) acc
  = digitsLoop 10 rest
      (Some (10 * (match acc with Some a => a | None => 0 end) + n mod 10)).
Proof.
  intros Hn. rewrite digitsLoop_cons, digitVal_digitChar; [reflexivity|].
  pose proof (Z.mod_pos_bound n 10). lia.
Qed.

(** Reading the digits that [digitsOf] writes. *)
Lemma digitsLoop_digitsOf (fuel : nat) :
  forall n rest,
    0 <= n < 2 ^ Z.of_nat (S fuel) ->
    digitsLoop 10 (digitsOf fuel n rest) None = digitsLoop 10 rest (Some n).
Proof.
  induction fuel as [|fuel IH]; intros n rest Hn.
  - change (2 ^ Z.of_nat 1) with 2 in Hn.
    rewrite digitsOf_O, digitsLoop_digit by lia.
    rewrite Z.mod_small by lia. f_equal; f_equal; lia.
  - rewrite digitsOf_S. destruct (Z.ltb_spec n 10) as [Hlt|Hge].
    + rewrite digitsLoop_digit by lia.
      rewrite Z.mod_small by lia. f_equal; f_equal; lia.
    + rewrite IH.
      * rewrite digitsLoop_digit by lia.
        pose proof (Z.div_mod n 10). f_equal; f_equal; lia.
      * rewrite pow2_succ in Hn.
        split; [apply Z.div_pos; lia|].
        apply Z.div_lt_upper_bound; lia.
Qed.

Lemma log2_fuel (n : Z) :
  0 <= n -> 0 <= n < 2 ^ Z.of_nat (S (Z.to_nat (Z.log2 n))).
Proof.
  intros Hn. split; [assumption|].
  rewrite Nat2Z.inj_succ, Z2Nat.id by apply Z.log2_nonneg.
  destruct (Z.eq_dec n 0) as [->|Hne]; [reflexivity|].
  apply Z.log2_spec. lia.
Qed.

Lemma digitsOf_digits (fuel : nat) :
  forall n acc,
    0 <= n -> allDigits acc = true ->
    exists c rest,
      digitsOf fuel n acc = String c rest
      /\ isDigit c = true /\ allDigits rest = true.
Proof.
  induction fuel as [|fuel IH]; intros n acc Hn Hacc.
  - rewrite digitsOf_O. eexists _, _. split; [reflexivity|].
    split; [apply isDigit_digitChar; pose proof (Z.mod_pos_bound n 10); lia | assumption].
  - rewrite digitsOf_S. destruct (n <? 10).
    + eexists _, _. split; [reflexivity|].
      split; [apply isDigit_digitChar; pose proof (Z.mod_pos_bound n 10); lia | assumption].
    + apply IH; [apply Z.div_pos; lia|].
      cbn [allDigits]. rewrite isDigit_digitChar by (pose proof (Z.mod_pos_bound n 10); lia).
      assumption.
Qed.

(** The text of a number that is not negative. *)
Lemma toString_digits (n : Z) :
  0 <= n ->
  exists c rest,
    toString n = String c rest /\ isDigit c = true /\ allDigits rest = true.
Proof.
  intros Hn. unfold toString.
  destruct (Z.ltb_spec n 0); [lia|]. now apply digitsOf_digits.
Qed.

Lemma isDigit_not_white (c : ascii) : isDigit c = true -> isWhite c = false.
Proof.
  unfold isDigit, isWhite. intros H. apply andb_prop in H as [H1 H2].
  apply Z.leb_le in H1, H2.
  repeat rewrite orb_false_iff. repeat split.
  - apply andb_false_iff. right. apply Z.leb_gt. lia.
  - apply Z.eqb_neq. lia.
  - apply Z.eqb_neq. lia.
Qed.

Lemma isDigit_code (c : ascii) :
  isDigit c = true -> 48 <= Z.of_nat (nat_of_ascii c) <= 57.
Proof.
  unfold isDigit. intros H. apply andb_prop in H as [H1 H2].
  apply Z.leb_le in H1, H2. lia.
Qed.

Lemma not_digit (c x : ascii) :
  isDigit c = true -> isDigit x = false -> Ascii.eqb c x = false.
Proof.
  intros Hc Hx. destruct (Ascii.eqb_spec c x) as [->|]; [congruence|reflexivity].
Qed.

Lemma stripHex_digits (c : ascii) (rest : string) :
  isDigit c = true -> allDigits rest = true -> stripHex (String c rest) = None.
Proof.
  intros Hc Hrest. destruct rest as [|x rest]; simpl.
  - destruct c as [[] [] [] [] [] [] [] []]; reflexivity.
  - simpl in Hrest. apply andb_prop in Hrest as [Hx _].
    assert (Hx1 : Ascii.eqb x "x" = false) by (now apply not_digit).
    assert (Hx2 : Ascii.eqb x "X" = false) by (now apply not_digit).
    destruct c as [[] [] [] [] [] [] [] []]; try reflexivity;
      destruct x as [[] [] [] [] [] [] [] []]; try reflexivity; discriminate.
Qed.

Lemma sign_digits (c : ascii) (rest : string) :
  isDigit c = true ->
  (match String c rest with
   | String "-" r => (-1, r)
   | String "+" r => (1, r)
   | _ => (1, String c rest)
   end) = (1, String c rest).
Proof.
  intros Hc.
  assert (Hminus : Ascii.eqb c "-" = false) by (now apply not_digit).
  assert (Hplus : Ascii.eqb c "+" = false) by (now apply not_digit).
  destruct c as [[] [] [] [] [] [] [] []]; try reflexivity; discriminate.
Qed.

(** [parseInt] on digits that are preceded by nothing it would skip. *)
Lemma parseInt_digits (c : ascii) (rest : string) :
  isDigit c = true -> allDigits rest = true ->
  parseInt (String c rest)
  = match digitsLoop 10 (String c rest) None with
    | Some m => Some (1 * m)
    | None => None
    end.
Proof.
  intros Hc Hrest. unfold parseInt. cbn [trimStart].
  rewrite (isDigit_not_white c Hc), (sign_digits c rest Hc).
  now rewrite (stripHex_digits c rest Hc Hrest).
Qed.

Lemma parseInt_minus (s : string) :
  parseInt (String "-" s)
  = match (match stripHex s with
           | Some r => digitsLoop 16 r None
           | None => digitsLoop 10 s None
           end) with
    | Some m => Some (-1 * m)
    | None => None
    end.
Proof. reflexivity. Qed.

Lemma parseInt_toString_nonneg (n : Z) : 0 <= n -> parseInt (toString n) = Some n.
Proof.
  intros Hn. destruct (toString_digits n Hn) as (c & rest & Hs & Hc & Hrest).
  rewrite Hs, parseInt_digits by assumption. rewrite <- Hs.
  unfold toString. destruct (Z.ltb_spec n 0); [lia|].
  rewrite digitsLoop_digitsOf by now apply log2_fuel.
  cbn [digitsLoop]. f_equal. lia.
Qed.

(** [parseInt(String(z))] is [z]. *)
Lemma parseInt_toString (z : Z) : parseInt (toString z) = Some z.
Proof.
  destruct (Z.ltb_spec z 0) as [Hneg|Hpos];
    [|now apply parseInt_toString_nonneg].
  unfold toString. destruct (Z.ltb_spec z 0); [|lia].
  destruct (digitsOf_digits (Z.to_nat (Z.log2 (- z))) (- z) "" ltac:(lia) eq_refl)
    as (c & rest & Hs & Hc & Hrest).
  rewrite parseInt_minus, Hs, (stripHex_digits c rest Hc Hrest), <- Hs.
  rewrite digitsLoop_digitsOf by (apply log2_fuel; lia).
  cbn [digitsLoop]. f_equal. lia.
Qed.

(** No character other than digits and the minus sign. *)
Lemma includes_allDigits (x : ascii) (s : string) :
  isDigit x = false -> allDigits s = true -> includes x s = false.
Proof.
  intros Hx. induction s as [|c s IH]; intros Hs; [reflexivity|].
  simpl in *. apply andb_prop in Hs as [Hc Hs].
  rewrite (not_digit c x Hc Hx). now apply IH.
Qed.

Lemma includes_toString_nat (x : ascii) (n : nat) :
  isDigit x = false -> includes x (toString (Z.of_nat n)) = false.
Proof.
  intros Hx.
  destruct (toString_digits (Z.of_nat n) ltac:(lia)) as (c & rest & -> & Hc & Hr).
  simpl. rewrite (not_digit c x Hc Hx). now apply includes_allDigits.
Qed.

End NumFacts.

(** ** The text of the rows *)

Module RowFacts.
Import Tokenizer Encoder Parse Convert Typed.
Import TokenizerFacts LineFacts NumFacts DateFacts.

Lemma includes_append (c : ascii) (a b : string) :
  includes c (a +:+ b) = includes c a || includes c b.
Proof.
  induction a as [|x a IH]; [reflexivity|].
  rewrite append_cons. simpl. rewrite IH. now rewrite orb_assoc.
Qed.

Lemma includes_doubleQuotes (c : ascii) (f : string) :
  Ascii.eqb dquote c = false -> includes c (doubleQuotes f) = includes c f.
Proof.
  intros Hc. induction f as [|x f IH]; [reflexivity|].
  cbn [doubleQuotes]. destruct (Ascii.eqb x dquote) eqn:E.
  - apply Ascii.eqb_eq in E. subst x. cbn [includes]. now rewrite Hc, IH.
  - cbn [includes]. now rewrite IH.
Qed.

Lemma includes_escapeString (c : ascii) (f : string) :
  Ascii.eqb dquote c = false -> includes c (escapeString f) = includes c f.
Proof.
  intros Hc. unfold escapeString. destruct (needsQuoting f); [|reflexivity].
  cbn [includes].
  rewrite Hc, includes_append, includes_doubleQuotes by assumption.
  cbn [includes]. rewrite Hc. now rewrite !orb_false_r.
Qed.

Lemma includes_joinRow (c : ascii) (cells : list value) :
  Ascii.eqb dquote c = false -> Ascii.eqb "," c = false ->
  Forall (fun v => includes c (fieldText v) = false) cells ->
  includes c (joinRow cells) = false.
Proof.
  intros Hq Hc H. unfold joinRow.
  induction H as [|v cells Hv H IH]; [reflexivity|].
  destruct cells as [|v' cells].
  - cbn [map String.concat].
    now rewrite escapeCSV_text, includes_escapeString.
  - change (map escapeCSV (v :: v' :: cells))
      with (escapeCSV v :: escapeCSV v' :: map escapeCSV cells).
    rewrite concat_cons2, !includes_append.
    rewrite escapeCSV_text, includes_escapeString, Hv by assumption.
    cbn [includes orb]. rewrite Hc. exact IH.
Qed.

Lemma noBreak_iff (s : string) :
  noBreak s = true <-> includes newline s = false /\ includes creturn s = false.
Proof.
  unfold noBreak. rewrite andb_true_iff, !negb_true_iff. tauto.
Qed.

(** A row of cells without line breaks has none. *)
Lemma noBreak_joinRow (cells : list value) :
  forallb plain cells = true -> noBreak (joinRow cells) = true.
Proof.
  intros H. apply noBreak_iff.
  assert (H' : Forall (fun v => plain v = true) cells).
  { apply List.Forall_forall. now apply forallb_forall. }
  split; apply includes_joinRow; try reflexivity;
    (eapply List.Forall_impl; [|exact H']); intros v Hv;
    apply noBreak_iff in Hv; tauto.
Qed.

Lemma noBreak_append (a b : string) :
  noBreak (a +:+ b) = noBreak a && noBreak b.
Proof.
  unfold noBreak. rewrite !includes_append.
  destruct (includes newline a), (includes newline b),
    (includes creturn a), (includes creturn b); reflexivity.
Qed.

Lemma noBreak_index (n : nat) : noBreak (Num.toString (Z.of_nat n)) = true.
Proof.
  apply noBreak_iff. split; now apply includes_toString_nat.
Qed.

Lemma code_isDigit (c : ascii) (x : Z) :
  (0 <= x <= 9)%Z -> Z.of_nat (nat_of_ascii c) = (x + 48)%Z -> isDigit c = true.
Proof.
  intros Hx Hc. unfold isDigit. rewrite Hc.
  apply andb_true_intro. split; apply Z.leb_le; lia.
Qed.

(** The characters of a date key: digits and the minus sign. *)
Lemma dateKey_shape (d : string) :
  Date.isDateKey d = true ->
  exists c rest,
    d = String c rest /\ isDigit c = true
    /\ forall x, isDigit x = false -> Ascii.eqb "-" x = false ->
                 includes x d = false.
Proof.
  unfold Date.isDateKey.
  destruct (Date.fields d) as [[[y m] dd]|] eqn:Hd; [intros _|discriminate].
  open_key d Hd.
  repeat match goal with
         | H : Ascii.eqb _ _ = true |- _ => apply Ascii.eqb_eq in H; subst
         | H : (_ <=? _)%Z = true |- _ => clear H
         end.
  repeat match goal with
         | H : Date.number4 _ _ _ _ = Some _ |- _ =>
             apply number4_inv in H as (? & ? & ? & ? & _ & (? & ? & ? & ?) & ? & ? & ? & ?)
         | H : Date.number2 _ _ = Some _ |- _ =>
             apply number2_inv in H as (? & ? & _ & ? & ? & ? & ?)
         end.
  repeat match goal with
         | H : Z.of_nat (nat_of_ascii ?c) = (?x + 48)%Z |- _ =>
             let H' := fresh "Hdig" in
             assert (H' : isDigit c = true) by (apply (code_isDigit c x); assumption);
             clear H
         end.
  eexists _, _. split; [reflexivity|]. split; [assumption|].
  intros needle Hx Hminus. cbn [includes].
  repeat match goal with
         | H : isDigit ?c = true |- context [Ascii.eqb ?c needle] =>
             rewrite (not_digit c needle H Hx)
         end.
  now rewrite Hminus.
Qed.

Lemma dateKey_noBreak (d : string) : Date.isDateKey d = true -> noBreak d = true.
Proof.
  intros H. apply dateKey_shape in H as (c & rest & _ & _ & H).
  apply noBreak_iff. split; now apply H.
Qed.

Lemma dateKey_no_underscore (d : string) :
  Date.isDateKey d = true -> includes underscore d = false.
Proof.
  intros H. apply dateKey_shape in H as (c & rest & _ & _ & H). now apply H.
Qed.

Lemma dateKey_readBack (d : string) : Date.isDateKey d = true -> readBack d = d.
Proof.
  intros H. apply dateKey_shape in H as (c & rest & _ & _ & H).
  unfold readBack. now rewrite quotesOnly_bare by now apply H.
Qed.

Lemma dateKey_not_inherited (d : string) :
  Date.isDateKey d = true -> inherited d = false.
Proof.
  intros H. apply dateKey_shape in H as (c & rest & -> & Hc & _).
  unfold inherited, inheritedNames. cbn [existsb String.eqb].
  rewrite !(not_digit c _ Hc) by reflexivity. reflexivity.
Qed.

Lemma dateKey_not_proto (d : string) :
  Date.isDateKey d = true -> String.eqb d protoName = false.
Proof.
  intros H. apply dateKey_shape in H as (c & rest & -> & Hc & _).
  unfold protoName. cbn [String.eqb].
  now rewrite (not_digit c _ Hc) by reflexivity.
Qed.


Lemma plain_str (t : string) : plain (VStr t) = noBreak t.
Proof. reflexivity. Qed.

Lemma exact_plain (v : value) : exact v = true -> plain v = true.
Proof. unfold exact. intros H. now apply andb_prop in H as [H _]. Qed.

Lemma exact_readBack (v : value) :
  exact v = true -> readBack (fieldText v) = fieldText v.
Proof.
  unfold exact, readBack. intros H. apply andb_prop in H as [_ H].
  apply negb_true_iff in H. now rewrite H.
Qed.

Lemma noBreak_composite (a b : string) :
  noBreak a = true -> noBreak b = true -> noBreak (composite a b) = true.
Proof.
  intros Ha Hb. unfold composite. rewrite !noBreak_append, Ha, Hb. reflexivity.
Qed.

Lemma in_imap {A B : Type} (l : list A) :
  forall (f : nat -> A -> B) y,
    In y (imap f l) -> exists i x, In x l /\ y = f i x.
Proof.
  induction l as [|x l IH]; intros f y Hy; [contradiction|].
  destruct Hy as [<-|Hy].
  - exists 0%nat, x. split; [now left | reflexivity].
  - apply IH in Hy as (i & x' & Hin & ->).
    exists (S i), x'. split; [now right | reflexivity].
Qed.

Ltac row_ok :=
  apply noBreak_joinRow; cbn [forallb];
  repeat match goal with
         | |- (plain _ && _) = true => apply andb_true_intro; split
         end;
  rewrite ?plain_str; try reflexivity; try assumption.

Lemma addRow_noBreak (t k : string) (v : value) :
  noBreak t = true -> noBreak k = true -> plain v = true ->
  noBreak (addRow t k v) = true.
Proof. intros Ht Hk Hv. unfold addRow. row_ok. Qed.

Lemma intakeHistoryRows_noBreak (dt : string) (h : obj (list IntakeEntry.t)) :
  noBreak dt = true -> historyOk intakeOk h = true ->
  Forall (fun r => noBreak r = true) (intakeHistoryRows dt h).
Proof.
  intros Hdt Hh. apply andb_prop in Hh as [_ Hh].
  rewrite forallb_forall in Hh.
  apply List.Forall_forall. intros r Hr.
  apply in_flat_map in Hr as ([date entries] & Hin & Hr).
  apply in_imap in Hr as (i & e & He & ->).
  specialize (Hh _ Hin). cbn [fst snd] in Hh.
  apply andb_prop in Hh as [Hdate Hes].
  rewrite forallb_forall in Hes. specialize (Hes e He).
  apply andb_prop in Hes as [Ha Ht].
  apply dateKey_noBreak in Hdate. apply exact_plain in Ha, Ht.
  row_ok. apply noBreak_composite; [assumption | apply noBreak_index].
Qed.

Lemma trackerRows_noBreak (dt ht : string) (t : Tracker.t) :
  noBreak dt = true -> noBreak ht = true -> trackerOk t = true ->
  Forall (fun r => noBreak r = true) (trackerRows dt ht t).
Proof.
  intros Hdt Hht Ht. unfold trackerOk in Ht.
  apply andb_prop in Ht as [Ht Hh]. apply andb_prop in Ht as [Hg Hi].
  unfold trackerRows. apply Forall_app. split.
  - repeat constructor; now apply addRow_noBreak.
  - now apply intakeHistoryRows_noBreak.
Qed.

Lemma workoutRows_noBreak (w : Workout.t) :
  workoutOk w = true ->
  Forall (fun r => noBreak r = true)
    (workoutStateRows (Workout.state w) ++ workoutCountRows (Workout.count w)
     ++ workoutHistoryRows (Workout.history w)).
Proof.
  intros Hw. unfold workoutOk in Hw.
  apply andb_prop in Hw as [Hw Hh]. apply andb_prop in Hw as [Hs Hc].
  rewrite forallb_forall in Hs, Hc.
  apply andb_prop in Hh as [_ Hh]. rewrite forallb_forall in Hh.
  apply Forall_app. split; [|apply Forall_app; split];
    apply List.Forall_forall; intros r Hr.
  - apply in_map_iff in Hr as ([type st] & <- & Hin).
    specialize (Hs _ Hin). cbn [fst snd] in Hs.
    apply andb_prop in Hs as [Hs Ho]. apply andb_prop in Hs as [Ht Hcm].
    row_ok.
  - apply in_map_iff in Hr as ([type c] & <- & Hin).
    specialize (Hc _ Hin). cbn [fst snd] in Hc.
    apply andb_prop in Hc as [Ht Hcn]. row_ok.
  - apply in_flat_map in Hr as ([date entries] & Hin & Hr).
    apply in_imap in Hr as (i & e & He & ->).
    specialize (Hh _ Hin). cbn [fst snd] in Hh.
    apply andb_prop in Hh as [Hdate Hes].
    rewrite forallb_forall in Hes. specialize (Hes e He).
    apply andb_prop in Hes as [Hes Hts]. apply andb_prop in Hes as [Hty Hcn].
    apply dateKey_noBreak in Hdate. apply exact_plain in Hty, Hcn, Hts.
    row_ok. apply noBreak_composite; [assumption | apply noBreak_index].
Qed.

Lemma habitRows_noBreak (i : nat) (h : Habit.t) :
  habitOk h = true -> Forall (fun r => noBreak r = true) (habitRows i h).
Proof.
  intros Hh. unfold habitOk in Hh.
  apply andb_prop in Hh as [Hh Hhist]. apply andb_prop in Hh as [Hn Hc].
  unfold habitRows. constructor.
  - row_ok. apply noBreak_index.
  - destruct (Habit.history h) as [history|]; [|constructor].
    apply andb_prop in Hhist as [_ Hhist]. rewrite forallb_forall in Hhist.
    apply List.Forall_forall. intros r Hr.
    apply in_map_iff in Hr as ([date status] & <- & Hin).
    specialize (Hhist _ Hin). cbn [fst snd] in Hhist.
    apply andb_prop in Hhist as [Hdate Hst].
    apply dateKey_noBreak in Hdate. apply exact_plain in Hst.
    row_ok. apply noBreak_composite; [apply noBreak_index | assumption].
Qed.

Lemma habitsRows_noBreak (hs : list Habit.t) :
  forallb habitOk hs = true ->
  Forall (fun r => noBreak r = true) (concat (imap habitRows hs)).
Proof.
  intros H. rewrite forallb_forall in H.
  apply List.Forall_forall. intros r Hr.
  apply in_concat in Hr as (rows & Hrows & Hr).
  apply in_imap in Hrows as (i & h & Hh & ->).
  pose proof (habitRows_noBreak i h (H h Hh)) as Hok.
  rewrite List.Forall_forall in Hok. now apply Hok.
Qed.

(** The rows of a well-formed snapshot have no line breaks. *)
Lemma rowsOf_noBreak (now : string) (s : Snapshot.t) :
  wellFormed now s = true ->
  Forall (fun r => noBreak r = true) (rowsOf now s).
Proof.
  intros H. unfold wellFormed in H.
  apply andb_prop in H as [H Hreminder]. apply andb_prop in H as [H Htheme].
  apply andb_prop in H as [H Hhabits]. apply andb_prop in H as [H Hworkout].
  apply andb_prop in H as [H Hprotein]. apply andb_prop in H as [Hnow Hwater].
  apply workoutRows_noBreak in Hworkout.
  apply Forall_app in Hworkout as [Hws Hworkout].
  apply Forall_app in Hworkout as [Hwc Hwh].
  unfold rowsOf.
  apply Forall_app. split.
  { repeat constructor; apply addRow_noBreak; try reflexivity; assumption. }
  apply Forall_app. split; [now apply trackerRows_noBreak|].
  apply Forall_app. split; [now apply trackerRows_noBreak|].
  apply Forall_app. split; [assumption|].
  apply Forall_app. split; [assumption|].
  apply Forall_app. split; [assumption|].
  apply Forall_app. split; [now apply habitsRows_noBreak|].
  repeat constructor; apply addRow_noBreak; try reflexivity; assumption.
Qed.

End RowFacts.

(** ** Decoding the rows of a snapshot *)

Module DecodeFacts.
Import Tokenizer Encoder Parse Convert Typed.
Import TokenizerFacts LineFacts NumFacts DateFacts RowFacts.

Lemma headerMap_built :
  buildHeaderMap (parseCSVRow headerLine) 0 [] = headerMap.
Proof. vm_compute. reflexivity. Qed.

Lemma processRows_app (hm : obj nat) (rows1 rows2 : list string) :
  forall d,
    processRows hm (rows1 ++ rows2) d
    = bind (processRows hm rows1 d) (processRows hm rows2).
Proof.
  induction rows1 as [|r rows1 IH]; intros d; [reflexivity|].
  simpl. destruct (processRow hm d r); simpl; [apply IH | reflexivity..].
Qed.

Lemma processRow_cells (hm : obj nat) (d : Imported.t) (t : string)
    (cells : list value) :
  dark t ->
  processRow hm d (joinRow (VStr t :: cells))
  = dispatch hm d (map readText (VStr t :: cells)).
Proof.
  intros (c & rest & Ht & Hc). unfold processRow.
  rewrite parse_joinRow by discriminate.
  assert (Hw : allWhite (joinRow (VStr t :: cells)) = false).
  { unfold joinRow. destruct cells as [|v cells].
    - cbn [map String.concat]. cbn [escapeCSV toString]. rewrite Ht.
      cbn [allWhite]. now rewrite Hc.
    - change (map escapeCSV (VStr t :: v :: cells))
        with (escapeString t :: escapeCSV v :: map escapeCSV cells).
      rewrite concat_cons2, Ht, append_cons. cbn [allWhite]. now rewrite Hc. }
  now rewrite Hw.
Qed.

Lemma neutral_rows (rows : list string) :
  Forall neutral rows ->
  forall d, exists d',
    processRows headerMap rows d = Ok d' /\ views d' = views d.
Proof.
  induction 1 as [|r rows Hr _ IH]; intros d.
  - exists d. split; reflexivity.
  - destruct (Hr d) as (d1 & H1 & Hv1). destruct (IH d1) as (d2 & H2 & Hv2).
    exists d2. simpl. rewrite H1. simpl. split; [assumption | congruence].
Qed.

Ltac literal := eexists _, _; split; reflexivity.

Lemma neutral_meta (k : string) (v : value) : neutral (addRow "meta" k v).
Proof.
  intros d. unfold addRow. rewrite processRow_cells by literal.
  eexists. split; [reflexivity|].
  repeat match goal with
         | |- context [if ?b then _ else _] => destruct b
         end; reflexivity.
Qed.

Lemma neutral_water (k : string) (v : value) : neutral (addRow "water" k v).
Proof.
  intros d. unfold addRow. rewrite processRow_cells by literal.
  eexists. split; [reflexivity|]. unfold scalarRow.
  repeat match goal with
         | |- context [if ?b then _ else _] => destruct b
         end; reflexivity.
Qed.

Lemma neutral_protein (k : string) (v : value) : neutral (addRow "protein" k v).
Proof.
  intros d. unfold addRow. rewrite processRow_cells by literal.
  eexists. split; [reflexivity|]. unfold scalarRow.
  repeat match goal with
         | |- context [if ?b then _ else _] => destruct b
         end; reflexivity.
Qed.

Lemma neutral_settings (k : string) (v : value) :
  neutral (addRow "settings" k v).
Proof.
  intros d. unfold addRow. rewrite processRow_cells by literal.
  eexists. split; [reflexivity|].
  repeat match goal with
         | |- context [if ?b then _ else _] => destruct b
         end; reflexivity.
Qed.

Lemma neutral_workoutState (rows : obj WorkoutState.t) :
  Forall neutral (workoutStateRows rows).
Proof.
  apply List.Forall_forall. intros r Hr.
  apply in_map_iff in Hr as ([type st] & <- & _).
  intros d. rewrite processRow_cells by literal.
  eexists. split; reflexivity.
Qed.

Lemma neutral_workoutCount (rows : obj value) :
  Forall neutral (workoutCountRows rows).
Proof.
  apply List.Forall_forall. intros r Hr.
  apply in_map_iff in Hr as ([type c] & <- & _).
  intros d. rewrite processRow_cells by literal.
  eexists. split; reflexivity.
Qed.


(** *** Objects as lists of properties *)

Lemma objGet_last {A : Type} (k : string) (v : A) (h : obj A) :
  objGet k h = None -> objGet k (h ++ [(k, v)]) = Some v.
Proof.
  induction h as [|[k' v'] h IH]; simpl.
  - now rewrite String.eqb_refl.
  - destruct (String.eqb k' k); [discriminate | exact IH].
Qed.

Lemma objGet_other {A : Type} (k k' : string) (v : A) (h : obj A) :
  k' <> k -> objGet k (h ++ [(k', v)]) = objGet k h.
Proof.
  intros Hne. induction h as [|[k0 v0] h IH]; simpl.
  - now destruct (String.eqb_spec k' k).
  - now rewrite IH.
Qed.

Lemma objPut_new {A : Type} (k : string) (v : A) (h : obj A) :
  objGet k h = None -> objPut k v h = h ++ [(k, v)].
Proof.
  induction h as [|[k' v'] h IH]; simpl; [reflexivity|].
  destruct (String.eqb k' k); [discriminate|].
  intros H. now rewrite IH.
Qed.

Lemma objPut_last {A : Type} (k : string) (v v' : A) (h : obj A) :
  objGet k h = None -> objPut k v' (h ++ [(k, v)]) = h ++ [(k, v')].
Proof.
  induction h as [|[k0 v0] h IH]; simpl.
  - now rewrite String.eqb_refl.
  - destruct (String.eqb k0 k); [discriminate|].
    intros H. now rewrite IH.
Qed.

Lemma distinct_cons (x : string) (l : list string) :
  distinct (x :: l) = true -> ~ In x l /\ distinct l = true.
Proof.
  simpl. intros H. apply andb_prop in H as [Hx Hl]. split; [|assumption].
  intros Hin. apply negb_true_iff in Hx.
  assert (existsb (String.eqb x) l = true); [|congruence].
  apply existsb_exists. exists x. split; [assumption | apply String.eqb_refl].
Qed.

(** *** A history and its rows *)

Section History.

Context {A : Type}.
Variable get : Imported.t -> obj (list A).
Variable set : Imported.t -> obj (list A) -> Imported.t.
Variable rowOf : string -> nat -> A -> string.
Variable conv : A -> A.
Variable ok : A -> bool.

Hypothesis get_set : forall d h, get (set d h) = h.
Hypothesis set_set : forall d h h', set (set d h) h' = set d h'.
Hypothesis set_get : forall d, set d (get d) = d.
Hypothesis row_step : forall d date i e,
  Date.isDateKey date = true -> ok e = true ->
  processRow headerMap d (rowOf date i e)
  = bind (pushEntry (VStr date) (conv e) (get d)) (fun h => Ok (set d h)).

Lemma push_rest (date : string) (es : list A) :
  Date.isDateKey date = true ->
  forall (ix : nat -> nat) d h old,
    forallb ok es = true ->
    get d = h ++ [(date, old)] -> objGet date h = None ->
    processRows headerMap (imap (fun i => rowOf date (ix i)) es) d
    = Ok (set d (h ++ [(date, old ++ map conv es)])).
Proof.
  intros Hdate. induction es as [|e es IH]; intros ix d h old Hok Hget Hfresh.
  - simpl. now rewrite app_nil_r, <- Hget, set_get.
  - simpl in Hok. apply andb_prop in Hok as [He Hok].
    rewrite imap_cons. cbn [processRows].
    rewrite row_step by assumption.
    unfold pushEntry. cbn [toString]. rewrite Hget, objGet_last by assumption.
    rewrite objPut_last by assumption. cbn [bind].
    rewrite (IH (fun i => ix (S i)) _ h (old ++ [conv e]));
      [|assumption | apply get_set | assumption].
    rewrite set_set. cbn [map]. now rewrite <- app_assoc.
Qed.

Lemma push_date (date : string) (es : list A) (d : Imported.t) :
  Date.isDateKey date = true -> forallb ok es = true ->
  objGet date (get d) = None ->
  processRows headerMap (imap (rowOf date) es) d
  = Ok (set d (get d ++ match es with
                        | [] => []
                        | _ :: _ => [(date, map conv es)]
                        end)).
Proof.
  intros Hdate Hok Hfresh. destruct es as [|e es].
  - simpl. now rewrite app_nil_r, set_get.
  - simpl in Hok. apply andb_prop in Hok as [He Hok].
    rewrite imap_cons. cbn [processRows].
    rewrite row_step by assumption.
    unfold pushEntry. cbn [toString]. rewrite Hfresh.
    rewrite (dateKey_not_inherited date Hdate).
    rewrite objPut_new by assumption. cbn [bind].
    rewrite (push_rest date es Hdate S _ (get d) [conv e]);
      [|assumption | apply get_set | assumption].
    now rewrite set_set.
Qed.

Lemma push_history (history : obj (list A)) :
  forall d,
    historyOk ok history = true ->
    (forall k, In k (map fst history) -> objGet k (get d) = None) ->
    processRows headerMap
      (flat_map (fun '(date, entries) => imap (rowOf date) entries) history) d
    = Ok (set d (get d ++ decodedHistory conv history)).
Proof.
  induction history as [|[date es] history IH]; intros d Hok Hfresh.
  - simpl. unfold decodedHistory. simpl. now rewrite app_nil_r, set_get.
  - unfold historyOk in Hok. apply andb_prop in Hok as [Hdist Hall].
    cbn [map fst] in Hdist. apply distinct_cons in Hdist as [Hnot Hdist].
    cbn [forallb fst snd] in Hall. apply andb_prop in Hall as [Hhead Hall].
    apply andb_prop in Hhead as [Hdate Hes].
    cbn [flat_map]. rewrite processRows_app.
    rewrite push_date; [|assumption..|apply Hfresh; now left].
    cbn [bind]. rewrite IH.
    + rewrite set_set, get_set. f_equal. f_equal. rewrite <- app_assoc.
      f_equal. unfold decodedHistory. cbn [List.filter hasAny snd].
      now destruct es.
    + unfold historyOk. now rewrite Hdist, Hall.
    + intros k Hk. rewrite get_set.
      assert (Hne : date <> k) by (intros ->; contradiction).
      destruct es as [|e es].
      * rewrite app_nil_r. apply Hfresh. now right.
      * rewrite objGet_other by assumption. apply Hfresh. now right.
Qed.

End History.

(** *** The three histories *)

Lemma water_row (d : Imported.t) (date : string) (i : nat) (e : IntakeEntry.t) :
  Date.isDateKey date = true -> intakeOk e = true ->
  processRow headerMap d (intakeRowOf "water_history" date i e)
  = bind (pushEntry (VStr date) (decodedIntake e)
            (Tracker.history (Imported.water d)))
      (fun h => Ok (setWaterHistory d h)).
Proof.
  intros Hdate He. apply andb_prop in He as [Ha Ht].
  unfold intakeRowOf. rewrite processRow_cells by literal.
  cbn [map]. unfold readText at 4 5 6. cbn [fieldText toString].
  rewrite (dateKey_readBack date Hdate).
  rewrite (exact_readBack _ Ha), (exact_readBack _ Ht).
  match goal with
  | |- dispatch _ _ ?row = _ =>
      change (dispatch headerMap d row)
        with (bind (bind (pushEntry (VStr date) (decodedIntake e)
                            (Tracker.history (Imported.water d)))
                      (fun h => Ok (Tracker.mk
                                      (Tracker.goal (Imported.water d))
                                      (Tracker.intake (Imported.water d)) h)))
                (fun t => Ok (Imported.setWater d t)))
  end.
  now destruct (pushEntry _ _ _).
Qed.

Lemma protein_row (d : Imported.t) (date : string) (i : nat)
    (e : IntakeEntry.t) :
  Date.isDateKey date = true -> intakeOk e = true ->
  processRow headerMap d (intakeRowOf "protein_history" date i e)
  = bind (pushEntry (VStr date) (decodedIntake e)
            (Tracker.history (Imported.protein d)))
      (fun h => Ok (setProteinHistory d h)).
Proof.
  intros Hdate He. apply andb_prop in He as [Ha Ht].
  unfold intakeRowOf. rewrite processRow_cells by literal.
  cbn [map]. unfold readText at 4 5 6. cbn [fieldText toString].
  rewrite (dateKey_readBack date Hdate).
  rewrite (exact_readBack _ Ha), (exact_readBack _ Ht).
  match goal with
  | |- dispatch _ _ ?row = _ =>
      change (dispatch headerMap d row)
        with (bind (bind (pushEntry (VStr date) (decodedIntake e)
                            (Tracker.history (Imported.protein d)))
                      (fun h => Ok (Tracker.mk
                                      (Tracker.goal (Imported.protein d))
                                      (Tracker.intake (Imported.protein d)) h)))
                (fun t => Ok (Imported.setProtein d t)))
  end.
  now destruct (pushEntry _ _ _).
Qed.

Lemma workout_row (d : Imported.t) (date : string) (i : nat)
    (e : WorkoutEntry.t) :
  Date.isDateKey date = true -> workoutEntryOk e = true ->
  processRow headerMap d (workoutRowOf date i e)
  = bind (pushEntry (VStr date) (decodedWorkout e)
            (Workout.history (Imported.workout d)))
      (fun h => Ok (setWorkoutHistory d h)).
Proof.
  intros Hdate He. apply andb_prop in He as [He Hts].
  apply andb_prop in He as [Hty Hc].
  unfold workoutRowOf. rewrite processRow_cells by literal.
  cbn [map]. unfold readText at 4 6 7 8. cbn [fieldText toString].
  rewrite (dateKey_readBack date Hdate).
  rewrite (exact_readBack _ Hty), (exact_readBack _ Hc), (exact_readBack _ Hts).
  match goal with
  | |- dispatch _ _ ?row = _ =>
      change (dispatch headerMap d row)
        with (bind (pushEntry (VStr date) (decodedWorkout e)
                      (Workout.history (Imported.workout d)))
                (fun h => Ok (Imported.setWorkout d
                                (Workout.mk
                                   (Workout.state (Imported.workout d))
                                   (Workout.count (Imported.workout d)) h))))
  end.
  reflexivity.
Qed.

Lemma water_history_rows (d : Imported.t) (h : obj (list IntakeEntry.t)) :
  historyOk intakeOk h = true -> Tracker.history (Imported.water d) = [] ->
  processRows headerMap (intakeHistoryRows "water_history" h) d
  = Ok (setWaterHistory d (decodedHistory decodedIntake h)).
Proof.
  intros Hok Hempty.
  change (intakeHistoryRows "water_history" h)
    with (flat_map (fun '(date, entries) =>
                      imap (intakeRowOf "water_history" date) entries) h).
  rewrite (push_history (fun d => Tracker.history (Imported.water d))
             setWaterHistory (intakeRowOf "water_history") decodedIntake
             intakeOk).
  - now rewrite Hempty.
  - reflexivity.
  - reflexivity.
  - now intros [? ? [] ? ? ? ?].
  - intros; now apply water_row.
  - assumption.
  - intros k _. now rewrite Hempty.
Qed.

Lemma protein_history_rows (d : Imported.t) (h : obj (list IntakeEntry.t)) :
  historyOk intakeOk h = true -> Tracker.history (Imported.protein d) = [] ->
  processRows headerMap (intakeHistoryRows "protein_history" h) d
  = Ok (setProteinHistory d (decodedHistory decodedIntake h)).
Proof.
  intros Hok Hempty.
  change (intakeHistoryRows "protein_history" h)
    with (flat_map (fun '(date, entries) =>
                      imap (intakeRowOf "protein_history" date) entries) h).
  rewrite (push_history (fun d => Tracker.history (Imported.protein d))
             setProteinHistory (intakeRowOf "protein_history") decodedIntake
             intakeOk).
  - now rewrite Hempty.
  - reflexivity.
  - reflexivity.
  - now intros [? ? ? [] ? ? ?].
  - intros; now apply protein_row.
  - assumption.
  - intros k _. now rewrite Hempty.
Qed.

Lemma workout_history_rows (d : Imported.t) (h : obj (list WorkoutEntry.t)) :
  historyOk workoutEntryOk h = true ->
  Workout.history (Imported.workout d) = [] ->
  processRows headerMap (workoutHistoryRows h) d
  = Ok (setWorkoutHistory d (decodedHistory decodedWorkout h)).
Proof.
  intros Hok Hempty.
  change (workoutHistoryRows h)
    with (flat_map (fun '(date, entries) => imap (workoutRowOf date) entries) h).
  rewrite (push_history (fun d => Workout.history (Imported.workout d))
             setWorkoutHistory workoutRowOf decodedWorkout workoutEntryOk).
  - now rewrite Hempty.
  - reflexivity.
  - reflexivity.
  - now intros [? ? ? ? [] ? ?].
  - intros; now apply workout_row.
  - assumption.
  - intros k _. now rewrite Hempty.
Qed.

End DecodeFacts.

(** ** Decoding the rows of the habits *)

Module HabitFacts.
Import Tokenizer Encoder Parse Convert Typed.
Import TokenizerFacts LineFacts NumFacts DateFacts RowFacts DecodeFacts.

Lemma habitSlot_index (i : nat) :
  habitSlot (parseInt (VStr (Num.toString (Z.of_nat i)))) = Ok i.
Proof.
  unfold parseInt. cbn [toString]. rewrite parseInt_toString.
  cbn [habitSlot]. destruct (Z.leb_spec 0 (Z.of_nat i)); [|lia].
  now rewrite Nat2Z.id.
Qed.

Lemma index_readBack (i : nat) :
  readBack (Num.toString (Z.of_nat i)) = Num.toString (Z.of_nat i).
Proof.
  unfold readBack. rewrite quotesOnly_bare; [reflexivity|].
  now apply includes_toString_nat.
Qed.

Lemma onlyQuotes_append (a b : string) :
  onlyQuotes (a +:+ b) = onlyQuotes a && onlyQuotes b.
Proof.
  induction a as [|c a IH]; [reflexivity|].
  rewrite append_cons. cbn [onlyQuotes]. rewrite IH. now rewrite andb_assoc.
Qed.

Lemma composite_readBack (a b : string) :
  readBack (composite a b) = composite a b.
Proof.
  unfold readBack, quotesOnly, composite.
  rewrite onlyQuotes_append. cbn [String.append onlyQuotes].
  rewrite (andb_comm (onlyQuotes a)). cbn. now rewrite andb_false_r.
Qed.

Lemma splitOn_plain (sep : ascii) (s : string) :
  forall cur, includes sep s = false -> splitOn sep s cur = [cur +:+ s].
Proof.
  induction s as [|c s IH]; intros cur H.
  - now rewrite append_empty_r.
  - cbn [includes] in H. apply orb_false_elim in H as [Hc H].
    cbn [splitOn]. rewrite Hc, IH by assumption. now rewrite snoc_append.
Qed.

Lemma splitOn_first (sep : ascii) (a b : string) :
  forall cur,
    includes sep a = false ->
    splitOn sep (a +:+ String sep b) cur = (cur +:+ a) :: splitOn sep b "".
Proof.
  induction a as [|c a IH]; intros cur H.
  - rewrite append_empty_l, append_empty_r. cbn [splitOn].
    now rewrite Ascii.eqb_refl.
  - cbn [includes] in H. apply orb_false_elim in H as [Hc H].
    rewrite append_cons. cbn [splitOn]. rewrite Hc, IH by assumption.
    now rewrite snoc_append.
Qed.

(** The key of a habit history row, split at the underscores. *)
Lemma split_composite (i : nat) (date : string) :
  includes underscore date = false ->
  splitOn underscore (composite (Num.toString (Z.of_nat i)) date) ""
  = [Num.toString (Z.of_nat i); date].
Proof.
  intros Hdate. unfold composite.
  change ("_" +:+ date) with (String underscore date).
  rewrite splitOn_first by now apply includes_toString_nat.
  rewrite splitOn_plain by assumption. reflexivity.
Qed.

Lemma growTo_next (data : list Habit.t) :
  growTo data (length data) = data ++ [placeholder].
Proof.
  unfold growTo. replace (S (length data) - length data)%nat with 1%nat by lia.
  reflexivity.
Qed.

Lemma growTo_within (data : list Habit.t) (i : nat) :
  (i < length data)%nat -> growTo data i = data.
Proof.
  intros H. unfold growTo.
  replace (S i - length data)%nat with 0%nat by lia.
  simpl. now rewrite app_nil_r.
Qed.

(** The row of habit [i], when [i] habits have been decoded. *)
Lemma habit_row (d : Imported.t) (h : Habit.t) :
  processRow headerMap d (habitRowOf (length (Imported.habits d)) h)
  = Ok (Imported.setHabits d
          (Imported.habits d
           ++ [Habit.mk (VStr (readText (Habit.name h)))
                 (VStr (readText (Habit.color h))) (Some [])])).
Proof.
  unfold habitRowOf. rewrite processRow_cells by literal.
  cbn [map]. unfold readText at 2. cbn [fieldText toString].
  rewrite index_readBack.
  set (i := length (Imported.habits d)).
  match goal with
  | |- dispatch _ _ ?row = _ =>
      change (dispatch headerMap d row)
        with (bind (habitSlot (parseInt (VStr (Num.toString (Z.of_nat i)))))
                (fun habitIndex =>
                   let data := growTo (Imported.habits d) habitIndex in
                   match data !! habitIndex with
                   | Some old =>
                       Ok (Imported.setHabits d
                             (<[habitIndex :=
                                  Habit.mk (VStr (readText (Habit.name h)))
                                    (VStr (readText (Habit.color h)))
                                    (Some (default [] (Habit.history old)))]>
                                data))
                   | None => TypeError
                   end))
  end.
  rewrite habitSlot_index. cbn [bind]. cbv zeta. subst i.
  rewrite growTo_next.
  rewrite list_lookup_middle by reflexivity.
  rewrite insert_app_r_alt by lia. rewrite Nat.sub_diag. reflexivity.
Qed.

(** A history row of the last habit that has been decoded. *)
Lemma habit_history_row (d : Imported.t) (pre : list Habit.t)
    (name color : value) (history : obj value) (entry : string * value) :
  Imported.habits d = pre ++ [Habit.mk name color (Some history)] ->
  Date.isDateKey entry.1 = true -> exact entry.2 = true ->
  processRow headerMap d (habitHistoryRowOf (length pre) entry)
  = Ok (Imported.setHabits d
          (pre ++ [Habit.mk name color
                     (Some (objPut entry.1 (VStr (fieldText entry.2))
                              history))])).
Proof.
  intros Hd Hdate Hst. destruct entry as [date status]. cbn [fst snd] in *.
  unfold habitHistoryRowOf. rewrite processRow_cells by literal.
  cbn [map fst snd]. unfold readText at 2 3. cbn [fieldText toString].
  rewrite composite_readBack, (exact_readBack _ Hst).
  set (i := length pre).
  match goal with
  | |- dispatch _ _ ?row = _ =>
      change (dispatch headerMap d row)
        with (let parts :=
                splitOn underscore
                  (composite (Num.toString (Z.of_nat i)) date) "" in
              let habitIdx := default VUndefined (VStr <$> parts !! 0%nat) in
              let historyDate := default VUndefined (VStr <$> parts !! 1%nat) in
              bind (habitSlot (parseInt habitIdx)) (fun idx =>
                let data := growTo (Imported.habits d) idx in
                match data !! idx with
                | Some old =>
                    let history := default [] (Habit.history old) in
                    Ok (Imported.setHabits d
                          (<[idx :=
                               Habit.mk (Habit.name old) (Habit.color old)
                                 (Some (objSet (toString historyDate)
                                          (VStr (fieldText status)) history))]>
                             data))
                | None => TypeError
                end))
  end.
  rewrite split_composite by now apply dateKey_no_underscore.
  cbv zeta.
  change (default VUndefined
            (VStr <$> [Num.toString (Z.of_nat i); date] !! 0%nat))
    with (VStr (Num.toString (Z.of_nat i))).
  change (default VUndefined
            (VStr <$> [Num.toString (Z.of_nat i); date] !! 1%nat))
    with (VStr date).
  rewrite habitSlot_index. cbn [bind]. rewrite Hd.
  rewrite growTo_within by (rewrite length_app; cbn [length]; lia).
  subst i. rewrite list_lookup_middle by reflexivity.
  rewrite insert_app_r_alt by lia. rewrite Nat.sub_diag.
  cbn [Habit.history Habit.name Habit.color default toString].
  unfold objSet. rewrite (dateKey_not_proto date Hdate). reflexivity.
Qed.

Lemma setHabits_same (d : Imported.t) :
  Imported.setHabits d (Imported.habits d) = d.
Proof. now destruct d. Qed.

Lemma habit_history_rows (entries : obj value) :
  forall d pre name color history,
    Imported.habits d = pre ++ [Habit.mk name color (Some history)] ->
    distinct (map fst entries) = true ->
    (forall k, In k (map fst entries) -> objGet k history = None) ->
    forallb (fun entry => Date.isDateKey entry.1 && exact entry.2) entries
    = true ->
    processRows headerMap (map (habitHistoryRowOf (length pre)) entries) d
    = Ok (Imported.setHabits d
            (pre ++ [Habit.mk name color
                       (Some (history ++ map decodedStatus entries))])).
Proof.
  induction entries as [|e entries IH];
    intros d pre name color history Hd Hdist Hfresh Hok.
  - cbn [map processRows]. rewrite (app_nil_r history).
    change (Ok d = Ok (Imported.setHabits d
                         (pre ++ [Habit.mk name color (Some history)]))).
    now rewrite <- Hd, setHabits_same.
  - cbn [map fst] in Hdist. apply distinct_cons in Hdist as [Hnot Hdist].
    cbn [forallb] in Hok. apply andb_prop in Hok as [He Hok].
    apply andb_prop in He as [Hdate Hst].
    cbn [map processRows].
    rewrite (habit_history_row d pre name color history e Hd Hdate Hst).
    cbn [bind].
    rewrite objPut_new by (apply Hfresh; now left).
    rewrite (IH _ pre name color (history ++ [decodedStatus e]));
      [|reflexivity | assumption | | assumption].
    + cbn [map]. now rewrite <- app_assoc.
    + intros k Hk. unfold decodedStatus.
      rewrite objGet_other by (intros Heq; apply Hnot; now rewrite Heq).
      apply Hfresh. now right.
Qed.

Lemma habitRows_rows (i : nat) (h : Habit.t) :
  habitRows i h
  = habitRowOf i h
    :: map (habitHistoryRowOf i) (default [] (Habit.history h)).
Proof.
  unfold habitRows, habitHistoryRows. f_equal.
  destruct (Habit.history h) as [history|]; [|reflexivity].
  apply map_ext. now intros [date status].
Qed.

Lemma habit_rows (d : Imported.t) (h : Habit.t) :
  habitOk h = true ->
  processRows headerMap (habitRows (length (Imported.habits d)) h) d
  = Ok (Imported.setHabits d (Imported.habits d ++ [decodedHabit h])).
Proof.
  intros Hh. unfold habitOk in Hh. apply andb_prop in Hh as [_ Hhist].
  rewrite habitRows_rows. cbn [processRows]. rewrite habit_row. cbn [bind].
  rewrite (habit_history_rows _ _ (Imported.habits d)
             (VStr (readText (Habit.name h)))
             (VStr (readText (Habit.color h))) []).
  - reflexivity.
  - reflexivity.
  - destruct (Habit.history h); [|reflexivity].
    now apply andb_prop in Hhist as [Hhist _].
  - reflexivity.
  - destruct (Habit.history h); [|reflexivity].
    now apply andb_prop in Hhist as [_ Hhist].
Qed.

Lemma habits_rows (hs : list Habit.t) :
  forall d base,
    base = length (Imported.habits d) ->
    forallb habitOk hs = true ->
    processRows headerMap
      (concat (imap (fun j => habitRows (base + j)) hs)) d
    = Ok (Imported.setHabits d (Imported.habits d ++ map decodedHabit hs)).
Proof.
  induction hs as [|h hs IH]; intros d base Hbase Hok.
  - simpl. now rewrite app_nil_r, setHabits_same.
  - cbn [forallb] in Hok. apply andb_prop in Hok as [Hh Hok].
    rewrite imap_cons. cbn [concat]. rewrite processRows_app.
    rewrite Nat.add_0_r, Hbase, habit_rows by assumption. cbn [bind].
    rewrite (imap_ext _ (fun j => habitRows (S (length (Imported.habits d)) + j)))
      by (intros j x _; cbn [compose]; f_equal; lia).
    rewrite IH; [|cbn [Imported.habits Imported.setHabits];
                  rewrite length_app; cbn [length]; lia | assumption].
    cbn [map]. cbn [Imported.habits Imported.setHabits].
    now rewrite <- app_assoc.
Qed.

End HabitFacts.

(** ** Decoding an encoded snapshot *)

Module RoundTripFacts.
Import Tokenizer Encoder Parse Convert Typed.
Import TokenizerFacts LineFacts NumFacts DateFacts RowFacts DecodeFacts.
Import HabitFacts.

Lemma rowsOf_dataRows (now : string) (s : Snapshot.t) :
  rowsOf now s = headerLine :: dataRows now s.
Proof. reflexivity. Qed.

(** Decoding starts from the rows as they were written. *)
Lemma parseCSVData_rows (now now' : string) (s : Snapshot.t) :
  wellFormed now s = true ->
  parseCSVData now' (convertDataToCSV now s)
  = processRows headerMap (dataRows now s) (initial now').
Proof.
  intros H. unfold parseCSVData, convertDataToCSV.
  rewrite splitLines_join;
    [|rewrite rowsOf_dataRows; discriminate | now apply rowsOf_noBreak].
  rewrite rowsOf_dataRows.
  cbn [head tail default length]. unfold id.
  rewrite headerMap_built.
  destruct (dataRows now s) eqn:E; [discriminate E | reflexivity].
Qed.

Lemma views_water (d : Imported.t) (h : obj (list IntakeEntry.t)) :
  views (setWaterHistory d h)
  = (h, Tracker.history (Imported.protein d),
     Workout.history (Imported.workout d), Imported.habits d).
Proof. reflexivity. Qed.

Lemma views_protein (d : Imported.t) (h : obj (list IntakeEntry.t)) :
  views (setProteinHistory d h)
  = (Tracker.history (Imported.water d), h,
     Workout.history (Imported.workout d), Imported.habits d).
Proof. reflexivity. Qed.

Lemma views_workout (d : Imported.t) (h : obj (list WorkoutEntry.t)) :
  views (setWorkoutHistory d h)
  = (Tracker.history (Imported.water d),
     Tracker.history (Imported.protein d), h, Imported.habits d).
Proof. reflexivity. Qed.

Lemma views_habits (d : Imported.t) (hs : list Habit.t) :
  views (Imported.setHabits d hs)
  = (Tracker.history (Imported.water d),
     Tracker.history (Imported.protein d),
     Workout.history (Imported.workout d), hs).
Proof. reflexivity. Qed.

Lemma views_inv (d : Imported.t) a b c e :
  views d = (a, b, c, e) ->
  Tracker.history (Imported.water d) = a
  /\ Tracker.history (Imported.protein d) = b
  /\ Workout.history (Imported.workout d) = c
  /\ Imported.habits d = e.
Proof. unfold views. intros [= <- <- <- <-]. auto. Qed.

(** The views of the decoded data of a well-formed snapshot. *)
Lemma decode_views (now now' : string) (s : Snapshot.t) :
  wellFormed now s = true ->
  exists d,
    parseCSVData now' (convertDataToCSV now s) = Ok d
    /\ views d
       = (decodedHistory decodedIntake (Tracker.history (Snapshot.water s)),
          decodedHistory decodedIntake (Tracker.history (Snapshot.protein s)),
          decodedHistory decodedWorkout
            (Workout.history (Snapshot.workout s)),
          map decodedHabit (Snapshot.habits s)).
Proof.
  intros H. rewrite parseCSVData_rows by assumption.
  unfold wellFormed in H.
  apply andb_prop in H as [H _]. apply andb_prop in H as [H _].
  apply andb_prop in H as [H Hhabits]. apply andb_prop in H as [H Hworkout].
  apply andb_prop in H as [H Hprotein]. apply andb_prop in H as [_ Hwater].
  apply andb_prop in Hwater as [_ Hwater].
  apply andb_prop in Hprotein as [_ Hprotein].
  apply andb_prop in Hworkout as [_ Hworkout].
  unfold dataRows, trackerRows.
  set (d0 := initial now').
  assert (V0 : views d0 = ([], [], [], [])) by reflexivity.
  (* meta *)
  rewrite processRows_app.
  destruct (neutral_rows [ addRow "meta" "version" (VStr "2.0");
                           addRow "meta" "exportDate" (VStr now) ]
              ltac:(repeat constructor; apply neutral_meta) d0)
    as (d1 & -> & V1).
  rewrite V0 in V1. cbn [bind].
  (* water *)
  rewrite <- app_assoc, processRows_app.
  destruct (neutral_rows
              [ addRow "water" "goal" (Tracker.goal (Snapshot.water s));
                addRow "water" "intake" (Tracker.intake (Snapshot.water s)) ]
              ltac:(repeat constructor; apply neutral_water) d1)
    as (d2 & -> & V2).
  rewrite V1 in V2. cbn [bind].
  apply views_inv in V2 as (W2 & P2 & K2 & B2).
  rewrite processRows_app, water_history_rows by assumption. cbn [bind].
  set (d3 := setWaterHistory d2 _).
  assert (V3 : views d3
               = (decodedHistory decodedIntake
                    (Tracker.history (Snapshot.water s)), [], [], [])).
  { unfold d3. rewrite views_water. now rewrite P2, K2, B2. }
  clearbody d3. clear W2 P2 K2 B2 V1 V0.
  (* protein *)
  rewrite <- app_assoc, processRows_app.
  destruct (neutral_rows
              [ addRow "protein" "goal" (Tracker.goal (Snapshot.protein s));
                addRow "protein" "intake"
                  (Tracker.intake (Snapshot.protein s)) ]
              ltac:(repeat constructor; apply neutral_protein) d3)
    as (d4 & -> & V4).
  rewrite V3 in V4. cbn [bind].
  apply views_inv in V4 as (W4 & P4 & K4 & B4).
  rewrite processRows_app, protein_history_rows by assumption. cbn [bind].
  set (d5 := setProteinHistory d4 _).
  assert (V5 : views d5
               = (decodedHistory decodedIntake
                    (Tracker.history (Snapshot.water s)),
                  decodedHistory decodedIntake
                    (Tracker.history (Snapshot.protein s)), [], [])).
  { unfold d5. rewrite views_protein. now rewrite W4, K4, B4. }
  clearbody d5. clear W4 P4 K4 B4 V3.
  (* workout state and count *)
  rewrite processRows_app.
  destruct (neutral_rows _
              (neutral_workoutState (Workout.state (Snapshot.workout s))) d5)
    as (d6 & -> & V6).
  rewrite V5 in V6. cbn [bind].
  rewrite processRows_app.
  destruct (neutral_rows _
              (neutral_workoutCount (Workout.count (Snapshot.workout s))) d6)
    as (d7 & -> & V7).
  rewrite V6 in V7. cbn [bind].
  apply views_inv in V7 as (W7 & P7 & K7 & B7).
  (* workout history *)
  rewrite processRows_app, workout_history_rows by assumption. cbn [bind].
  set (d8 := setWorkoutHistory d7 _).
  assert (V8 : views d8
               = (decodedHistory decodedIntake
                    (Tracker.history (Snapshot.water s)),
                  decodedHistory decodedIntake
                    (Tracker.history (Snapshot.protein s)),
                  decodedHistory decodedWorkout
                    (Workout.history (Snapshot.workout s)), [])).
  { unfold d8. rewrite views_workout. now rewrite W7, P7, B7. }
  clearbody d8. clear W7 P7 K7 B7 V5 V6.
  (* habits *)
  apply views_inv in V8 as (W8 & P8 & K8 & B8).
  rewrite processRows_app.
  change (imap habitRows (Snapshot.habits s))
    with (imap (fun j => habitRows (0 + j)) (Snapshot.habits s)).
  rewrite (habits_rows (Snapshot.habits s) d8 0);
    [|now rewrite B8 | assumption].
  cbn [bind]. rewrite B8. cbn [app].
  set (d9 := Imported.setHabits d8 _).
  assert (V9 : views d9
               = (decodedHistory decodedIntake
                    (Tracker.history (Snapshot.water s)),
                  decodedHistory decodedIntake
                    (Tracker.history (Snapshot.protein s)),
                  decodedHistory decodedWorkout
                    (Workout.history (Snapshot.workout s)),
                  map decodedHabit (Snapshot.habits s))).
  { unfold d9. rewrite views_habits. now rewrite W8, P8, K8. }
  clearbody d9.
  (* settings *)
  destruct (neutral_rows
              [ addRow "settings" "theme"
                  (Settings.theme (Snapshot.settings s));
                addRow "settings" "reminder"
                  (Settings.reminder (Snapshot.settings s)) ]
              ltac:(repeat constructor; apply neutral_settings) d9)
    as (d10 & -> & V10).
  exists d10. split; [reflexivity | congruence].
Qed.


End RoundTripFacts.

Import Tokenizer Encoder Parse Convert Typed.
Import TokenizerFacts LineFacts NumFacts DateFacts RowFacts DecodeFacts.
Import HabitFacts RoundTripFacts.




(** ** The habit list *)

Module HabitListFacts.
Import Streaks Runs ImportData Habits Measures.
Import SortFacts StreakFacts.

Lemma streakDays_doneCount (history : obj value) :
  streakDays history = doneCount history.
Proof.
  unfold streakDays, doneCount.
  destruct (scan_runs (sortBy strLtb (doneDates history)))
    as (runs & Hcat & _ & _ & Hclose).
  assert (Hperm : Permutation (calculateStreaks history) (map summary runs)).
  { unfold calculateStreaks. rewrite Hclose. apply sortBy_perm. }
  rewrite Hperm, length_concat_runs, Hcat.
  rewrite (Permutation_length (sortBy_perm strLtb (doneDates history))).
  unfold doneDates. now rewrite length_map.
Qed.

Lemma no_streaks_iff (history : obj value) :
  calculateStreaks history = [] <-> List.filter isDone history = [].
Proof.
  split; intros H.
  - pose proof (streakDays_doneCount history) as Hd.
    unfold streakDays, doneCount in Hd. rewrite H in Hd. simpl in Hd.
    destruct (List.filter isDone history); [reflexivity | discriminate].
  - unfold calculateStreaks, doneDates.
    change (fun entry : string * value => isStr entry.2 "done") with isDone.
    now rewrite H.
Qed.

Lemma sorted_take_drop {A : Type} (R : A -> A -> Prop) (n : nat) (l : list A) :
  StronglySorted R l ->
  Forall (fun x => Forall (R x) (drop n l)) (take n l).
Proof.
  intros Hs. revert n. induction Hs as [|a l Hs IH Hall]; intros n.
  - destruct n; constructor.
  - destruct n as [|n]; [constructor|].
    simpl. constructor; [|apply IH].
    clear -Hall. revert n. induction Hall as [|x l Hx Hall IH]; intros n.
    + destruct n; constructor.
    + destruct n; simpl; [now constructor | apply IH].
Qed.

End HabitListFacts.

Import Streaks Runs ImportData Habits Measures.
Import SortFacts StreakFacts HabitListFacts.

(** X1.  The panel of streaks shows the message of the empty panel exactly
    when no date of the history has the status ["done"]; otherwise it shows
    the first three streaks of [calculateStreaks], or all of them when
    there are fewer, and no streak that it leaves out is longer than one
    that it shows. *)
Theorem renderStreaks_shows_longest (history : obj value) :
  match renderStreaks history with
  | NoStreaks => List.filter isDone history = []
  | Bars topStreaks =>
      List.filter isDone history <> []
      /\ length topStreaks = Nat.min 3 (length (calculateStreaks history))
      /\ exists rest,
           calculateStreaks history = topStreaks ++ rest
           /\ Forall (fun shown =>
                        Forall (fun left =>
                                  Streak.length left <= Streak.length shown)
                          rest) topStreaks
  end.
Proof.
  unfold renderStreaks.
  pose proof (no_streaks_iff history) as Hnone.
  assert (Hs : StronglySorted notShorter (calculateStreaks history)).
  { apply sortBy_strongly_sorted;
      [apply longerFirst_asym | apply notShorter_trans]. }
  pose proof (sorted_take_drop notShorter 3 _ Hs) as Htd.
  pose proof (take_drop 3 (calculateStreaks history)) as Hsplit.
  pose proof (length_take (calculateStreaks history) 3) as Hlen.
  destruct (take 3 (calculateStreaks history)) as [|s top] eqn:Htop.
  - apply Hnone. destruct (calculateStreaks history); [reflexivity | discriminate].
  - split; [|split].
    + intros Hno. apply Hnone in Hno. rewrite Hno in Htop. discriminate.
    + rewrite Hlen. lia.
    + exists (drop 3 (calculateStreaks history)). split; [now symmetry|].
      eapply List.Forall_impl; [|exact Htd].
      intros shown Hall. eapply List.Forall_impl; [|exact Hall].
      intros left Hle. now apply notShorter_le.
Qed.

(** ** Toggling a day *)

Module ToggleFacts.
Import Streaks Runs ImportData Habits Measures.
Import SortFacts StreakFacts HabitListFacts.

Lemma objGet_objPut_same {A : Type} (k : string) (v : A) (o : obj A) :
  objGet k (objPut k v o) = Some v.
Proof.
  induction o as [|[k0 v0] o IH]; simpl.
  - now rewrite String.eqb_refl.
  - destruct (String.eqb k0 k) eqn:E; simpl; rewrite E; [reflexivity | exact IH].
Qed.

Lemma objGet_objPut_other {A : Type} (k k' : string) (v : A) (o : obj A) :
  k' <> k -> objGet k' (objPut k v o) = objGet k' o.
Proof.
  intros Hne. induction o as [|[k0 v0] o IH]; simpl.
  - destruct (String.eqb k k') eqn:E; [|reflexivity].
    apply String.eqb_eq in E. congruence.
  - destruct (String.eqb k0 k) eqn:E; simpl.
    + apply String.eqb_eq in E. subst k0.
      destruct (String.eqb k k') eqn:E'; [|reflexivity].
      apply String.eqb_eq in E'. congruence.
    + now rewrite IH.
Qed.

Lemma objGet_objStore_other {A : Type} (k k' : string) (v : A) (o : obj A) :
  k' <> k -> objGet k' (objStore k v o) = objGet k' o.
Proof.
  intros Hne. unfold objStore.
  destruct (objGet k o); [now apply objGet_objPut_other|].
  destruct (String.eqb k protoName); [reflexivity | now apply objGet_objPut_other].
Qed.





Lemma sorted_perm_eq (l1 : list string) :
  forall l2,
    StronglySorted strLe l1 -> StronglySorted strLe l2 ->
    Permutation l1 l2 -> l1 = l2.
Proof.
  induction l1 as [|a l1 IH]; intros l2 Hs1 Hs2 Hp.
  - apply Permutation_nil in Hp. now subst.
  - destruct l2 as [|b l2].
    { symmetry in Hp. now apply Permutation_nil in Hp. }
    inversion Hs1 as [|? ? Hs1' Ha]; subst.
    inversion Hs2 as [|? ? Hs2' Hb]; subst.
    assert (Hab : a = b).
    { assert (Hin_a : In a (b :: l2)).
      { eapply Permutation_in; [exact Hp | now left]. }
      assert (Hin_b : In b (a :: l1)).
      { eapply Permutation_in; [symmetry; exact Hp | now left]. }
      destruct Hin_a as [->|Hin_a]; [reflexivity|].
      destruct Hin_b as [->|Hin_b]; [reflexivity|].
      rewrite List.Forall_forall in Ha, Hb.
      apply strLtb_total; [apply (Hb a Hin_a) | apply (Ha b Hin_b)]. }
    subst b. f_equal. apply IH; try assumption.
    now apply Permutation_cons_inv in Hp.
Qed.

End ToggleFacts.

Import ToggleFacts.



(** X3.  The streaks depend only on which dates have the status ["done"],
    not on the order in which the history holds its dates nor on its other
    entries. *)
Theorem streaks_ignore_key_order (h1 h2 : obj value) :
  Permutation (doneDates h1) (doneDates h2) ->
  calculateStreaks h1 = calculateStreaks h2.
Proof.
  intros Hp. unfold calculateStreaks.
  rewrite (sorted_perm_eq (sortBy strLtb (doneDates h1))
             (sortBy strLtb (doneDates h2))); [reflexivity | | |].
  - apply sortedDates_sorted.
  - apply sortedDates_sorted.
  - rewrite !sortBy_perm. exact Hp.
Qed.

Lemma streaks_ignore_key_order_witness :
  calculateStreaks
    [ ("2024-01-02", VStr "done"); ("2024-01-05", VStr "fail");
      ("2024-01-01", VStr "done") ]
  = calculateStreaks
      [ ("2024-01-01", VStr "done"); ("2024-01-02", VStr "done") ].
Proof.
  apply streaks_ignore_key_order. simpl. apply perm_swap.
Defined.

(** ** Reordering and pruning *)

Module ReorderFacts.
Import Streaks Habits Storage.
Import SortFacts StreakFacts.





(** Deleting a list of keys leaves the entries under the other keys. *)
Lemma delete_all {A : Type} (keys : list string) :
  forall history : obj A,
    fold_left (fun h date => objDelete date h) keys history
    = List.filter (fun entry => negb (existsb (String.eqb entry.1) keys))
        history.
Proof.
  induction keys as [|k keys IH]; intros history; simpl.
  - induction history as [|e history IHh]; simpl; [reflexivity | now f_equal].
  - rewrite IH. unfold objDelete.
    induction history as [|e history IHh]; simpl; [reflexivity|].
    destruct (String.eqb e.1 k) eqn:E; simpl; [exact IHh|].
    destruct (existsb (String.eqb e.1) keys); simpl; [exact IHh | now f_equal].
Qed.

Lemma existsb_In (k : string) (keys : list string) :
  existsb (String.eqb k) keys = true <-> In k keys.
Proof.
  rewrite existsb_exists. split.
  - intros (x & Hx & E). apply String.eqb_eq in E. now subst.
  - intros H. exists k. split; [exact H | apply String.eqb_refl].
Qed.

Lemma filter_sublist {A : Type} (q : A -> bool) (l : list A) :
  sublist (List.filter q l) l.
Proof.
  induction l as [|x l IH]; simpl; [constructor|].
  destruct (q x); now constructor.
Qed.

Lemma filter_length_perm {A : Type} (q : A -> bool) (l1 l2 : list A) :
  Permutation l1 l2 ->
  length (List.filter q l1) = length (List.filter q l2).
Proof.
  induction 1 as [|x l1 l2 _ IH|x y l|l1 l2 l3 _ IH1 _ IH2]; simpl.
  - reflexivity.
  - destruct (q x); simpl; lia.
  - destruct (q x), (q y); reflexivity.
  - lia.
Qed.

Lemma filter_keys {A : Type} (q : string -> bool) (history : obj A) :
  map fst (List.filter (fun entry => q entry.1) history)
  = List.filter q (map fst history).
Proof.
  induction history as [|e history IH]; simpl; [reflexivity|].
  destruct (q e.1); simpl; now rewrite IH.
Qed.

Lemma filter_none {A : Type} (q : A -> bool) (l : list A) :
  (forall x, In x l -> q x = false) -> List.filter q l = [].
Proof.
  induction l as [|x l IH]; intros H; simpl; [reflexivity|].
  rewrite (H x) by now left. apply IH. intros y Hy. apply H. now right.
Qed.

Lemma filter_every {A : Type} (q : A -> bool) (l : list A) :
  (forall x, In x l -> q x = true) -> List.filter q l = l.
Proof.
  induction l as [|x l IH]; intros H; simpl; [reflexivity|].
  rewrite (H x) by now left. f_equal. apply IH. intros y Hy. apply H. now right.
Qed.

(** In a list without repetition, dropping the members of a prefix leaves
    the rest. *)
Lemma filter_not_prefix (l1 l2 : list string) :
  List.NoDup (l1 ++ l2) ->
  List.filter (fun k => negb (existsb (String.eqb k) l1)) (l1 ++ l2) = l2.
Proof.
  intros Hnd. rewrite List.filter_app.
  rewrite filter_none, filter_every; [reflexivity | |].
  - intros x Hx. apply negb_true_iff.
    destruct (existsb (String.eqb x) l1) eqn:E; [|reflexivity].
    apply existsb_In in E. exfalso.
    revert Hnd Hx E. clear. induction l1 as [|a l1 IH]; simpl; [tauto|].
    intros Hnd Hx [->|E].
    + inversion Hnd as [|? ? Hnot _]; subst. apply Hnot.
      apply in_or_app. now right.
    + inversion Hnd; subst. now apply IH.
  - intros x Hx. apply negb_false_iff. now apply existsb_In.
Qed.

End ReorderFacts.

Import Streaks Habits Storage Measures.
Import SortFacts StreakFacts HabitListFacts ReorderFacts.



(** X5.  Pruning a history to [keep] dates deletes something exactly when
    the history has more than [keep] dates; it leaves [keep] entries, or
    all when there are fewer, each as it was and in the order it had; and
    every date that it deletes sorts before every date that it keeps. *)
Theorem removeOldest_keeps_latest {A : Type} (keep : nat) (history : obj A) :
  List.NoDup (map fst history) ->
  (removeOldest keep history).2 = (keep <? length history)%nat
  /\ length (removeOldest keep history).1 = Nat.min keep (length history)
  /\ sublist (removeOldest keep history).1 history
  /\ forall deleted kept,
       In deleted (map fst history) ->
       ~ In deleted (map fst (removeOldest keep history).1) ->
       In kept (map fst (removeOldest keep history).1) ->
       strLtb deleted kept = true.
Proof.
  intros Hnd. unfold removeOldest.
  set (dates := sortBy strLtb (map fst history)).
  assert (Hperm : Permutation dates (map fst history)) by apply sortBy_perm.
  assert (Hlen : length dates = length history).
  { rewrite (Permutation_length Hperm). apply length_map. }
  rewrite Hlen.
  destruct (keep <? length history)%nat eqn:Hk.
  2:{ apply Nat.ltb_ge in Hk. simpl.
      split; [reflexivity|]. split; [lia|]. split; [reflexivity|].
      intros deleted kept Hin Hnot. contradiction. }
  apply Nat.ltb_lt in Hk. simpl. rewrite delete_all.
  set (n := length history - keep).
  assert (Hdnd : List.NoDup (take n dates ++ drop n dates)).
  { rewrite take_drop. eapply Permutation_NoDup; [symmetry; exact Hperm | exact Hnd]. }
  set (f := fun k => negb (existsb (String.eqb k) (take n dates))).
  change (fun entry : string * A =>
            negb (existsb (String.eqb entry.1) (take n dates)))
    with (fun entry : string * A => f entry.1).
  assert (Hdrop : List.filter f (take n dates ++ drop n dates) = drop n dates)
    by now apply filter_not_prefix.
  rewrite take_drop in Hdrop.
  split; [reflexivity|]. split; [|split].
  - rewrite <- (length_map fst), filter_keys.
    rewrite <- (filter_length_perm f _ _ Hperm), Hdrop, length_drop. lia.
  - apply filter_sublist.
  - intros deleted kept Hin Hnot Hkept.
    rewrite filter_keys in Hnot, Hkept.
    apply filter_In in Hkept as [Hkin Hfk].
    assert (Hfd : f deleted = false).
    { destruct (f deleted) eqn:E; [|reflexivity].
      exfalso. apply Hnot. apply filter_In. now split. }
    unfold f in Hfd, Hfk.
    apply negb_false_iff, existsb_In in Hfd.
    apply negb_true_iff in Hfk.
    assert (Hkd : In kept (drop n dates)).
    { rewrite <- Hdrop. apply filter_In. split; [|unfold f; now rewrite Hfk].
      eapply Permutation_in; [symmetry; exact Hperm | exact Hkin]. }
    pose proof (sorted_take_drop strLe n dates (sortedDates_sorted _)) as Hs.
    rewrite List.Forall_forall in Hs. specialize (Hs deleted Hfd).
    rewrite List.Forall_forall in Hs. specialize (Hs kept Hkd).
    destruct (strLtb deleted kept) eqn:E; [reflexivity|].
    assert (deleted = kept) by (apply strLtb_total; assumption).
    subst kept. apply existsb_In in Hfd. congruence.
Qed.

Lemma removeOldest_keeps_latest_witness :
  (removeOldest 2 sampleDays).2 = true
  /\ length (removeOldest 2 sampleDays).1 = 2
  /\ sublist (removeOldest 2 sampleDays).1 sampleDays.
Proof.
  assert (Hnd : List.NoDup (map fst sampleDays)).
  { repeat constructor; simpl; intuition discriminate. }
  destruct (removeOldest_keeps_latest 2 sampleDays Hnd) as (H1 & H2 & H3 & _).
  split; [exact H1 | split; [exact H2 | exact H3]].
Defined.

(** ** The streaks of one workout type *)

Module TypeStreakFacts.
Import Streaks Runs WorkoutStreaks Measures.
Import SortFacts StreakFacts DateFacts WorkoutFacts.

Lemma worthKeeping_better (best cur : option Streak.t) :
  betterLong best cur = fold_left better (worthKeeping cur) best.
Proof.
  destruct cur as [s|]; simpl; [|reflexivity].
  now destruct (1 <? Streak.length s)%nat.
Qed.

(** The scan for the best streak keeps the best of the streaks that the
    scan for all streaks has collected. *)
Lemma best_follows (wh : obj (list WorkoutEntry.t)) (type : string)
    (dates : list string) :
  forall streaks cur,
    fold_left (bestStep wh type) dates (fold_left better streaks None, cur)
    = (fold_left better (fold_left (typeStep wh type) dates (streaks, cur)).1
         None,
       (fold_left (typeStep wh type) dates (streaks, cur)).2).
Proof.
  induction dates as [|d dates IH]; intros streaks cur; [reflexivity|].
  simpl. unfold step.
  destruct (hasWorkout wh type d).
  - destruct cur as [c|]; [|apply IH].
    destruct (consecutive (Streak.end_ c) d); [apply IH|].
    rewrite <- IH. now rewrite fold_left_app.
  - rewrite <- IH. now rewrite worthKeeping_better, fold_left_app.
Qed.

Lemma best_of_all (wh : obj (list WorkoutEntry.t)) (type : string) :
  calculateWorkoutTypeStreak wh type
  = fold_left better (calculateAllWorkoutTypeStreaks wh type) None.
Proof.
  unfold calculateWorkoutTypeStreak, calculateAllWorkoutTypeStreaks.
  pose proof (best_follows wh type (sortBy strLtb (map fst wh)) [] None) as H.
  simpl in H. rewrite H.
  destruct (fold_left (typeStep wh type) (sortBy strLtb (map fst wh)) ([], None))
    as [streaks cur]. simpl.
  now rewrite worthKeeping_better, fold_left_app.
Qed.

Lemma better_longest (l : list Streak.t) :
  forall acc : option Streak.t,
    match fold_left better l acc with
    | None => l = [] /\ acc = None
    | Some best =>
        (acc = Some best \/ In best l)
        /\ Forall (fun s => Streak.length s <= Streak.length best) l
        /\ (forall a, acc = Some a -> Streak.length a <= Streak.length best)
    end.
Proof.
  induction l as [|s l IH]; intros acc; simpl.
  - destruct acc; [|tauto]. split; [now left|]. split; [constructor|].
    now intros a [= ->].
  - specialize (IH (better acc s)).
    destruct (fold_left better l (better acc s)) as [best|].
    + destruct IH as (Hin & Hall & Hacc).
      assert (Hs : Streak.length s <= Streak.length best
                   /\ forall a, acc = Some a ->
                                Streak.length a <= Streak.length best).
      { unfold better in Hacc. destruct acc as [a|].
        - destruct (Streak.length a <? Streak.length s)%nat eqn:E.
          + apply Nat.ltb_lt in E. specialize (Hacc s eq_refl).
            split; [exact Hacc|]. intros a' [= <-]. lia.
          + apply Nat.ltb_ge in E. specialize (Hacc a eq_refl).
            split; [lia|]. now intros a' [= <-].
        - split; [now apply Hacc | discriminate]. }
      destruct Hs as [Hs Ha]. split; [|split; [now constructor | exact Ha]].
      destruct Hin as [Hin|Hin]; [|right; now right].
      unfold better in Hin. destruct acc as [a|].
      * destruct (Streak.length a <? Streak.length s)%nat.
        -- injection Hin as <-. right. now left.
        -- now left.
      * injection Hin as <-. right. now left.
    + destruct IH as [_ Hb]. unfold better in Hb.
      destruct acc as [a|]; [|discriminate].
      now destruct (Streak.length a <? Streak.length s)%nat.
Qed.

(** The scan of one type is the scan of all types on the entries of that
    type. *)
Lemma objGet_ofType (type date : string) (wh : obj (list WorkoutEntry.t)) :
  objGet date (ofType type wh)
  = option_map (List.filter (fun entry => isStr (WorkoutEntry.type entry) type))
      (objGet date wh).
Proof.
  induction wh as [|[k es] wh IH]; simpl; [reflexivity|].
  destruct (String.eqb k date); [reflexivity | exact IH].
Qed.

Lemma typeStep_workoutStep (wh : obj (list WorkoutEntry.t)) (type : string)
    (st : scanState) (date : string) :
  typeStep wh type st date = workoutStep (ofType type wh) st date.
Proof.
  unfold typeStep, workoutStep, hasWorkout. rewrite objGet_ofType.
  destruct st as [streaks cur].
  destruct (objGet date wh) as [es|]; simpl; [|reflexivity].
  induction es as [|e es IH]; simpl; [reflexivity|].
  destruct (isStr (WorkoutEntry.type e) type); simpl; [reflexivity | exact IH].
Qed.

Lemma keys_ofType (type : string) (wh : obj (list WorkoutEntry.t)) :
  map fst (ofType type wh) = map fst wh.
Proof.
  induction wh as [|[k es] wh IH]; simpl; [reflexivity | now f_equal].
Qed.

Lemma all_of_type (wh : obj (list WorkoutEntry.t)) (type : string) :
  calculateWorkoutStreaks (ofType type wh)
  = sortBy longerFirst (calculateAllWorkoutTypeStreaks wh type).
Proof.
  unfold calculateWorkoutStreaks, calculateAllWorkoutTypeStreaks.
  rewrite keys_ofType.
  assert (H : forall dates st,
    fold_left (workoutStep (ofType type wh)) dates st
    = fold_left (typeStep wh type) dates st).
  { induction dates as [|d dates IH]; intros st; simpl; [reflexivity|].
    now rewrite IH, typeStep_workoutStep. }
  rewrite H.
  now destruct (fold_left (typeStep wh type) (sortBy strLtb (map fst wh))
                  ([], None)).
Qed.

End TypeStreakFacts.

Import Streaks Runs WorkoutStreaks Measures.
Import SortFacts StreakFacts DateFacts WorkoutFacts TypeStreakFacts.

(** X6.  The best streak of a workout type is [null] exactly when the scan
    for all streaks of the type finds none; otherwise it is one of the
    streaks that this scan finds, and none of them is longer. *)
Theorem best_type_streak_is_longest (workoutHistory : obj (list WorkoutEntry.t))
    (type : string) :
  match calculateWorkoutTypeStreak workoutHistory type with
  | None => calculateAllWorkoutTypeStreaks workoutHistory type = []
  | Some best =>
      In best (calculateAllWorkoutTypeStreaks workoutHistory type)
      /\ Forall (fun s => Streak.length s <= Streak.length best)
           (calculateAllWorkoutTypeStreaks workoutHistory type)
  end.
Proof.
  rewrite best_of_all.
  pose proof (better_longest
                (calculateAllWorkoutTypeStreaks workoutHistory type) None) as H.
  destruct (fold_left better _ None) as [best|].
  - destruct H as ([Hin|Hin] & Hall & _); [discriminate | now split].
  - apply H.
Qed.

(** X7.  Over a workout history whose keys are date keys, the streaks of
    more than one day of one workout type, longest first, are those that
    the habit analysis returns when a day counts as done if it has an
    entry of that type. *)
Theorem type_streaks_agree_on_long (workoutHistory : obj (list WorkoutEntry.t))
    (type : string) :
  List.NoDup (map fst workoutHistory) ->
  Forall (fun d => Date.isDateKey d = true) (map fst workoutHistory) ->
  List.filter long
    (sortBy longerFirst (calculateAllWorkoutTypeStreaks workoutHistory type))
  = List.filter long (calculateStreaks (asStatus (ofType type workoutHistory))).
Proof.
  intros Hnd Hv. rewrite <- all_of_type.
  set (wh := ofType type workoutHistory).
  assert (Hnd' : List.NoDup (map fst wh)) by (unfold wh; now rewrite keys_ofType).
  assert (Hv' : Forall (fun d => Date.isDateKey d = true) (map fst wh))
    by (unfold wh; now rewrite keys_ofType).
  unfold calculateWorkoutStreaks, calculateStreaks.
  rewrite doneDates_asStatus by assumption.
  rewrite <- (sortBy_filter strLtb strLtb_asym strLe_transitive).
  set (dates := sortBy strLtb (map fst wh)).
  assert (Hs : StronglySorted dayLt dates).
  { apply sorted_dateKeys.
    - apply sortedDates_sorted.
    - eapply Permutation_NoDup; [symmetry; apply sortBy_perm | exact Hnd'].
    - eapply Permutation_Forall; [symmetry; apply sortBy_perm | exact Hv']. }
  pose proof (agree_fold wh dates ([], None) ([], None) Hs) as H.
  unfold closeWorkout in H.
  destruct (fold_left (workoutStep wh) dates ([], None)) as [streaks cur].
  rewrite !(sortBy_filter longerFirst longerFirst_asym notShorter_trans).
  f_equal. apply H. apply agree_sync; [reflexivity | intros ? [=]].
Qed.

Lemma type_streaks_agree_on_long_witness :
  List.filter long
    (sortBy longerFirst (calculateAllWorkoutTypeStreaks sampleWorkouts "Chest"))
  = List.filter long (calculateStreaks (asStatus (ofType "Chest" sampleWorkouts))).
Proof.
  apply type_streaks_agree_on_long.
  - repeat constructor; simpl; intuition discriminate.
  - repeat constructor.
Defined.

(** ** The workout tabs *)

Module TabFacts.
Import ImportData Parse WorkoutTracker Measures.
Import ToggleFacts.

Lemma objGet_In {A : Type} (k : string) (v : A) (o : obj A) :
  objGet k o = Some v -> In (k, v) o.
Proof.
  induction o as [|[k0 v0] o IH]; simpl; [discriminate|].
  destruct (String.eqb k0 k) eqn:E.
  - intros [= ->]. apply String.eqb_eq in E. subst. now left.
  - intros H. right. now apply IH.
Qed.

Lemma pushEntry_ok {A : Type} (k : string) (e : A) (h h' : obj (list A)) :
  pushEntry (VStr k) e h = Ok h' ->
  objGet k h' = Some (default [] (objGet k h) ++ [e])
  /\ forall k', k' <> k -> objGet k' h' = objGet k' h.
Proof.
  unfold pushEntry. simpl.
  destruct (objGet k h) as [entries|] eqn:Hget.
  - intros [= <-]. split; [apply objGet_objPut_same|].
    intros k' Hk. now apply objGet_objPut_other.
  - destruct (inherited k); [discriminate|].
    intros [= <-]. split; [apply objGet_objPut_same|].
    intros k' Hk. now apply objGet_objPut_other.
Qed.

Lemma objLook_own {A : Type} (k : string) (o : obj A) (v : A) :
  objLook k o = Own v <-> objGet k o = Some v.
Proof.
  unfold objLook. destruct (objGet k o).
  - split; congruence.
  - destruct (inherited k); split; discriminate.
Qed.

Lemma resetStates_returned (types : list string) :
  forall s s',
    resetStates types s = (s', Returned) ->
    (forall t, In t types ->
       objGet t s'
       = Some (WorkoutState.mk (VBool false) (VNum (indexOf t workoutTypes))))
    /\ (forall k, ~ In k types -> objGet k s' = objGet k s).
Proof.
  induction types as [|type types IH]; intros s s'; simpl.
  - intros [= <-]. split; [contradiction | reflexivity].
  - destruct (objLook type s) as [v| |] eqn:Hl; try discriminate.
    intros H. apply IH in H as [Hin Hout]. split.
    + intros t [<-|Ht]; [|now apply Hin].
      destruct (in_dec String.string_dec type types) as [Hi|Hi];
        [now apply Hin|].
      rewrite (Hout _ Hi). apply objGet_objPut_same.
    + intros k Hk. rewrite Hout by tauto.
      apply objGet_objPut_other. intros ->. apply Hk. now left.
Qed.

Lemma allCompleted_false (s : obj WorkoutState.t) (t : string)
    (st : WorkoutState.t) :
  objGet t s = Some st -> truthy (WorkoutState.completed st) = false ->
  allCompleted s = false.
Proof.
  intros Hget Hf. apply objGet_In in Hget.
  unfold allCompleted. apply not_true_is_false. intros Hall.
  rewrite forallb_forall in Hall.
  rewrite (Hall st) in Hf; [discriminate|].
  apply in_map_iff. now exists (t, st).
Qed.

Lemma objGet_objStore_same {A : Type} (k : string) (v : A) (o : obj A) :
  String.eqb k protoName = false -> objGet k (objStore k v o) = Some v.
Proof.
  intros Hp. unfold objStore.
  destruct (objGet k o); [apply objGet_objPut_same|].
  rewrite Hp. apply objGet_objPut_same.
Qed.

Lemma resetCounts_lookup (types : list string) :
  forall counts,
    Forall (fun t => String.eqb t protoName = false) types ->
    (forall t, In t types -> objGet t (resetCounts types counts) = Some (VNum 0))
    /\ (forall k, ~ In k types ->
          objGet k (resetCounts types counts) = objGet k counts).
Proof.
  unfold resetCounts.
  induction types as [|type types IH]; intros counts Hp; simpl.
  - split; [contradiction | reflexivity].
  - inversion Hp as [|? ? Hp1 Hp2]; subst.
    destruct (IH (objStore type (VNum 0) counts) Hp2) as [Hin Hout]. split.
    + intros t [<-|Ht]; [|now apply Hin].
      destruct (in_dec String.string_dec type types) as [Hi|Hi];
        [now apply Hin|].
      rewrite (Hout _ Hi). now apply objGet_objStore_same.
    + intros k Hk. rewrite Hout by tauto.
      apply objGet_objStore_other. intros ->. apply Hk. now left.
Qed.

Section Store.

Variable accepts : gmap string string -> string -> string -> bool.
Variable stringify : forall A : Type, A -> string.

Lemma saveState_returned (w : t) (store store' : gmap string string) :
  saveState accepts stringify w store = (store', Returned) ->
  store' = <["workout_count" := stringify _ (workoutCounts w)]>
             (<["workout_state" := stringify _ (workoutState w)]> store).
Proof.
  unfold saveState, setItem.
  destruct (accepts store _ _); [|discriminate].
  destruct (accepts _ _ _); [|discriminate].
  now intros [= <-].
Qed.

(** What a run of [toggleWorkout] that returns has gone through. *)
Lemma toggleWorkout_returned (today now type : string) (w w' : t)
    (store store' : gmap string string) :
  toggleWorkout accepts stringify today now type w store
  = (w', store', Returned) ->
  exists state history',
    objGet type (workoutState w) = Some state
    /\ (objGet type (workoutCounts w) <> None \/ inherited type = false)
    /\ let count' := addOne (default VUndefined (objGet type (workoutCounts w))) in
       let counts' := objStore type count' (workoutCounts w) in
       let state' := objPut type (WorkoutState.mk (VBool true)
                                    (WorkoutState.order state))
                       (workoutState w) in
       pushEntry (VStr today) (WorkoutEntry.mk (VStr type) count' (VStr now))
         (workoutHistory w) = Ok history'
       /\ workoutHistory w' = history'
       /\ store' = <["workout_count" := stringify _ (workoutCounts w')]>
                     (<["workout_state" := stringify _ (workoutState w')]>
                        (<["workout_history" := stringify _ history']> store))
       /\ ((allCompleted state' = false
            /\ workoutState w' = state' /\ workoutCounts w' = counts')
           \/ (allCompleted state' = true
               /\ resetStates workoutTypes state' = (workoutState w', Returned)
               /\ workoutCounts w' = resetCounts workoutTypes counts')).
Proof.
  unfold toggleWorkout.
  assert (Hown : objLook type (workoutCounts w) <> Supplied ->
                 objGet type (workoutCounts w) <> None \/ inherited type = false).
  { unfold objLook. destruct (objGet type (workoutCounts w)); [now left|].
    destruct (inherited type); [congruence | now right]. }
  assert (Hc0 : match objLook type (workoutCounts w) with
                | Own v => v
                | _ => VUndefined
                end = default VUndefined (objGet type (workoutCounts w))).
  { unfold objLook. destruct (objGet type (workoutCounts w)); [reflexivity|].
    now destruct (inherited type). }
  set (c0 := default VUndefined (objGet type (workoutCounts w))) in *.
  destruct (objLook type (workoutCounts w)) as [c| |] eqn:Hc;
    [| discriminate |]; rewrite Hc0; clear Hc0;
    specialize (Hown ltac:(discriminate));
    (destruct (objLook type (workoutState w)) as [state| |] eqn:Hs;
       [| discriminate | discriminate]);
    apply objLook_own in Hs;
    (destruct (pushEntry _ _ _) as [history'| |] eqn:Hpush;
       [| discriminate | discriminate]);
    unfold setItem at 1;
    (destruct (accepts store "workout_history" _); [|discriminate]);
    intros H; exists state, history';
    (split; [exact Hs|]); (split; [exact Hown|]);
    cbv zeta; (split; [reflexivity|]);
    destruct (allCompleted _) eqn:Hall.
  all: try (unfold resetWorkoutTabs in H;
            cbn [workoutState workoutCounts workoutHistory] in H;
            destruct (resetStates workoutTypes _) as [state'' e] eqn:Hr;
            destruct e; try (injection H as _ _ H; discriminate)).
  all: destruct (saveState _ _ _ _) as [store2 e2] eqn:Hsave;
       injection H as <- <- ->;
       apply saveState_returned in Hsave;
       cbn [workoutState workoutCounts workoutHistory] in *;
       (split; [reflexivity|]); (split; [exact Hsave|]).
  all: try (right; now repeat split).
  all: left; now repeat split.
Qed.

Lemma coupled_toggle (type : string) (state : WorkoutState.t)
    (w : t) (history : obj (list WorkoutEntry.t)) :
  coupled w ->
  objGet type (workoutState w) = Some state ->
  coupled
    (mk (objPut type (WorkoutState.mk (VBool true) (WorkoutState.order state))
           (workoutState w))
        (objStore type
           (addOne (default VUndefined (objGet type (workoutCounts w))))
           (workoutCounts w))
        history).
Proof.
  intros Hw Hs t st. cbn [workoutState workoutCounts].
  destruct (Hw type state Hs) as (n & Hn & Hpos & _).
  destruct (String.eqb t type) eqn:E.
  - apply String.eqb_eq in E. subst t.
    rewrite objGet_objPut_same. intros [= <-].
    exists (n + 1)%Z. rewrite Hn. simpl. unfold objStore. rewrite Hn.
    rewrite objGet_objPut_same. split; [reflexivity|]. split; [lia|].
    symmetry. apply Z.ltb_lt. lia.
  - apply String.eqb_neq in E.
    rewrite objGet_objPut_other by exact E.
    rewrite objGet_objStore_other by exact E. apply Hw.
Qed.

Lemma workoutTypes_plain :
  Forall (fun t => String.eqb t protoName = false) workoutTypes
  /\ Forall (fun t => inherited t = false) workoutTypes.
Proof. split; repeat constructor. Qed.

Lemma coupled_reset (w : t) (state' : obj WorkoutState.t) :
  coupled w ->
  resetStates workoutTypes (workoutState w) = (state', Returned) ->
  coupled (mk state' (resetCounts workoutTypes (workoutCounts w))
             (workoutHistory w)).
Proof.
  intros Hw Hr t st. cbn [workoutState workoutCounts].
  destruct (resetStates_returned _ _ _ Hr) as [Hin Hout].
  destruct (resetCounts_lookup workoutTypes (workoutCounts w)
              (proj1 workoutTypes_plain)) as [Cin Cout].
  destruct (in_dec String.string_dec t workoutTypes) as [Ht|Ht].
  - rewrite (Hin t Ht). intros [= <-]. exists 0%Z.
    rewrite (Cin t Ht). repeat split. lia.
  - rewrite (Hout t Ht), (Cout t Ht). apply Hw.
Qed.

Lemma resetStates_missing (types : list string) (missing : string) :
  forall s,
    Forall (fun t => inherited t = false) types ->
    In missing types -> objGet missing s = None ->
    (resetStates types s).2 = TypeErrorThrown.
Proof.
  induction types as [|type types IH]; intros s Hp Hin Hm; [contradiction|].
  inversion Hp as [|? ? Hp1 Hp2]; subst. simpl. unfold objLook. rewrite Hp1.
  destruct (objGet type s) as [v|] eqn:Hget; [|reflexivity].
  destruct Hin as [->|Hin]; [congruence|].
  apply IH; try assumption.
  rewrite objGet_objPut_other; [exact Hm | congruence].
Qed.

End Store.

End TabFacts.

Import ImportData Parse WorkoutTracker Measures.
Import ToggleFacts TabFacts.

(** X8.  When [toggleWorkout] returns, at least one tab is open; the
    history of the day has one more entry than before, the last one, with
    the type, its new count and the time, and the other days are as they
    were; and the store holds the JSON text of the state, of the counts and
    of the history as they are in memory afterwards, its other keys
    untouched. *)
Theorem toggleWorkout_saves_what_it_did
    (accepts : gmap string string -> string -> string -> bool)
    (stringify : forall A : Type, A -> string)
    (today now type : string) (w w' : t) (store store' : gmap string string) :
  toggleWorkout accepts stringify today now type w store
  = (w', store', Returned) ->
  allCompleted (workoutState w') = false
  /\ objGet today (workoutHistory w')
     = Some (default [] (objGet today (workoutHistory w))
             ++ [WorkoutEntry.mk (VStr type)
                   (addOne (default VUndefined
                              (objGet type (workoutCounts w))))
                   (VStr now)])
  /\ (forall d, d <> today ->
        objGet d (workoutHistory w') = objGet d (workoutHistory w))
  /\ store' !! "workout_history" = Some (stringify _ (workoutHistory w'))
  /\ store' !! "workout_state" = Some (stringify _ (workoutState w'))
  /\ store' !! "workout_count" = Some (stringify _ (workoutCounts w'))
  /\ (forall k, k <> "workout_history" -> k <> "workout_state" ->
                k <> "workout_count" -> store' !! k = store !! k).
Proof.
  intros H. apply toggleWorkout_returned in H.
  destruct H as (state & history' & Hs & _ & Hpush & Hh & Hstore & Hcases).
  apply pushEntry_ok in Hpush as [Htoday Hother].
  split; [|rewrite Hh, Hstore; repeat split].
  - destruct Hcases as [(Hall & -> & _)|(_ & Hr & _)]; [exact Hall|].
    destruct (resetStates_returned _ _ _ Hr) as [Hin _].
    eapply (allCompleted_false _ "Chest"); [apply Hin; now left | reflexivity].
  - exact Htoday.
  - exact Hother.
  - rewrite lookup_insert_ne by discriminate.
    rewrite lookup_insert_ne by discriminate.
    now rewrite lookup_insert_eq.
  - rewrite lookup_insert_ne by discriminate. now rewrite lookup_insert_eq.
  - now rewrite lookup_insert_eq.
  - intros k H1 H2 H3. now rewrite !lookup_insert_ne by congruence.
Qed.

Lemma toggleWorkout_saves_what_it_did_witness :
  let run := toggleWorkout roomy sameJson "2024-01-01" "2024-01-01T08:00:00.000Z"
               "Chest" fresh ∅ in
  allCompleted (workoutState run.1.1) = false
  /\ objGet "2024-01-01" (workoutHistory run.1.1)
     = Some [WorkoutEntry.mk (VStr "Chest") (VNum 1)
               (VStr "2024-01-01T08:00:00.000Z")].
Proof.
  intros run.
  assert (E : run = (run.1.1, run.1.2, Returned)) by (vm_compute; reflexivity).
  destruct (toggleWorkout_saves_what_it_did _ _ _ _ _ _ _ _ _ E)
    as (H1 & H2 & _).
  split; [exact H1 | exact H2].
Defined.

(** X9.  A run of [toggleWorkout] that returns keeps the tabs and the
    counts in step: if, before, every tab was marked as completed exactly
    when its count was positive, the same holds afterwards. *)
Theorem toggleWorkout_keeps_counts_in_step
    (accepts : gmap string string -> string -> string -> bool)
    (stringify : forall A : Type, A -> string)
    (today now type : string) (w w' : t) (store store' : gmap string string) :
  coupled w ->
  toggleWorkout accepts stringify today now type w store
  = (w', store', Returned) ->
  coupled w'.
Proof.
  intros Hw H. apply toggleWorkout_returned in H.
  destruct H as (state & history' & Hs & _ & _ & Hh & _ & Hcases).
  pose proof (coupled_toggle type state w history' Hw Hs) as Hmid.
  destruct w' as [s' c' h']. cbn [workoutState workoutCounts workoutHistory] in *.
  subst h'.
  destruct Hcases as [(_ & -> & ->)|(_ & Hr & ->)]; [exact Hmid|].
  now apply (coupled_reset _ _ Hmid).
Qed.

Lemma toggleWorkout_keeps_counts_in_step_witness :
  coupled (toggleWorkout roomy sameJson "2024-01-01"
             "2024-01-01T08:00:00.000Z" "Chest" fresh ∅).1.1.
Proof.
  set (run := toggleWorkout roomy sameJson "2024-01-01"
                "2024-01-01T08:00:00.000Z" "Chest" fresh ∅).
  assert (E : run = (run.1.1, run.1.2, Returned)) by (vm_compute; reflexivity).
  apply (toggleWorkout_keeps_counts_in_step _ _ _ _ _ fresh _ _ _) in E;
    [exact E|].
  intros type state Hget.
  assert (Hin : In (type, state) (workoutState fresh))
    by now apply objGet_In.
  simpl in Hin.
  repeat (destruct Hin as [[= <- <-]|Hin];
          [exists 0%Z; repeat split; lia|]).
  contradiction.
Defined.

(** X10.  With a state that lacks one of the workout types of the list, a
    click that completes the last open tab ends in a [TypeError]: the
    entry of the history has been written to the store by then, the state
    and the counts have not. *)
Theorem toggleWorkout_throws_on_missing_type
    (accepts : gmap string string -> string -> string -> bool)
    (stringify : forall A : Type, A -> string)
    (today now type missing : string) (state : WorkoutState.t) (w : t)
    (store : gmap string string) :
  (forall v, accepts store "workout_history" v = true) ->
  inherited today = false ->
  objGet type (workoutState w) = Some state ->
  objGet type (workoutCounts w) <> None ->
  In missing workoutTypes ->
  objGet missing (workoutState w) = None ->
  allCompleted
    (objPut type (WorkoutState.mk (VBool true) (WorkoutState.order state))
       (workoutState w)) = true ->
  let run := toggleWorkout accepts stringify today now type w store in
  run.2 = TypeErrorThrown
  /\ run.1.2 = <["workout_history" :=
                   stringify _ (workoutHistory run.1.1)]> store
  /\ objGet today (workoutHistory run.1.1)
     = Some (default [] (objGet today (workoutHistory w))
             ++ [WorkoutEntry.mk (VStr type)
                   (addOne (default VUndefined
                              (objGet type (workoutCounts w))))
                   (VStr now)]).
Proof.
  intros Hacc Htoday Hs Hc Hin Hmiss Hall run. subst run.
  unfold toggleWorkout.
  destruct (objGet type (workoutCounts w)) as [c|] eqn:Hcount; [|congruence].
  assert (Hlc : objLook type (workoutCounts w) = Own c)
    by now apply objLook_own.
  assert (Hls : objLook type (workoutState w) = Own state)
    by now apply objLook_own.
  rewrite Hlc, Hls. simpl default.
  destruct (pushEntry (VStr today)
              (WorkoutEntry.mk (VStr type) (addOne c) (VStr now))
              (workoutHistory w)) as [history'| |] eqn:Hpush.
  2,3: unfold pushEntry in Hpush; simpl in Hpush; rewrite Htoday in Hpush;
       destruct (objGet today (workoutHistory w)); discriminate.
  unfold setItem. rewrite Hacc, Hall. unfold resetWorkoutTabs.
  cbn [workoutState workoutCounts workoutHistory].
  pose proof (resetStates_missing workoutTypes missing
                (objPut type (WorkoutState.mk (VBool true)
                                (WorkoutState.order state)) (workoutState w))
                (proj2 workoutTypes_plain) Hin) as Hr.
  rewrite objGet_objPut_other in Hr by congruence.
  specialize (Hr Hmiss).
  destruct (resetStates workoutTypes _) as [state'' e]. simpl in Hr. subst e.
  cbn [fst snd workoutHistory].
  apply pushEntry_ok in Hpush as [Hget _]. now repeat split.
Qed.

Lemma toggleWorkout_throws_on_missing_type_witness :
  (toggleWorkout roomy sameJson "2024-01-01" "2024-01-01T08:00:00.000Z"
     "Chest" legacy ∅).2 = TypeErrorThrown.
Proof.
  apply (toggleWorkout_throws_on_missing_type roomy sameJson "2024-01-01"
           "2024-01-01T08:00:00.000Z" "Chest" "Shoulders"
           (WorkoutState.mk (VBool false) (VNum 0)) legacy ∅).
  - reflexivity.
  - reflexivity.
  - reflexivity.
  - discriminate.
  - simpl. tauto.
  - reflexivity.
  - reflexivity.
Defined.

(** ** The table that the export writes *)

Module TableFacts.
Import Tokenizer Encoder Parse Convert Typed.
Import TokenizerFacts LineFacts RowFacts DecodeFacts HabitFacts RoundTripFacts.

Lemma fields_joinRow (cells : list value) :
  cells <> [] -> length (parseCSVRow (joinRow cells)) = length cells.
Proof. intros H. rewrite parse_joinRow by exact H. apply length_map. Qed.

Ltac twelve := apply fields_joinRow; discriminate.

Lemma fields_imap {A : Type} (f : nat -> A -> string) (l : list A) :
  (forall i x, length (parseCSVRow (f i x)) = 12) ->
  Forall (fun row => length (parseCSVRow row) = 12) (imap f l).
Proof.
  intros H. apply List.Forall_forall. intros row Hin.
  apply in_imap in Hin as (i & x & _ & ->). apply H.
Qed.

Lemma fields_intakeHistoryRows (dt : string) (h : obj (list IntakeEntry.t)) :
  Forall (fun row => length (parseCSVRow row) = 12) (intakeHistoryRows dt h).
Proof.
  unfold intakeHistoryRows. apply List.Forall_forall. intros row Hin.
  apply in_flat_map in Hin as ([date entries] & _ & Hin).
  apply in_imap in Hin as (i & x & _ & ->). twelve.
Qed.

Lemma fields_workoutHistoryRows (h : obj (list WorkoutEntry.t)) :
  Forall (fun row => length (parseCSVRow row) = 12) (workoutHistoryRows h).
Proof.
  unfold workoutHistoryRows. apply List.Forall_forall. intros row Hin.
  apply in_flat_map in Hin as ([date entries] & _ & Hin).
  apply in_imap in Hin as (i & x & _ & ->). twelve.
Qed.

Lemma fields_habitRows (hs : list Habit.t) :
  Forall (fun row => length (parseCSVRow row) = 12) (concat (imap habitRows hs)).
Proof.
  apply List.Forall_forall. intros row Hin.
  apply in_concat in Hin as (rows & Hrows & Hin).
  apply in_imap in Hrows as (i & h & _ & ->).
  rewrite habitRows_rows in Hin. destruct Hin as [<-|Hin]; [twelve|].
  apply in_map_iff in Hin as (entry & <- & _). twelve.
Qed.

End TableFacts.

Import Tokenizer Encoder Parse Convert Typed.
Import TokenizerFacts LineFacts RowFacts DecodeFacts HabitFacts RoundTripFacts.
Import TableFacts.

(** X11.  Every row that the export writes has twelve fields when
    [parseCSVRow] reads it, as many as the header has columns, whatever the
    values hold. *)
Theorem export_rows_have_twelve_fields (now : string) (s : Snapshot.t) :
  Forall (fun row => length (parseCSVRow row) = length headers)
    (rowsOf now s).
Proof.
  change (length headers) with 12.
  rewrite rowsOf_dataRows. constructor; [reflexivity|].
  unfold dataRows, trackerRows, addRow.
  repeat (apply Forall_app; split).
  all: try (repeat constructor; twelve).
  - apply fields_intakeHistoryRows.
  - apply fields_intakeHistoryRows.
  - apply List.Forall_forall. intros row Hin.
    apply in_map_iff in Hin as ([type st] & <- & _). twelve.
  - apply List.Forall_forall. intros row Hin.
    apply in_map_iff in Hin as ([type c] & <- & _). twelve.
  - apply fields_workoutHistoryRows.
  - apply fields_habitRows.
Qed.

(** X12.  When no string of the snapshot has a line break, the lines of
    the exported text are its rows, one line for each row. *)
Theorem export_lines_are_rows (now : string) (s : Snapshot.t) :
  wellFormed now s = true ->
  splitLines (convertDataToCSV now s) "" = rowsOf now s.
Proof.
  intros H. unfold convertDataToCSV. apply splitLines_join.
  - rewrite rowsOf_dataRows. discriminate.
  - now apply rowsOf_noBreak.
Qed.

Lemma export_lines_are_rows_witness :
  splitLines (convertDataToCSV "2024-01-05T00:00:00.000Z" sampleSnapshot) ""
  = rowsOf "2024-01-05T00:00:00.000Z" sampleSnapshot.
Proof.
  apply export_lines_are_rows. vm_compute. reflexivity.
Defined.

(** X13.  When the snapshot is well formed, decoding its export gives as
    many habits as it has, in the same order, each with the text of its
    name and of its colour; the text of a value is the string that it is
    written as, unless that string consists of double quotes only. *)
Theorem habits_survive_round_trip (now now' : string) (s : Snapshot.t) :
  wellFormed now s = true ->
  (exists d,
     parseCSVData now' (convertDataToCSV now s) = Ok d
     /\ map Habit.name (Imported.habits d)
        = map (fun h => VStr (readText (Habit.name h))) (Snapshot.habits s)
     /\ map Habit.color (Imported.habits d)
        = map (fun h => VStr (readText (Habit.color h))) (Snapshot.habits s))
  /\ (forall v, quotesOnly (fieldText v) = false -> readText v = fieldText v).
Proof.
  intros H. split.
  - destruct (decode_views now now' s H) as (d & Hd & Hv).
    apply views_inv in Hv as (_ & _ & _ & Hh).
    exists d. split; [exact Hd|]. rewrite Hh, !map_map. split; reflexivity.
  - intros v Hq. unfold readText, readBack. now rewrite Hq.
Qed.

Lemma habits_survive_round_trip_witness :
  exists d,
    parseCSVData "2024-02-01T00:00:00.000Z"
      (convertDataToCSV "2024-01-05T00:00:00.000Z" sampleSnapshot) = Ok d
    /\ map Habit.name (Imported.habits d) = [VStr "Read, daily"; VStr "Run"].
Proof.
  destruct (habits_survive_round_trip "2024-01-05T00:00:00.000Z"
              "2024-02-01T00:00:00.000Z" sampleSnapshot eq_refl)
    as ((d & Hd & Hn & _) & _).
  exists d. split; [exact Hd | exact Hn].
Defined.

(** ** Decoding the rows outside the histories *)

Module ScalarFacts.
Import Tokenizer Encoder Parse Convert Typed Measures.
Import TokenizerFacts LineFacts RowFacts DecodeFacts HabitFacts RoundTripFacts.

Lemma meta_rows (now : string) (d : Imported.t) :
  processRows headerMap
    [ addRow "meta" "version" (VStr "2.0");
      addRow "meta" "exportDate" (VStr now) ] d
  = Ok (Imported.setExportDate (Imported.setVersion d (VStr "2.0"))
          (textOf (VStr now))).
Proof.
  cbn [processRows]. unfold addRow.
  rewrite processRow_cells by literal. cbn [bind].
  change (dispatch headerMap d _)
    with (Ok (Imported.setVersion d (VStr "2.0"))).
  cbn [bind]. rewrite processRow_cells by literal. reflexivity.
Qed.

Lemma water_rows (goal intake : value) (d : Imported.t) :
  processRows headerMap
    [ addRow "water" "goal" goal; addRow "water" "intake" intake ] d
  = Ok (Imported.setWater d
          (Tracker.mk (textOf goal) (textOf intake)
             (Tracker.history (Imported.water d)))).
Proof.
  cbn [processRows]. unfold addRow.
  rewrite processRow_cells by literal.
  change (dispatch headerMap d _)
    with (Ok (Imported.setWater d
                (Tracker.mk (textOf goal) (Tracker.intake (Imported.water d))
                   (Tracker.history (Imported.water d))))).
  cbn [bind]. rewrite processRow_cells by literal. reflexivity.
Qed.

Lemma protein_rows (goal intake : value) (d : Imported.t) :
  processRows headerMap
    [ addRow "protein" "goal" goal; addRow "protein" "intake" intake ] d
  = Ok (Imported.setProtein d
          (Tracker.mk (textOf goal) (textOf intake)
             (Tracker.history (Imported.protein d)))).
Proof.
  cbn [processRows]. unfold addRow.
  rewrite processRow_cells by literal.
  change (dispatch headerMap d _)
    with (Ok (Imported.setProtein d
                (Tracker.mk (textOf goal) (Tracker.intake (Imported.protein d))
                   (Tracker.history (Imported.protein d))))).
  cbn [bind]. rewrite processRow_cells by literal. reflexivity.
Qed.

Lemma settings_rows (theme reminder : value) (d : Imported.t) :
  processRows headerMap
    [ addRow "settings" "theme" theme; addRow "settings" "reminder" reminder ] d
  = Ok (Imported.setSettings d (Settings.mk (textOf theme) (textOf reminder))).
Proof.
  cbn [processRows]. unfold addRow.
  rewrite processRow_cells by literal.
  change (dispatch headerMap d _)
    with (Ok (Imported.setSettings d
                (Settings.mk (textOf theme)
                   (Settings.reminder (Imported.settings d))))).
  cbn [bind]. rewrite processRow_cells by literal. reflexivity.
Qed.

Lemma setWorkout_same (d : Imported.t) :
  Imported.setWorkout d
    (Workout.mk (Workout.state (Imported.workout d))
       (Workout.count (Imported.workout d))
       (Workout.history (Imported.workout d))) = d.
Proof. destruct d as [? ? ? ? [? ? ?] ? ?]. reflexivity. Qed.

Lemma workoutState_rows (states : obj WorkoutState.t) :
  forall d,
    processRows headerMap (workoutStateRows states) d
    = Ok (Imported.setWorkout d
            (Workout.mk
               (fold_left (fun acc entry =>
                             objSet (readBack entry.1) (decodedState entry.2) acc)
                  states (Workout.state (Imported.workout d)))
               (Workout.count (Imported.workout d))
               (Workout.history (Imported.workout d)))).
Proof.
  induction states as [|[type state] states IH]; intros d.
  - simpl. now rewrite setWorkout_same.
  - cbn [workoutStateRows map processRows].
    rewrite processRow_cells by literal.
    change (dispatch headerMap d _)
      with (Ok (Imported.setWorkout d
                  (Workout.mk
                     (objSet (readBack type) (decodedState state)
                        (Workout.state (Imported.workout d)))
                     (Workout.count (Imported.workout d))
                     (Workout.history (Imported.workout d))))).
    cbn [bind]. unfold workoutStateRows in IH. rewrite IH. reflexivity.
Qed.

Lemma workoutCount_rows (counts : obj value) :
  forall d,
    processRows headerMap (workoutCountRows counts) d
    = Ok (Imported.setWorkout d
            (Workout.mk
               (Workout.state (Imported.workout d))
               (fold_left (fun acc entry =>
                             objSet (readBack entry.1) (decodedCount entry.2) acc)
                  counts (Workout.count (Imported.workout d)))
               (Workout.history (Imported.workout d)))).
Proof.
  induction counts as [|[type count] counts IH]; intros d.
  - simpl. now rewrite setWorkout_same.
  - cbn [workoutCountRows map processRows].
    rewrite processRow_cells by literal.
    change (dispatch headerMap d _)
      with (Ok (Imported.setWorkout d
                  (Workout.mk
                     (Workout.state (Imported.workout d))
                     (objSet (readBack type) (decodedCount count)
                        (Workout.count (Imported.workout d)))
                     (Workout.history (Imported.workout d))))).
    cbn [bind]. unfold workoutCountRows in IH. rewrite IH. reflexivity.
Qed.

(** Names that come back as keys, each once, fill an object in their
    order. *)
Lemma fold_objSet {A B : Type} (f : B -> A) (l : obj B) :
  forall acc : obj A,
    distinct (map fst l) = true ->
    forallb keyOk (map fst l) = true ->
    (forall k, In k (map fst l) -> objGet k acc = None) ->
    fold_left (fun acc entry => objSet (readBack entry.1) (f entry.2) acc) l acc
    = acc ++ map (fun entry => (entry.1, f entry.2)) l.
Proof.
  induction l as [|[k b] l IH]; intros acc Hd Hk Hfresh.
  - simpl. now rewrite app_nil_r.
  - cbn [map fst] in Hd, Hk. apply distinct_cons in Hd as [Hnot Hd].
    cbn [forallb] in Hk. apply andb_prop in Hk as [Hk1 Hk].
    unfold keyOk in Hk1. apply andb_prop in Hk1 as [Hq Hp].
    apply negb_true_iff in Hq, Hp.
    cbn [fold_left map fst snd].
    assert (Hrb : readBack k = k) by (unfold readBack; now rewrite Hq).
    rewrite Hrb. unfold objSet at 2. rewrite Hp.
    rewrite objPut_new by (apply Hfresh; now left).
    rewrite IH; try assumption.
    + now rewrite <- app_assoc.
    + intros k' Hin. rewrite objGet_other.
      * apply Hfresh. now right.
      * intros ->. contradiction.
Qed.

End ScalarFacts.

Import Tokenizer Encoder Parse Convert Typed Measures.
Import TokenizerFacts LineFacts RowFacts DecodeFacts HabitFacts RoundTripFacts.
Import ScalarFacts.

(** X14.  When the snapshot is well formed and its workout types are
    names that come back as keys, each once, decoding its export succeeds
    and gives: the version ["2.0"] and the time of the export; every goal,
    intake, theme and reminder as the text of its value, [null] as the
    empty string; every workout type with [completed] telling whether the
    text was ["true"] and with [order] and count read by [parseInt]; the
    histories with every date that has entries; and the habits in their
    order. *)
Theorem export_decodes_to_its_text (now now' : string) (s : Snapshot.t) :
  wellFormed now s = true ->
  tabsOk (Snapshot.workout s) = true ->
  parseCSVData now' (convertDataToCSV now s) = Ok (decoded now s).
Proof.
  intros H Htabs. rewrite parseCSVData_rows by assumption.
  unfold wellFormed in H.
  apply andb_prop in H as [H _]. apply andb_prop in H as [H _].
  apply andb_prop in H as [H Hhabits]. apply andb_prop in H as [H Hworkout].
  apply andb_prop in H as [H Hprotein]. apply andb_prop in H as [_ Hwater].
  apply andb_prop in Hwater as [_ Hwater].
  apply andb_prop in Hprotein as [_ Hprotein].
  apply andb_prop in Hworkout as [_ Hworkout].
  unfold tabsOk in Htabs.
  apply andb_prop in Htabs as [Htabs Hck]. apply andb_prop in Htabs as [Htabs Hcd].
  apply andb_prop in Htabs as [Hsd Hsk].
  unfold dataRows, trackerRows.
  rewrite processRows_app, meta_rows. cbn [bind].
  rewrite <- app_assoc, processRows_app, water_rows. cbn [bind].
  rewrite processRows_app, water_history_rows by (assumption || reflexivity).
  cbn [bind].
  rewrite <- app_assoc, processRows_app, protein_rows. cbn [bind].
  rewrite processRows_app, protein_history_rows by (assumption || reflexivity).
  cbn [bind].
  rewrite processRows_app, workoutState_rows. cbn [bind].
  rewrite processRows_app, workoutCount_rows. cbn [bind].
  rewrite processRows_app, workout_history_rows by (assumption || reflexivity).
  cbn [bind].
  rewrite processRows_app.
  change (imap habitRows (Snapshot.habits s))
    with (imap (fun j => habitRows (0 + j)) (Snapshot.habits s)).
  rewrite (habits_rows (Snapshot.habits s) _ 0) by (assumption || reflexivity).
  cbn [bind]. rewrite settings_rows.
  f_equal. unfold decoded, decodedTracker.
  cbn. rewrite !fold_objSet by (assumption || (intros; reflexivity)).
  reflexivity.
Qed.

Lemma export_decodes_to_its_text_witness :
  parseCSVData "2024-02-01T00:00:00.000Z"
    (convertDataToCSV "2024-01-05T00:00:00.000Z" sampleSnapshot)
  = Ok (decoded "2024-01-05T00:00:00.000Z" sampleSnapshot).
Proof.
  apply export_decodes_to_its_text; reflexivity.
Defined.

(** ** Where decoding raises *)

Module RaiseFacts.
Import Tokenizer Encoder Parse Convert Typed Measures.
Import ToggleFacts.















End RaiseFacts.

Import Tokenizer Encoder Parse Convert Typed Measures.
Import ToggleFacts RaiseFacts.




(** ** What an import writes *)

Module WriteFacts.
Import Parse ImportData Measures.

Section Store.

Variable accepts : gmap string string -> string -> string -> bool.
Variable stringify : forall A : Type, A -> string.

Lemma writeAll_done (writes : list (string * value)) :
  forall store store',
    writeAll accepts store writes = (store', true) ->
    List.NoDup (map fst writes) ->
    (forall k v, In (k, v) writes ->
       store' !! k = if truthy v then Some (toString v) else store !! k)
    /\ (forall k, ~ In k (map fst writes) -> store' !! k = store !! k).
Proof.
  induction writes as [|[k0 v0] writes IH]; intros store store' H Hnd.
  - injection H as <-. split; [contradiction | reflexivity].
  - inversion Hnd as [|? ? Hnot Hnd']; subst. simpl in H.
    destruct (truthy v0) eqn:Ht.
    + unfold setItem in H. destruct (accepts store k0 (toString v0));
        [|discriminate].
      destruct (IH _ _ H Hnd') as [Hin Hout]. split.
      * intros k v [[= <- <-]|Hkv].
        -- rewrite Ht, (Hout _ Hnot). apply lookup_insert_eq.
        -- rewrite (Hin _ _ Hkv).
           destruct (truthy v); [reflexivity|].
           apply lookup_insert_ne. intros ->. apply Hnot.
           apply in_map_iff. now exists (k, v).
      * intros k Hk. rewrite Hout by (simpl in Hk; tauto).
        apply lookup_insert_ne. simpl in Hk. intros ->. tauto.
    + destruct (IH _ _ H Hnd') as [Hin Hout]. split.
      * intros k v [[= <- <-]|Hkv]; [now rewrite Ht, (Hout _ Hnot)|].
        now apply Hin.
      * intros k Hk. apply Hout. simpl in Hk. tauto.
Qed.

Lemma plan_keys (d : Imported.t) : map fst (plan stringify d) = importKeys.
Proof. reflexivity. Qed.

Lemma importKeys_NoDup : List.NoDup importKeys.
Proof.
  unfold importKeys.
  repeat (constructor; [simpl; intuition discriminate|]). constructor.
Qed.

Lemma importData_imported (now : string) (confirmed : bool)
    (store store' : gmap string string) (csvData : string) :
  importData accepts stringify now confirmed store csvData
  = (store', Imported) ->
  exists d,
    parseCSVData now csvData = Ok d
    /\ writeAll accepts store (plan stringify d) = (store', true).
Proof.
  unfold importData.
  destruct (parseCSVData now csvData) as [d| |]; try discriminate.
  destruct (_ <? _)%Z; [discriminate|].
  destruct confirmed; [|discriminate].
  unfold applyImport.
  destruct (writeAll accepts store (plan stringify d)) as [s [|]] eqn:E.
  - intros [= <-]. exists d. now split.
  - destruct (restore _ _ _) as [? [|]]; discriminate.
Qed.

End Store.

End WriteFacts.

Import Parse ImportData Measures.
Import WriteFacts.

(** X17.  An import that succeeds has written, for each of its twelve
    keys, the value that the file gives when that value is truthy, and has
    left the key as it was when the value is [null], empty or otherwise
    falsy; it has left every other key of the store as it was, and it has
    removed no key. *)
Theorem import_adds_and_never_removes
    (accepts : gmap string string -> string -> string -> bool)
    (stringify : forall A : Type, A -> string)
    (now : string) (confirmed : bool) (store store' : gmap string string)
    (csvData : string) :
  importData accepts stringify now confirmed store csvData
  = (store', Imported) ->
  exists d,
    parseCSVData now csvData = Ok d
    /\ (forall k v, In (k, v) (plan stringify d) ->
          store' !! k = if truthy v then Some (toString v) else store !! k)
    /\ (forall k, ~ In k importKeys -> store' !! k = store !! k)
    /\ (forall k, is_Some (store !! k) -> is_Some (store' !! k)).
Proof.
  intros H. apply importData_imported in H as (d & Hd & Hw).
  exists d. split; [exact Hd|].
  destruct (writeAll_done accepts _ _ _ Hw) as [Hin Hout].
  { rewrite plan_keys. apply importKeys_NoDup. }
  rewrite plan_keys in Hout. split; [exact Hin|]. split; [exact Hout|].
  intros k Hk.
  destruct (in_dec String.string_dec k importKeys) as [Hi|Hi].
  - rewrite <- (plan_keys stringify d) in Hi.
    apply in_map_iff in Hi as ([k' v] & Heq & Hkv).
    simpl in Heq. subst k'.
    rewrite (Hin _ _ Hkv). now destruct (truthy v).
  - now rewrite Hout.
Qed.

Lemma import_adds_and_never_removes_witness :
  let store' := (importData roomy sameJson "now" true sampleStore goalOnly).1 in
  store' !! "goal_water" = Some "2500"
  /\ store' !! "app_theme" = Some "dark-theme".
Proof.
  intros store'.
  assert (E : importData roomy sameJson "now" true sampleStore goalOnly
              = (store', Imported)) by (vm_compute; reflexivity).
  destruct (import_adds_and_never_removes _ _ _ _ _ _ _ E)
    as (d & Hd & Hin & Hout & _).
  assert (Hd' : parseCSVData "now" goalOnly
                = Ok (Imported.setWater (initial "now")
                        (Tracker.mk (VStr "2500") VNull [])))
    by (vm_compute; reflexivity).
  rewrite Hd' in Hd. injection Hd as <-.
  split.
  - apply (Hin "goal_water" (VStr "2500")). simpl. tauto.
  - apply (Hin "app_theme" VNull). simpl. tauto.
Defined.

(** ** Days of the calendar *)

Module CivilFacts.
Import Date Civil Measures.
Import DateFacts StreakFacts RowFacts.

Local Open Scope Z_scope.

Lemma valid_iff (c : Civil.t) :
  valid c = true
  <-> 0 <= month c <= 11 /\ 1 <= date c <= daysInMonth (year c) (month c + 1).
Proof.
  unfold valid. rewrite !andb_true_iff, !Z.leb_le. tauto.
Qed.

Lemma daysInMonth_12 (y : Z) : daysInMonth y 12 = 31.
Proof. reflexivity. Qed.

Lemma daysInMonth_1 (y : Z) : daysInMonth y 1 = 31.
Proof. reflexivity. Qed.

Lemma daysBefore_12 (y : Z) : daysBefore y 12 = 334 + leapDay y.
Proof. unfold daysBefore, leapDay. reflexivity. Qed.

Lemma daysBefore_1 (y : Z) : daysBefore y 1 = 0.
Proof. reflexivity. Qed.

Lemma nextDay_day (c : Civil.t) :
  valid c = true ->
  valid (nextDay c) = true /\ dayOf (nextDay c) = dayOf c + 1.
Proof.
  rewrite !valid_iff. destruct c as [y m d]. unfold nextDay, dayOf, dayNumber.
  cbn [year month date]. intros [Hm Hd].
  destruct (d <? daysInMonth y (m + 1)) eqn:E.
  - apply Z.ltb_lt in E. cbn [year month date]. split; lia.
  - apply Z.ltb_ge in E. destruct (m <? 11) eqn:E'.
    + apply Z.ltb_lt in E'. cbn [year month date].
      pose proof (daysInMonth_pos y (m + 1 + 1)).
      rewrite (daysBefore_next y (m + 1)) by lia.
      split; lia.
    + apply Z.ltb_ge in E'. cbn [year month date].
      assert (Hm11 : m = 11) by lia. subst m.
      change (11 + 1) with 12 in *. change (0 + 1) with 1.
      rewrite daysInMonth_12 in *. rewrite daysInMonth_1.
      rewrite dayFromYear_next, daysBefore_12, daysBefore_1.
      split; lia.
Qed.

Lemma prevDay_day (c : Civil.t) :
  valid c = true ->
  valid (prevDay c) = true /\ dayOf (prevDay c) = dayOf c - 1.
Proof.
  rewrite !valid_iff. destruct c as [y m d]. unfold prevDay, dayOf, dayNumber.
  cbn [year month date]. intros [Hm Hd].
  destruct (1 <? d) eqn:E.
  - apply Z.ltb_lt in E. cbn [year month date]. split; lia.
  - apply Z.ltb_ge in E. destruct (0 <? m) eqn:E'.
    + apply Z.ltb_lt in E'. cbn [year month date].
      replace (m - 1 + 1) with m by lia.
      pose proof (daysInMonth_pos y m).
      pose proof (daysBefore_next y m ltac:(lia)) as Hn.
      split; lia.
    + apply Z.ltb_ge in E'. cbn [year month date].
      assert (Hm0 : m = 0) by lia. subst m.
      change (11 + 1) with 12. change (0 + 1) with 1 in *.
      rewrite daysInMonth_12, daysBefore_12, daysBefore_1.
      pose proof (dayFromYear_next (y - 1)) as Hn.
      replace (y - 1 + 1) with y in Hn by lia.
      split; lia.
Qed.

Lemma iter_next (n : nat) (c : Civil.t) :
  valid c = true ->
  valid (Nat.iter n nextDay c) = true
  /\ dayOf (Nat.iter n nextDay c) = dayOf c + Z.of_nat n.
Proof.
  intros Hc. induction n as [|n [IHv IHd]]; [split; [exact Hc | simpl; lia]|].
  rewrite Nat.iter_succ. destruct (nextDay_day _ IHv) as [Hv Hd].
  split; [exact Hv | lia].
Qed.

Lemma iter_prev (n : nat) (c : Civil.t) :
  valid c = true ->
  valid (Nat.iter n prevDay c) = true
  /\ dayOf (Nat.iter n prevDay c) = dayOf c - Z.of_nat n.
Proof.
  intros Hc. induction n as [|n [IHv IHd]]; [split; [exact Hc | simpl; lia]|].
  rewrite Nat.iter_succ. destruct (prevDay_day _ IHv) as [Hv Hd].
  split; [exact Hv | lia].
Qed.

Lemma shiftDays_day (c : Civil.t) (k : Z) :
  valid c = true ->
  valid (shiftDays c k) = true /\ dayOf (shiftDays c k) = dayOf c + k.
Proof.
  intros Hc. unfold shiftDays. destruct (0 <=? k) eqn:E.
  - apply Z.leb_le in E. destruct (iter_next (Z.to_nat k) c Hc) as [Hv Hd].
    split; [exact Hv | lia].
  - apply Z.leb_gt in E. destruct (iter_prev (Z.to_nat (- k)) c Hc) as [Hv Hd].
    split; [exact Hv | lia].
Qed.

Lemma setDate_day (c : Civil.t) (x : Z) :
  valid c = true ->
  valid (setDate c x) = true /\ dayOf (setDate c x) = dayOf c + (x - date c).
Proof. intros Hc. now apply shiftDays_day. Qed.

(** The order of the days is the order of year, month and date. *)
Lemma dayOf_order (a b : Civil.t) :
  valid a = true -> valid b = true ->
  year a < year b
  \/ (year a = year b
      /\ (month a < month b \/ (month a = month b /\ date a < date b))) ->
  dayOf a < dayOf b.
Proof.
  rewrite !valid_iff. intros [Ha1 Ha2] [Hb1 Hb2] H.
  apply dayNumber_mono; lia.
Qed.

Lemma dayOf_inj (a b : Civil.t) :
  valid a = true -> valid b = true -> dayOf a = dayOf b -> a = b.
Proof.
  intros Ha Hb He.
  destruct a as [ya ma da], b as [yb mb db].
  destruct (Z.lt_trichotomy ya yb) as [H|[H|H]].
  - pose proof (dayOf_order _ _ Ha Hb (or_introl H)). lia.
  - destruct (Z.lt_trichotomy ma mb) as [H'|[H'|H']].
    + pose proof (dayOf_order _ _ Ha Hb
                    (or_intror (conj H (or_introl H')))). lia.
    + destruct (Z.lt_trichotomy da db) as [H''|[H''|H'']].
      * pose proof (dayOf_order _ _ Ha Hb
                      (or_intror (conj H (or_intror (conj H' H''))))). lia.
      * now subst.
      * cbn in H, H'. symmetry in H, H'.
        pose proof (dayOf_order _ _ Hb Ha
                      (or_intror (conj H (or_intror (conj H' H''))))). lia.
    + cbn in H. symmetry in H.
      pose proof (dayOf_order _ _ Hb Ha
                    (or_intror (conj H (or_introl H')))). lia.
  - pose proof (dayOf_order _ _ Hb Ha (or_introl H)). lia.
Qed.

Lemma year_order (a b : Civil.t) :
  valid a = true -> valid b = true -> dayOf a <= dayOf b -> year a <= year b.
Proof.
  intros Ha Hb Hle.
  destruct (Z.le_gt_cases (year a) (year b)) as [H|H]; [exact H|].
  pose proof (dayOf_order _ _ Hb Ha (or_introl H)). lia.
Qed.

Lemma upFrom_In (first count z : Z) :
  first <= z < first + count -> In z (upFrom first count).
Proof.
  intros H. unfold upFrom. apply in_map_iff.
  exists (Z.to_nat (z - first)). split; [lia|]. apply in_seq. lia.
Qed.

Lemma years_read_back : forallb yearReadsBack (upFrom 1000 9000) = true.
Proof. vm_compute. reflexivity. Qed.

Lemma twos_read_back : forallb twoReadBack (upFrom 0 100) = true.
Proof. vm_compute. reflexivity. Qed.

Lemma year_text (y : Z) :
  1000 <= y <= 9999 ->
  exists a b c e,
    Num.toString y = String a (String b (String c (String e "")))
    /\ number4 a b c e = Some y.
Proof.
  intros H. pose proof years_read_back as Hall.
  rewrite forallb_forall in Hall.
  specialize (Hall y (upFrom_In 1000 9000 y ltac:(lia))).
  unfold yearReadsBack in Hall.
  destruct (Num.toString y) as [|a [|b [|c [|e [|? ?]]]]]; try discriminate.
  destruct (number4 a b c e) as [y'|] eqn:E; [|discriminate].
  apply Z.eqb_eq in Hall. subst y'. now exists a, b, c, e.
Qed.

Lemma two_text (n : Z) :
  0 <= n <= 99 ->
  exists a b,
    padStart2 (Num.toString n) = String a (String b "")
    /\ number2 a b = Some n.
Proof.
  intros H. pose proof twos_read_back as Hall.
  rewrite forallb_forall in Hall.
  specialize (Hall n (upFrom_In 0 100 n ltac:(lia))).
  unfold twoReadBack in Hall.
  destruct (padStart2 (Num.toString n)) as [|a [|b [|? ?]]]; try discriminate.
  destruct (number2 a b) as [n'|] eqn:E; [|discriminate].
  apply Z.eqb_eq in Hall. subst n'. now exists a, b.
Qed.

Lemma formatDate_fields (now c : Civil.t) :
  valid c = true -> 1000 <= year c <= 9999 ->
  fields (formatDate now (Some c)) = Some (year c, month c + 1, date c).
Proof.
  intros Hv Hy. apply valid_iff in Hv as [Hm Hd].
  pose proof (daysInMonth_pos (year c) (month c + 1)) as Hdim.
  destruct (year_text (year c) Hy) as (a & b & c' & e & Hyt & Hyn).
  destruct (two_text (month c + 1) ltac:(lia)) as (m1 & m2 & Hmt & Hmn).
  destruct (two_text (date c) ltac:(lia)) as (d1 & d2 & Hdt & Hdn).
  unfold formatDate. change (default now (Some c)) with c. cbv zeta.
  rewrite Hyt, Hmt, Hdt.
  rewrite !append_cons, !append_empty_l.
  cbn [fields]. rewrite Hyn, Hmn, Hdn.
  cbn [Ascii.eqb Bool.eqb andb].
  rewrite (proj2 (Z.leb_le 1 (month c + 1))) by lia.
  rewrite (proj2 (Z.leb_le (month c + 1) 12)) by lia.
  rewrite (proj2 (Z.leb_le 1 (date c))) by lia.
  rewrite (proj2 (Z.leb_le (date c) _)) by lia.
  reflexivity.
Qed.

Lemma formatDate_day (now c : Civil.t) :
  valid c = true -> 1000 <= year c <= 9999 ->
  Date.day (formatDate now (Some c)) = Some (dayOf c).
Proof.
  intros Hv Hy. unfold Date.day. now rewrite formatDate_fields.
Qed.

End CivilFacts.

(** ** The days that the habit rows show *)

Module WindowFacts.
Import Date Civil Calendar Streaks Runs Measures.
Import DateFacts StreakFacts RowFacts CivilFacts.

Local Open Scope Z_scope.

(** The key of the day [k] days before today. *)
Lemma key_day (today : Civil.t) (k : Z) :
  valid today = true ->
  0 <= k ->
  1000 <= year (setDate today (date today - k)) ->
  year today <= 9999 ->
  Date.day (formatDate today (Some (setDate today (date today - k))))
  = Some (dayOf today - k).
Proof.
  intros Hv Hk Hlow Hhigh.
  destruct (setDate_day today (date today - k) Hv) as [Hv' Hd].
  rewrite formatDate_day; [f_equal; lia | exact Hv' |].
  split; [exact Hlow|].
  pose proof (year_order _ _ Hv' Hv ltac:(lia)). lia.
Qed.

Lemma earlier_year (today : Civil.t) (k k' : Z) :
  valid today = true -> k <= k' ->
  year (setDate today (date today - k'))
  <= year (setDate today (date today - k)).
Proof.
  intros Hv Hk.
  destruct (setDate_day today (date today - k) Hv) as [Hv1 Hd1].
  destruct (setDate_day today (date today - k') Hv) as [Hv2 Hd2].
  apply year_order; [assumption | assumption | lia].
Qed.

Lemma keys_consecutive (today : Civil.t) (k : Z) :
  valid today = true ->
  0 <= k ->
  1000 <= year (setDate today (date today - (k + 1))) ->
  year today <= 9999 ->
  consecutive
    (formatDate today (Some (setDate today (date today - (k + 1)))))
    (formatDate today (Some (setDate today (date today - k)))) = true.
Proof.
  intros Hv Hk Hlow Hhigh. apply consecutive_iff.
  exists (dayOf today - (k + 1)). split.
  - apply key_day; try assumption; lia.
  - rewrite key_day; try assumption.
    + f_equal. lia.
    + pose proof (earlier_year today k (k + 1) Hv ltac:(lia)). lia.
Qed.

End WindowFacts.

Import Date Civil Calendar Streaks Runs Measures.
Import DateFacts StreakFacts RowFacts CivilFacts WindowFacts.



(** X19.  The four days of a habit row are consecutive days of the
    calendar, the last one [currentDateOffset] days before today; the
    button that goes back shows the four days before them, and going
    forward after going back returns to the same days. *)
Theorem shown_days_are_consecutive (today : Civil.t) (currentDateOffset : Z) :
  valid today = true ->
  (0 <= currentDateOffset)%Z ->
  (1000 <= year (setDate today (date today - (currentDateOffset + 7))))%Z ->
  (year today <= 9999)%Z ->
  chain (shownKeys today currentDateOffset)
  /\ Date.day (List.last (shownKeys today currentDateOffset) "")
     = Some (dayOf today - currentDateOffset)%Z
  /\ consecutive
       (List.last (shownKeys today (back currentDateOffset)) "")
       (List.hd "" (shownKeys today currentDateOffset)) = true
  /\ forward (back currentDateOffset) = currentDateOffset.
Proof.
  intros Hv Ho Hlow Hhigh.
  assert (Hyear : forall k, (k <= currentDateOffset + 7)%Z ->
            (1000 <= year (setDate today (date today - k)))%Z).
  { intros k Hk.
    pose proof (earlier_year today k (currentDateOffset + 7) Hv Hk). lia. }
  assert (Hstep : forall i, (0 <= i)%Z -> (i + 1 <= 7)%Z ->
    consecutive
      (formatDate today
         (Some (setDate today (date today - (i + 1) - currentDateOffset))))
      (formatDate today
         (Some (setDate today (date today - i - currentDateOffset)))) = true).
  { intros i H0 H7.
    replace (date today - (i + 1) - currentDateOffset)%Z
      with (date today - (i + currentDateOffset + 1))%Z by lia.
    replace (date today - i - currentDateOffset)%Z
      with (date today - (i + currentDateOffset))%Z by lia.
    apply keys_consecutive; try assumption; [lia|]. apply Hyear. lia. }
  unfold back, forward, shownKeys, countDown, DAYS_TO_SHOW.
  cbn [seq rev app map List.last List.hd].
  split; [|split; [|split]].
  - apply chain_cons; [apply (Hstep 2%Z); lia|].
    apply chain_cons; [apply (Hstep 1%Z); lia|].
    apply chain_cons; [apply (Hstep 0%Z); lia|].
    apply chain_one.
  - change (Z.of_nat 0) with 0%Z.
    replace (date today - 0 - currentDateOffset)%Z
      with (date today - currentDateOffset)%Z by lia.
    apply key_day; try assumption. apply Hyear. lia.
  - change (Z.of_nat 0) with 0%Z. change (Z.of_nat 3) with 3%Z.
    change (Z.of_nat 4) with 4%Z.
    replace (date today - 0 - (currentDateOffset + 4))%Z
      with (date today - (3 + currentDateOffset + 1))%Z by lia.
    replace (date today - 3 - currentDateOffset)%Z
      with (date today - (3 + currentDateOffset))%Z by lia.
    apply keys_consecutive; try assumption; [lia|]. apply Hyear. lia.
  - lia.
Qed.

Lemma shown_days_are_consecutive_witness :
  chain (shownKeys (Civil.mk 2024 2 1) 0)
  /\ shownKeys (Civil.mk 2024 2 1) 0
     = ["2024-02-27"; "2024-02-28"; "2024-02-29"; "2024-03-01"].
Proof.
  split; [|reflexivity].
  apply (shown_days_are_consecutive (Civil.mk 2024 2 1) 0);
    [reflexivity | lia | vm_compute; discriminate | cbn; lia].
Defined.

(** ** The months of the calendar *)

Module MonthFacts.
Import Date Civil Calendar Streaks Runs Measures.
Import DateFacts StreakFacts RowFacts CivilFacts.

Local Open Scope Z_scope.

(** Counting on from the first of a month stays in the month up to its
    last day, and reaches the next month after it. *)
Lemma shift_within (y m d : Z) :
  0 <= m <= 11 -> 1 <= d <= daysInMonth y (m + 1) ->
  shiftDays (Civil.mk y m 1) (d - 1) = Civil.mk y m d.
Proof.
  intros Hm Hd.
  pose proof (daysInMonth_pos y (m + 1)) as Hdim.
  assert (Hv1 : valid (Civil.mk y m 1) = true) by (apply valid_iff; cbn; lia).
  destruct (shiftDays_day _ (d - 1) Hv1) as [Hv Hday].
  apply dayOf_inj; [exact Hv | apply valid_iff; cbn; lia |].
  rewrite Hday. unfold dayOf, dayNumber. cbn. lia.
Qed.

Lemma shift_beyond (y m d : Z) :
  0 <= m <= 10 -> daysInMonth y (m + 1) < d <= 31 ->
  shiftDays (Civil.mk y m 1) (d - 1)
  = Civil.mk y (m + 1) (d - daysInMonth y (m + 1)).
Proof.
  intros Hm Hd.
  pose proof (daysInMonth_pos y (m + 1)) as Hdim.
  pose proof (daysInMonth_pos y (m + 1 + 1)) as Hdim'.
  assert (Hv1 : valid (Civil.mk y m 1) = true) by (apply valid_iff; cbn; lia).
  destruct (shiftDays_day _ (d - 1) Hv1) as [Hv Hday].
  apply dayOf_inj; [exact Hv | apply valid_iff; cbn; lia |].
  rewrite Hday. unfold dayOf, dayNumber. cbn.
  rewrite (daysBefore_next y (m + 1)) by lia. lia.
Qed.

Lemma month_parts (y x : Z) :
  12 * (y + x / 12) + x mod 12 = 12 * y + x /\ 0 <= x mod 12 <= 11.
Proof. pose proof (Z.div_mod x 12). pose proof (Z.mod_pos_bound x 12). lia. Qed.

(** [setMonth] on a date that every month has. *)
Lemma setMonth_short (c : Civil.t) (x : Z) :
  1 <= date c <= 28 ->
  monthIndex (monthOf (setMonth c x)) = 12 * year c + x.
Proof.
  intros Hd. unfold setMonth.
  destruct (month_parts (year c) x) as [Hidx Hm].
  pose proof (daysInMonth_pos (year c + x / 12) (x mod 12 + 1)).
  rewrite shift_within by lia.
  unfold monthIndex, monthOf. cbn. exact Hidx.
Qed.

Lemma makeDate_plain (y m d : Z) :
  100 <= y -> 0 <= m <= 11 -> 1 <= d <= daysInMonth y (m + 1) ->
  makeDate y m d = Civil.mk y m d.
Proof.
  intros Hy Hm Hd. unfold makeDate.
  replace ((0 <=? y) && (y <=? 99)) with false
    by (symmetry; apply andb_false_iff; right; apply Z.leb_gt; lia).
  rewrite Z.div_small, Z.mod_small by lia.
  rewrite Z.add_0_r. now apply shift_within.
Qed.

Lemma upFrom_map {A : Type} (f g : Z -> A) (first count : Z) :
  (forall i, first <= i < first + count -> f i = g i) ->
  map f (upFrom first count) = map g (upFrom first count).
Proof.
  intros H. unfold upFrom. rewrite !map_map. apply map_ext_in.
  intros n Hn. apply in_seq in Hn. apply H. lia.
Qed.

Lemma upFrom_length (first count : Z) :
  length (upFrom first count) = Z.to_nat count.
Proof. unfold upFrom. now rewrite length_map, length_seq. Qed.

Lemma upFrom_lookup (first count : Z) (i : nat) :
  (i < Z.to_nat count)%nat ->
  upFrom first count !! i = Some (first + Z.of_nat i).
Proof.
  intros Hi. unfold upFrom.
  change (map ?f ?l) with (f <$> l).
  rewrite list_lookup_fmap, lookup_seq_lt by exact Hi. reflexivity.
Qed.

(** The day before the first of the next month. *)
Lemma makeDate_last (y m : Z) :
  100 <= y -> 0 <= m <= 11 ->
  makeDate y (m + 1) 0 = Civil.mk y m (daysInMonth y (m + 1)).
Proof.
  intros Hy Hm. unfold makeDate.
  replace ((0 <=? y) && (y <=? 99)) with false
    by (symmetry; apply andb_false_iff; right; apply Z.leb_gt; lia).
  pose proof (daysInMonth_pos y (m + 1)) as Hdim.
  set (c := Civil.mk y m (daysInMonth y (m + 1))).
  assert (Hc : valid c = true) by (apply valid_iff; cbn; lia).
  assert (Hnext : Civil.mk (y + (m + 1) / 12) ((m + 1) mod 12) 1 = nextDay c).
  { unfold nextDay, c. cbn [year month date]. rewrite Z.ltb_irrefl.
    destruct (m <? 11) eqn:E.
    - apply Z.ltb_lt in E. rewrite Z.div_small, Z.mod_small by lia.
      now rewrite Z.add_0_r.
    - apply Z.ltb_ge in E. assert (m = 11) by lia. subst m. reflexivity. }
  rewrite Hnext.
  destruct (nextDay_day c Hc) as [Hv Hday].
  destruct (shiftDays_day (nextDay c) (0 - 1) Hv) as [Hv' Hday'].
  apply dayOf_inj; [exact Hv' | exact Hc | lia].
Qed.

End MonthFacts.

Import Date Civil Calendar Streaks Runs Measures.
Import DateFacts StreakFacts RowFacts CivilFacts MonthFacts.

(** X20.  [createMonthCalendar] lays a month out in rows of seven cells
    under the labels from Monday to Sunday.  For a month of a year from 100
    on, the grid has one cell for each day of the month after at most six
    empty cells; the cell of every day lies in the column of its day of the
    week, carries the key of the day, and is active exactly when the
    history has the status done for that key. *)
Theorem month_grid_puts_days_under_their_weekday
    (history : obj value) (monthDate : Civil.t) (d : Z) :
  (100 <= year monthDate)%Z ->
  (0 <= month monthDate <= 11)%Z ->
  (1 <= d <= daysInMonth (year monthDate) (month monthDate + 1))%Z ->
  let this := Civil.mk (year monthDate) (month monthDate) d in
  let first := Civil.mk (year monthDate) (month monthDate) 1 in
  let cells := createMonthCalendar history monthDate in
  let blanks := ((getDay first + 6) mod 7)%Z in
  let key := formatDate this (Some this) in
  length cells
  = Z.to_nat (blanks + daysInMonth (year monthDate) (month monthDate + 1))
  /\ (forall i, (i < Z.to_nat blanks)%nat -> cells !! i = Some Empty)
  /\ cells !! Z.to_nat (blanks + d - 1)
     = Some (DayCell d key (isDoneAt history key))
  /\ ((blanks + d - 1) mod 7 = (getDay this + 6) mod 7)%Z.
Proof.
  intros Hy Hm Hd this first cells blanks key.
  set (y := year monthDate) in *. set (m := month monthDate) in *.
  pose proof (daysInMonth_pos y (m + 1)) as Hdim.
  assert (Hblanks : (0 <= blanks <= 6)%Z).
  { unfold blanks. pose proof (Z.mod_pos_bound (getDay first + 6) 7). lia. }
  assert (Hcells : cells
    = replicate (Z.to_nat blanks) Empty
      ++ map (fun day0 =>
                let date0 := makeDate y m day0 in
                let dateKey := formatDate date0 (Some date0) in
                DayCell day0 dateKey
                  (match objGet dateKey history with
                   | Some status => isStr status "done"
                   | None => false
                   end))
           (upFrom 1 (daysInMonth y (m + 1)))).
  { unfold cells, createMonthCalendar. fold y m. cbv zeta.
    rewrite makeDate_last by assumption. cbn [date].
    rewrite (makeDate_plain y m 1) by lia. fold first.
    f_equal. f_equal. f_equal. unfold blanks.
    assert (Hg : (0 <= getDay first < 7)%Z)
      by (unfold getDay; apply Z.mod_pos_bound; lia).
    destruct (getDay first =? 0)%Z eqn:E.
    - apply Z.eqb_eq in E. rewrite E. reflexivity.
    - apply Z.eqb_neq in E.
      replace (getDay first + 6)%Z with (getDay first - 1 + 1 * 7)%Z by lia.
      rewrite Z.mod_add, Z.mod_small by lia. reflexivity. }
  rewrite Hcells. repeat split.
  - rewrite length_app, length_replicate, length_map, upFrom_length. lia.
  - intros i Hi. rewrite lookup_app_l by (rewrite length_replicate; lia).
    now apply lookup_replicate_2.
  - rewrite lookup_app_r by (rewrite length_replicate; lia).
    rewrite length_replicate.
    replace (Z.to_nat (blanks + d - 1) - Z.to_nat blanks)%nat
      with (Z.to_nat (d - 1)) by lia.
    change (map ?f ?l) with (f <$> l).
    rewrite list_lookup_fmap, upFrom_lookup by lia.
    cbn [fmap option_fmap option_map]. cbv zeta.
    replace (1 + Z.of_nat (Z.to_nat (d - 1)))%Z with d by lia.
    rewrite makeDate_plain by lia. reflexivity.
  - unfold blanks, getDay.
    assert (Hday : dayOf this = (dayOf first + (d - 1))%Z)
      by (unfold dayOf, dayNumber, this, first; cbn; lia).
    rewrite Hday. clear. Z.div_mod_to_equations. lia.
Qed.

(** February 2024 starts on a Thursday, after three empty cells; the 29th
    is a Thursday too. *)
Lemma month_grid_puts_days_under_their_weekday_witness :
  createMonthCalendar [("2024-02-29", VStr "done")] (Civil.mk 2024 1 1)
    !! 31%nat
  = Some (DayCell 29 "2024-02-29" true)
  /\ (31 mod 7 = 3)%Z.
Proof.
  split; [|reflexivity].
  destruct (month_grid_puts_days_under_their_weekday
              [("2024-02-29", VStr "done")] (Civil.mk 2024 1 1) 29)
    as (_ & _ & Hcell & _);
    [cbn; lia | cbn; lia | split; [lia | apply Z.leb_le; reflexivity] |].
  exact Hcell.
Defined.

(** ** The list of months of the calendar *)

Module MonthListFacts.
Import Date Civil Calendar Streaks Runs Measures.
Import DateFacts StreakFacts RowFacts CivilFacts MonthFacts.

Local Open Scope Z_scope.

Lemma monthAt_parts (y x : Z) :
  monthAt (12 * y + x) = (y + x / 12, x mod 12).
Proof.
  unfold monthAt. f_equal.
  - rewrite Z.add_comm, Z.mul_comm, Z.div_add by lia. lia.
  - rewrite Z.add_comm, Z.mul_comm, Z.mod_add by lia. reflexivity.
Qed.

Lemma monthAt_next (y m : Z) :
  0 <= m <= 10 -> monthAt (12 * y + m + 1) = (y, m + 1).
Proof.
  intros Hm. replace (12 * y + m + 1) with (12 * y + (m + 1)) by lia.
  rewrite monthAt_parts, Z.div_small, Z.mod_small by lia.
  now rewrite Z.add_0_r.
Qed.

(** [setMonth] reaches the month it is given when that month has the day
    of the month of the date, and the month after it otherwise. *)
Lemma setMonth_month (c : Civil.t) (x : Z) :
  1 <= date c <= 31 ->
  monthOf (setMonth c x)
  = monthAt (12 * year c + x
             + (if date c <=? monthLength (12 * year c + x) then 0 else 1)).
Proof.
  intros Hd. unfold setMonth, monthLength.
  rewrite (monthAt_parts (year c) x). cbn [fst snd].
  pose proof (Z.mod_pos_bound x 12 ltac:(lia)) as Hm.
  destruct (date c <=? _) eqn:E.
  - apply Z.leb_le in E. rewrite shift_within by lia.
    rewrite Z.add_0_r, monthAt_parts. reflexivity.
  - apply Z.leb_gt in E.
    assert (Hm' : x mod 12 <= 10).
    { destruct (Z.eq_dec (x mod 12) 11) as [H11|]; [|lia].
      rewrite H11 in E. change (11 + 1) with 12 in E.
      rewrite daysInMonth_12 in E. lia. }
    rewrite shift_beyond by lia.
    pose proof (monthAt_parts (year c) x) as Hp.
    unfold monthOf. cbn [year month].
    pose proof (Z.div_mod x 12 ltac:(lia)) as Hx.
    replace (12 * year c + x + 1)
      with (12 * (year c + x / 12) + x mod 12 + 1) by lia.
    now rewrite monthAt_next by lia.
Qed.

(** The months of [renderCalendar], one by one. *)
Lemma renderCalendar_months (today : Civil.t) :
  valid today = true ->
  renderCalendar today
  = map (fun i =>
           monthAt (monthIndex (monthOf today) - i
                    + (if hasDay today i then 0 else 1)))
      (upFrom 0 13).
Proof.
  intros Hv. apply valid_iff in Hv. destruct Hv as [Hm Hd].
  pose proof (daysInMonth_pos (year today) (month today + 1)) as Hdim.
  unfold renderCalendar.
  change (upFrom 0 13) with (0 :: upFrom 1 12). cbn [map]. f_equal.
  - assert (Hidx : monthAt (monthIndex (monthOf today)) = monthOf today).
    { unfold monthIndex, monthOf. cbn [fst snd].
      rewrite monthAt_parts, Z.div_small, Z.mod_small by lia.
      now rewrite Z.add_0_r. }
    unfold hasDay, monthLength. rewrite Z.sub_0_r, Hidx.
    change (monthOf today).1 with (year today).
    change (monthOf today).2 with (month today).
    replace (date today <=? _) with true by (symmetry; apply Z.leb_le; lia).
    now rewrite Z.add_0_r.
  - apply upFrom_map. intros i Hi.
    rewrite setMonth_month by lia.
    unfold hasDay, monthIndex, monthOf. cbn [fst snd].
    replace (12 * year today + (month today - i))
      with (12 * year today + month today - i) by lia.
    reflexivity.
Qed.

(** The first place where a test fails comes after a place where it
    holds. *)
Lemma first_failure (f : Z -> bool) (n : nat) :
  f 0 = true ->
  (exists i, 0 <= i <= Z.of_nat n /\ f i = false) ->
  exists i, 1 <= i <= Z.of_nat n /\ f i = false /\ f (i - 1) = true.
Proof.
  intros H0. induction n as [|n IH]; intros (i & Hi & Hf).
  - assert (i = 0) by lia. subst i. congruence.
  - destruct (f (Z.of_nat n)) eqn:En.
    + destruct (Z.eq_dec i (Z.of_nat (S n))) as [->|Hne].
      * exists (Z.of_nat (S n)). split; [lia|]. split; [exact Hf|].
        now replace (Z.of_nat (S n) - 1) with (Z.of_nat n) by lia.
      * destruct IH as (j & Hj & Hfj & Hfj'); [exists i; split; [lia|easy]|].
        exists j. split; [lia|]. easy.
    + destruct IH as (j & Hj & Hfj & Hfj');
        [exists (Z.of_nat n); split; [lia|easy]|].
      exists j. split; [lia|]. easy.
Qed.

Lemma forallb_false {A : Type} (f : A -> bool) (l : list A) :
  forallb f l = false -> exists x, In x l /\ f x = false.
Proof.
  induction l as [|a l IH]; [discriminate|]. cbn [forallb].
  destruct (f a) eqn:E; cbn [andb].
  - intros H. destruct (IH H) as (x & Hx & Hfx). exists x. split; [now right|easy].
  - intros _. exists a. split; [now left|easy].
Qed.

(** The months that are added after a month of a year from 100 on. *)
Lemma months_from (y m : Z) (op : Z -> Z -> Z) (count : Z) :
  100 <= y -> 0 <= m <= 11 ->
  map (fun i => monthOf (setMonth (makeDate y m 1)
                           (op (month (makeDate y m 1)) i)))
    (upFrom 1 count)
  = map (fun i => monthAt (12 * y + op m i)) (upFrom 1 count).
Proof.
  intros Hy Hm. pose proof (daysInMonth_pos y (m + 1)).
  rewrite makeDate_plain by lia.
  apply upFrom_map. intros i _.
  rewrite setMonth_month by (cbn; lia). cbn [year month date].
  replace (1 <=? _) with true; [now rewrite Z.add_0_r|].
  symmetry. apply Z.leb_le. unfold monthLength.
  pose proof (daysInMonth_pos
                (monthAt (12 * y + op m i)).1
                ((monthAt (12 * y + op m i)).2 + 1)). lia.
Qed.

Lemma hasDay_today (today : Civil.t) :
  valid today = true -> hasDay today 0 = true.
Proof.
  intros Hv. apply valid_iff in Hv. destruct Hv as [Hm Hd].
  unfold hasDay, monthLength, monthIndex, monthOf. cbn [fst snd].
  rewrite Z.sub_0_r, monthAt_parts, Z.div_small, Z.mod_small by lia.
  cbn [fst snd]. rewrite Z.add_0_r. now apply Z.leb_le.
Qed.

Lemma upFrom_range (first count z : Z) :
  In z (upFrom first count) -> first <= z < first + count.
Proof.
  unfold upFrom. intros Hin. apply in_map_iff in Hin.
  destruct Hin as (n & <- & Hn). apply in_seq in Hn. lia.
Qed.

Lemma renderCalendar_full (today : Civil.t) :
  valid today = true ->
  forallb (hasDay today) (upFrom 1 12) = true ->
  renderCalendar today
  = map (fun i => monthAt (monthIndex (monthOf today) - i)) (upFrom 0 13).
Proof.
  intros Hv Hall. rewrite renderCalendar_months by exact Hv.
  pose proof (hasDay_today today Hv) as H0.
  change (upFrom 0 13) with (0 :: upFrom 1 12). cbn [map].
  rewrite H0. f_equal; [now rewrite Z.add_0_r|].
  apply map_ext_in. intros i Hi.
  rewrite forallb_forall in Hall. rewrite (Hall i Hi).
  now rewrite Z.add_0_r.
Qed.

Lemma february_length (y : Z) : daysInMonth y 2 <= 29.
Proof. unfold daysInMonth. cbn. destruct (isLeap y); lia. Qed.

(** One of the twelve months before any month is a February. *)
Lemma february_before (k : Z) :
  exists i, 1 <= i <= 12 /\ (k - i) mod 12 = 1.
Proof.
  exists ((k - 2) mod 12 + 1).
  pose proof (Z.mod_pos_bound (k - 2) 12 ltac:(lia)).
  split; [lia|]. Z.div_mod_to_equations. lia.
Qed.

Lemma last_months (g : Z -> Z * Z) :
  last (map g (upFrom 0 13)) = Some (g 12).
Proof. reflexivity. Qed.

End MonthListFacts.

Import Date Civil Calendar Streaks Runs Measures.
Import DateFacts StreakFacts RowFacts CivilFacts MonthFacts MonthListFacts.

(** X21.  [renderCalendar] lists the current month and the twelve months
    before it, one after the other, when each of those twelve months has
    the day of the month of today; this is so up to the 28th.  When one of
    them is too short for that day, which is always so on the 30th and the
    31st, the list has one month twice. *)
Theorem renderCalendar_months_run_back_or_repeat (today : Civil.t) :
  valid today = true ->
  (forallb (hasDay today) (upFrom 1 12) = true ->
   renderCalendar today
   = map (fun i => monthAt (monthIndex (monthOf today) - i)) (upFrom 0 13))
  /\ (forallb (hasDay today) (upFrom 1 12) = false ->
      ~ NoDup (renderCalendar today))
  /\ ((date today <= 28)%Z -> forallb (hasDay today) (upFrom 1 12) = true)
  /\ ((30 <= date today)%Z -> forallb (hasDay today) (upFrom 1 12) = false).
Proof.
  intros Hv. split; [now apply renderCalendar_full|]. split; [|split].
  - intros Hnot Hnd.
    apply forallb_false in Hnot. destruct Hnot as (i0 & Hi0 & Hf0).
    apply upFrom_range in Hi0.
    destruct (first_failure (hasDay today) 12 (hasDay_today today Hv))
      as (i & Hi & Hf & Hf'); [exists i0; split; [lia|easy]|].
    rewrite renderCalendar_months in Hnd by exact Hv.
    set (g := fun i => monthAt _) in Hnd.
    assert (Hl : forall j, (0 <= j <= 12)%Z ->
              map g (upFrom 0 13) !! Z.to_nat j = Some (g j)).
    { intros j Hj. change (map ?f ?l) with (f <$> l).
      rewrite list_lookup_fmap, upFrom_lookup by lia.
      cbn [fmap option_fmap option_map]. do 2 f_equal. lia. }
    assert (Heq : g i = g (i - 1)%Z).
    { unfold g. rewrite Hf, Hf'. f_equal. lia. }
    pose proof (Hl i ltac:(lia)) as Hi1. rewrite Heq in Hi1.
    pose proof (NoDup_lookup _ _ _ _ Hnd Hi1 (Hl (i - 1)%Z ltac:(lia))). lia.
  - intros Hd. apply forallb_forall. intros i _.
    unfold hasDay, monthLength. apply Z.leb_le.
    pose proof (daysInMonth_pos
                  (monthAt (monthIndex (monthOf today) - i)).1
                  ((monthAt (monthIndex (monthOf today) - i)).2 + 1)).
    lia.
  - intros Hd. destruct (forallb (hasDay today) (upFrom 1 12)) eqn:Hall;
      [|reflexivity].
    rewrite forallb_forall in Hall.
    destruct (february_before (monthIndex (monthOf today)))
      as (i & Hi & Hfeb).
    specialize (Hall i ltac:(apply upFrom_In; lia)).
    unfold hasDay, monthLength, monthAt in Hall. cbn [fst snd] in Hall.
    rewrite Hfeb in Hall. change (1 + 1)%Z with 2%Z in Hall.
    apply Z.leb_le in Hall.
    pose proof (february_length ((monthIndex (monthOf today) - i) / 12)).
    lia.
Qed.

(** On 15 March 2024 the list runs back to March 2023; on 31 March 2024 it
    has March 2024 twice and no February. *)
Lemma renderCalendar_months_run_back_or_repeat_witness :
  renderCalendar (Civil.mk 2024 2 15)
  = [(2024, 2); (2024, 1); (2024, 0); (2023, 11); (2023, 10); (2023, 9);
     (2023, 8); (2023, 7); (2023, 6); (2023, 5); (2023, 4); (2023, 3);
     (2023, 2)]%Z
  /\ ~ NoDup (renderCalendar (Civil.mk 2024 2 31)).
Proof.
  split.
  - destruct (renderCalendar_months_run_back_or_repeat (Civil.mk 2024 2 15))
      as (Hrun & _); [reflexivity|].
    rewrite Hrun by reflexivity. reflexivity.
  - destruct (renderCalendar_months_run_back_or_repeat (Civil.mk 2024 2 31))
      as (_ & Hrep & _); [reflexivity|].
    apply Hrep. reflexivity.
Defined.

(** X22.  [loadMorePastMonths] adds the twelve months before the last
    month of the list, one after the other, when the last month is a month
    of a year from 100 on; after [renderCalendar] on a day that all twelve
    months before have, the list then runs back over twenty-five months. *)
Theorem loadMorePastMonths_adds_the_year_before
    (months : list (Z * Z)) (oldestYear oldestMonth : Z) :
  last months = Some (oldestYear, oldestMonth) ->
  (100 <= oldestYear)%Z ->
  (0 <= oldestMonth <= 11)%Z ->
  loadMorePastMonths months
  = months
    ++ map (fun i => monthAt (12 * oldestYear + (oldestMonth - i)))
         (upFrom 1 12)
  /\ (forall today,
        valid today = true ->
        forallb (hasDay today) (upFrom 1 12) = true ->
        months = renderCalendar today ->
        loadMorePastMonths months
        = map (fun i => monthAt (monthIndex (monthOf today) - i))
            (upFrom 0 25)).
Proof.
  intros Hlast Hy Hm.
  assert (Hadd : loadMorePastMonths months
    = months
      ++ map (fun i => monthAt (12 * oldestYear + (oldestMonth - i))%Z)
           (upFrom 1 12)).
  { unfold loadMorePastMonths. rewrite Hlast. cbv zeta. f_equal.
    exact (months_from oldestYear oldestMonth Z.sub 12 Hy Hm). }
  split; [exact Hadd|].
  intros today Hv Hall Hmonths. rewrite Hadd.
  pose proof (renderCalendar_full today Hv Hall) as Hfull.
  rewrite Hmonths, Hfull in Hlast. rewrite last_months in Hlast.
  injection Hlast as Hy' Hm'.
  rewrite Hmonths, Hfull.
  set (k := monthIndex (monthOf today)) in *.
  assert (Hk : (12 * oldestYear + oldestMonth = k - 12)%Z).
  { rewrite <- Hy', <- Hm'. pose proof (Z.div_mod (k - 12) 12 ltac:(lia)). lia. }
  change (upFrom 0 25) with (upFrom 0 13 ++ map (fun i => 12 + i)%Z (upFrom 1 12)).
  rewrite map_app, map_map. f_equal.
  apply map_ext. intros i. f_equal. lia.
Qed.

Lemma loadMorePastMonths_adds_the_year_before_witness :
  loadMorePastMonths [(2024, 2); (2024, 1)]%Z
  = [(2024, 2); (2024, 1);
     (2024, 0); (2023, 11); (2023, 10); (2023, 9); (2023, 8); (2023, 7);
     (2023, 6); (2023, 5); (2023, 4); (2023, 3); (2023, 2); (2023, 1)]%Z.
Proof.
  destruct (loadMorePastMonths_adds_the_year_before
              [(2024, 2); (2024, 1)]%Z 2024 1) as (Hadd & _);
    [reflexivity | lia | lia |].
  rewrite Hadd. reflexivity.
Defined.


